(** * StockPlay: the virtual brokerage of [stock_api]

    A shallow embedding of the trading core of the repository:

    - [trading_service.py]: [TradingService.buy_stock], [sell_stock],
      [get_real_time_price] and the helpers they call;
    - [trading_routes.py]: the per-holding valuation of [get_portfolio];
    - [trading_database.py]: the tables the two modules read and write.

    Conventions of the embedding.

    - [decimal.Decimal] values and the floats that the code turns into
      decimals with [Decimal(str(x))] are rationals ([Q]); results are compared
      with [==].  The arithmetic is exact, and a row of the ledger holds the
      values that the statement which wrote it binds: the conversions
      [float(..)] applied just before binding are not modelled, and the
      sizes of the columns (VARCHAR(10), INTEGER, the precision of the
      DECIMALs) are not checked.  What a [DECIMAL(p,s)] column keeps of a
      bound value is its rounding to [s] decimals: [Column.numeric], applied
      to a holding by [Column.stored].
    - Python [int]s are [Z]; timestamps are seconds as [Z].
    - The tables are finite maps keyed by their UNIQUE columns; the
      transaction log and the notifications are lists, newest first.  Of the
      schema, the keys, the CHECK (quantity > 0) of [stock_holdings] and the
      BEFORE UPDATE triggers are modelled; defaults are not.  The calls run
      one after the other: a call sees the database that the previous call
      left.
    - Everything the code obtains from outside (price sources, company names,
      the clock, random draws) is an explicit argument.
    - The prices of trades and valuations are finite floats; the floats that
      are not finite appear in the oracle and in [buy_stock_float].  The
      float functions [pow] and [round] are parameters, taken where they
      return. *)

From Stdlib Require Import QArith Qabs Qminmax Qround ZArith List String Ascii Bool Lia Lqa Sorted.
From stdpp Require Import gmap strings.

Local Open Scope Q_scope.

(** ** Python values *)

Module Py.

(** A Python [float]: a finite value or one of the three special values. *)
Inductive pyfloat : Type :=
| Fin (q : Q)
| PosInf
| NegInf
| NaN.

(** [bool(x)] for a float: only zero is falsy ([nan] and the infinities are
    truthy). *)
Definition truthy (x : pyfloat) : bool :=
  match x with
  | Fin q => negb (Qeq_bool q 0)
  | _ => true
  end.

(** [x > 0] for a float. *)
Definition gt0 (x : pyfloat) : bool :=
  match x with
  | Fin q => if Qlt_le_dec 0 q then true else false
  | PosInf => true
  | NegInf | NaN => false
  end.

(** The guard [price and price > 0] used for every candidate price; [None]
    is falsy. *)
Definition usable (v : option pyfloat) : bool :=
  match v with
  | Some x => truthy x && gt0 x
  | None => false
  end.

(** [str.upper] on ASCII letters. *)
Definition upper_ascii (c : ascii) : ascii :=
  let n := nat_of_ascii c in
  if ((97 <=? n)%nat && (n <=? 122)%nat)%bool then ascii_of_nat (n - 32) else c.

Fixpoint upper (s : string) : string :=
  match s with
  | EmptyString => EmptyString
  | String c r => String (upper_ascii c) (upper r)
  end.

End Py.

(** ** The price oracle: [TradingService.get_real_time_price] *)

(** The outcome of the body of one [try] block up to the point where a value
    is at hand: any exception raised on the way ([requests.get] timing out, a
    response that is not JSON, a missing attribute, ...) or the value. *)
Inductive Attempt (A : Type) : Type :=
| Raises
| Returns (a : A).
Arguments Raises {A}.
Arguments Returns {A} a.

(** The six sources, in the order of the code. *)
Inductive Source : Type :=
| Finnhub | AlphaVantage | YfFastInfo | YfInfo | YfHistory | YahooChart.

(** The field ['05. price'] of Alpha Vantage is text: it is absent (or empty,
    hence falsy), or [float(..)] is applied to it, which raises [ValueError]
    ([None] below) or yields a float. *)
Inductive AlphaField : Type :=
| AlphaMissing
| AlphaText (parsed : option Py.pyfloat).

(** The fields of [ticker.info] that source 4 reads. *)
Inductive InfoField : Type :=
| currentPrice | regularMarketPrice | previousClose | open | bid | ask.

(** What the outside world would answer to each request for one symbol. *)
Record Sources : Type := mkSources {
  FINNHUB_API_KEY : bool;
  (* status code and [data.get('c')] *)
  finnhub_quote : Attempt (Z * option Py.pyfloat);
  ALPHA_VANTAGE_API_KEY : bool;
  (* status code and [data.get('Global Quote', {}).get('05. price')] *)
  alpha_global_quote : Attempt (Z * AlphaField);
  (* [ticker.fast_info.get('last_price', None)] *)
  fast_info_last_price : Attempt (option Py.pyfloat);
  (* [ticker.info.get(field)] *)
  info : Attempt (InfoField -> option Py.pyfloat);
  (* [hist['Close'].iloc[-1]], [None] when [hist.empty] *)
  history_last_close : Attempt (option Py.pyfloat);
  (* status code and [data['chart']['result'][0]['meta']['regularMarketPrice']],
     [None] when one of the guards on the way is false *)
  yahoo_chart : Attempt (Z * option Py.pyfloat)
}.

(** The answer of one [try] block: the price it returns, if it returns, and
    whether the source was contacted. *)
Definition Tried : Type := (option Py.pyfloat * list Source)%type.

Definition accept (src : Source) (v : option Py.pyfloat) : Tried :=
  if Py.usable v then (v, [src]) else (None, [src]).

(** 1. Finnhub (lines 301-321). *)
Definition try_finnhub (w : Sources) : Tried :=
  if negb (FINNHUB_API_KEY w) then (None, [])      (* raise Exception("Missing ...") *)
  else
    match finnhub_quote w with
    | Raises => (None, [Finnhub])
    | Returns (status_code, current_price) =>
        if (status_code =? 200)%Z then accept Finnhub current_price
        else (None, [Finnhub])
    end.

(** 2. Alpha Vantage (lines 324-346). *)
Definition try_alpha_vantage (w : Sources) : Tried :=
  if negb (ALPHA_VANTAGE_API_KEY w) then (None, [])
  else
    match alpha_global_quote w with
    | Raises => (None, [AlphaVantage])
    | Returns (status_code, current_price) =>
        if (status_code =? 200)%Z then
          match current_price with
          | AlphaMissing => (None, [AlphaVantage])
          | AlphaText None => (None, [AlphaVantage])       (* ValueError *)
          | AlphaText (Some price) =>
              if Py.gt0 price then (Some price, [AlphaVantage]) else (None, [AlphaVantage])
          end
        else (None, [AlphaVantage])
    end.

(** 3. yfinance fast_info (lines 349-358). *)
Definition try_fast_info (w : Sources) : Tried :=
  match fast_info_last_price w with
  | Raises => (None, [YfFastInfo])
  | Returns price => accept YfFastInfo price
  end.

(** The loop over [price_fields] of source 4: the first usable field. *)
Fixpoint first_usable_field (get : InfoField -> option Py.pyfloat) (fields : list InfoField)
    : option Py.pyfloat :=
  match fields with
  | [] => None
  | field :: rest =>
      let price := get field in
      if Py.usable price then price else first_usable_field get rest
  end.

Definition price_fields : list InfoField :=
  [currentPrice; regularMarketPrice; previousClose; open; bid; ask].

(** 4. yfinance info (lines 361-374). *)
Definition try_info (w : Sources) : Tried :=
  match info w with
  | Raises => (None, [YfInfo])
  | Returns get => (first_usable_field get price_fields, [YfInfo])
  end.

(** 5. yfinance history (lines 377-388). *)
Definition try_history (w : Sources) : Tried :=
  match history_last_close w with
  | Raises => (None, [YfHistory])
  | Returns latest_price => accept YfHistory latest_price
  end.

(** 6. The Yahoo chart endpoint (lines 391-410). *)
Definition try_yahoo_chart (w : Sources) : Tried :=
  match yahoo_chart w with
  | Raises => (None, [YahooChart])
  | Returns (status_code, price) =>
      if (status_code =? 200)%Z then accept YahooChart price
      else (None, [YahooChart])
  end.

(** A [try] block that did not return falls through to the rest of the
    function. *)
Definition or_else (first : Tried) (rest : Tried) : Tried :=
  match first with
  | (Some price, contacted) => (Some price, contacted)
  | (None, contacted) => (fst rest, contacted ++ snd rest)
  end.

(** [get_real_time_price]: the price, or [None], with the sources that were
    contacted on the way, in order. *)
Definition get_real_time_price (w : Sources) : Tried :=
  or_else (try_finnhub w)
  (or_else (try_alpha_vantage w)
  (or_else (try_fast_info w)
  (or_else (try_info w)
  (or_else (try_history w)
           (try_yahoo_chart w))))).

(** *** The oracle as the specification words it

    Section 4.1 and design note 1: an ordered list of providers, each
    offering candidate values (none when the provider fails, and no offer at
    all when its credential is absent and the provider is skipped); a
    candidate is accepted or not; the first accepted candidate of the first
    provider that has one is the answer, and no later provider is asked. *)

Definition Offer : Type := (Source * option (list (option Py.pyfloat)))%type.

Fixpoint first_accepted (accepted : Py.pyfloat -> bool) (candidates : list (option Py.pyfloat))
    : option Py.pyfloat :=
  match candidates with
  | [] => None
  | Some x :: rest => if accepted x then Some x else first_accepted accepted rest
  | None :: rest => first_accepted accepted rest
  end.

Fixpoint resolve_price (accepted : Py.pyfloat -> bool) (offers : list Offer) : Tried :=
  match offers with
  | [] => (None, [])
  | (src, None) :: rest => resolve_price accepted rest
  | (src, Some candidates) :: rest =>
      match first_accepted accepted candidates with
      | Some x => (Some x, [src])
      | None =>
          let later := resolve_price accepted rest in
          (fst later, src :: snd later)
      end
  end.

(** The answer of one provider, as [resolve_price] computes it. *)
Definition answer (o : Offer) : Tried :=
  match snd o with
  | None => (None, [])
  | Some candidates => (first_accepted Py.gt0 candidates, [fst o])
  end.

(** "A finite number strictly greater than zero". *)
Definition finite_positive (x : Py.pyfloat) : bool :=
  match x with
  | Py.Fin q => if Qlt_le_dec 0 q then true else false
  | _ => false
  end.

(** The candidates that each source has for the oracle, read off the answers
    of the outside world. *)
Definition http_candidates (reply : Attempt (Z * option Py.pyfloat)) : list (option Py.pyfloat) :=
  match reply with
  | Returns (status_code, v) => if (status_code =? 200)%Z then [v] else []
  | Raises => []
  end.

Definition alpha_candidates (reply : Attempt (Z * AlphaField)) : list (option Py.pyfloat) :=
  match reply with
  | Returns (status_code, AlphaText (Some v)) => if (status_code =? 200)%Z then [Some v] else []
  | _ => []
  end.

Definition direct_candidates (reply : Attempt (option Py.pyfloat)) : list (option Py.pyfloat) :=
  match reply with
  | Returns v => [v]
  | Raises => []
  end.

Definition info_candidates (reply : Attempt (InfoField -> option Py.pyfloat))
    : list (option Py.pyfloat) :=
  match reply with
  | Returns get => map get price_fields
  | Raises => []
  end.

Definition offers (w : Sources) : list Offer :=
  [ (Finnhub, if FINNHUB_API_KEY w then Some (http_candidates (finnhub_quote w)) else None);
    (AlphaVantage,
     if ALPHA_VANTAGE_API_KEY w then Some (alpha_candidates (alpha_global_quote w)) else None);
    (YfFastInfo, Some (direct_candidates (fast_info_last_price w)));
    (YfInfo, Some (info_candidates (info w)));
    (YfHistory, Some (direct_candidates (history_last_close w)));
    (YahooChart, Some (http_candidates (yahoo_chart w))) ].

(** Two worlds used in the examples: Finnhub answers a non-positive price and
    Alpha Vantage "42.0"; Finnhub answers [Infinity]. *)
Definition world_42 : Sources :=
  mkSources true (Returns (200%Z, Some (Py.Fin 0)))
            true (Returns (200%Z, AlphaText (Some (Py.Fin 42))))
            (Returns (Some (Py.Fin 7))) Raises Raises Raises.

Definition world_inf : Sources :=
  mkSources true (Returns (200%Z, Some Py.PosInf))
            true (Returns (200%Z, AlphaText (Some (Py.Fin 42))))
            (Returns (Some (Py.Fin 7))) Raises Raises Raises.

(** ** The tables of [trading_database.py] *)

(** [user_wallets]. *)
Module Wallet.
Record t : Type := mk {
  quantz_balance : Q;
  total_invested : Q;
  total_returns : Q
}.
End Wallet.

(** [stock_holdings]; the row is keyed by [(user_id, symbol)]. *)
Module Holding.
Record t : Type := mk {
  company_name : string;
  quantity : Z;
  average_price : Q;
  current_price : Q;
  total_cost : Q;
  current_value : Q;
  last_updated : Z
}.
End Holding.

Inductive transaction_type : Type := BUY | SELL | DEPOSIT | WITHDRAWAL.

(** The [notes] column.  The sell path writes the text
    [f"Realized P&L: ${float(realized_gain_loss):.2f}"]; the embedding keeps the
    number that the text renders. *)
Inductive Notes : Type :=
| NoNotes
| RealizedPnL (amount : Q).

(** [transactions]. *)
Module Tx.
Record t : Type := mk {
  user_id : Z;
  kind : transaction_type;
  symbol : string;
  company_name : string;
  quantity : Z;
  price_per_share : Q;
  total_amount : Q;
  fees : Q;
  net_amount : Q;
  notes : Notes
}.
End Tx.

(** [notifications]; the message text is kept as the values it is formatted
    from. *)
Inductive TradeMessage : Type :=
| Purchased (qty : Z) (symbol : string) (price : Q)
| Sold (qty : Z) (symbol : string) (price : Q) (pnl : Q).

Module Notification.
Record t : Type := mk {
  user_id : Z;
  notification_type : string;
  title : string;
  message : TradeMessage
}.
End Notification.

(** [stock_prices_cache], keyed by symbol. *)
Module CachedPrice.
Record t : Type := mk {
  company_name : option string;
  current_price : Q;
  last_updated : Z
}.
End CachedPrice.

(** [portfolio_summary], keyed by user. *)
Module Summary.
Record t : Type := mk {
  total_portfolio_value : Q;
  total_invested : Q;
  total_gain_loss : Q;
  total_gain_loss_percent : Q;
  number_of_holdings : nat;
  last_calculated : Z
}.
End Summary.

(** The database. *)
Record Ledger : Type := mkLedger {
  user_wallets : gmap Z Wallet.t;
  stock_holdings : gmap (Z * string) Holding.t;
  transactions : list Tx.t;
  notifications : list Notification.t;
  stock_prices_cache : gmap string CachedPrice.t;
  portfolio_summary : gmap Z Summary.t
}.

Definition with_wallets (m : gmap Z Wallet.t) (db : Ledger) : Ledger :=
  mkLedger m (stock_holdings db) (transactions db)
           (notifications db) (stock_prices_cache db) (portfolio_summary db).

Definition with_holdings (m : gmap (Z * string) Holding.t) (db : Ledger) : Ledger :=
  mkLedger (user_wallets db) m (transactions db)
           (notifications db) (stock_prices_cache db) (portfolio_summary db).

Definition with_transactions (l : list Tx.t) (db : Ledger) : Ledger :=
  mkLedger (user_wallets db) (stock_holdings db) l
           (notifications db) (stock_prices_cache db) (portfolio_summary db).

Definition with_notifications (l : list Notification.t) (db : Ledger) : Ledger :=
  mkLedger (user_wallets db) (stock_holdings db) (transactions db)
           l (stock_prices_cache db) (portfolio_summary db).

Definition with_cache (m : gmap string CachedPrice.t) (db : Ledger) : Ledger :=
  mkLedger (user_wallets db) (stock_holdings db) (transactions db)
           (notifications db) m (portfolio_summary db).

Definition with_summary (m : gmap Z Summary.t) (db : Ledger) : Ledger :=
  mkLedger (user_wallets db) (stock_holdings db) (transactions db)
           (notifications db) (stock_prices_cache db) m.

(** [TradingDatabase.get_user_wallet]. *)
Definition get_user_wallet (db : Ledger) (user_id : Z) : option Wallet.t :=
  user_wallets db !! user_id.

(** ** The scale of the DECIMAL columns

    A value bound to a [DECIMAL(p,s)] column is kept rounded to [s] decimals,
    ties away from zero. *)
Module Column.

Definition numeric (scale : nat) (x : Q) : Q :=
  let unit := (10 ^ Z.of_nat scale)%Z in
  let n := Qfloor (Qabs x * inject_Z unit + (1 # 2)) in
  inject_Z (Z.sgn (Qnum x) * n) / inject_Z unit.

(** A row of [stock_holdings] as the table keeps it: [average_price] and
    [current_price] are DECIMAL(10,4), [total_cost] and [current_value]
    DECIMAL(15,2) (lines 45-51). *)
Definition stored (h : Holding.t) : Holding.t :=
  Holding.mk (Holding.company_name h) (Holding.quantity h)
             (numeric 4 (Holding.average_price h)) (numeric 4 (Holding.current_price h))
             (numeric 2 (Holding.total_cost h)) (numeric 2 (Holding.current_value h))
             (Holding.last_updated h).

End Column.

(** ** The triggers of [create_trading_tables] (lines 163-185)

    [user_wallets] and [stock_holdings] both get a BEFORE UPDATE ... FOR EACH
    ROW trigger that runs [update_updated_at_column], whose body is
    [NEW.updated_at = CURRENT_TIMESTAMP].  [user_wallets] has a column
    [updated_at] (line 33); [stock_holdings] has none (lines 41-57: its time
    stamps are [last_updated] and [created_at]), so there the assignment
    raises (the record NEW has no field of that name) for every row that an
    UPDATE touches, and the statement fails.  An UPDATE whose WHERE clause
    matches no row fires no trigger; INSERT and DELETE fire none. *)

Inductive Table : Type := user_wallets_table | stock_holdings_table.

Definition has_updated_at (table : Table) : bool :=
  match table with
  | user_wallets_table => true
  | stock_holdings_table => false
  end.

Definition update_updated_at_column (table : Table) : Attempt unit :=
  if has_updated_at table then Returns tt else Raises.

(** The row that an UPDATE of [table] writes in place of a row it touches,
    once the trigger has run; [None] when the trigger raised. *)
Definition before_update {A : Type} (table : Table) (new_row : A) : option A :=
  match update_updated_at_column table with
  | Returns _ => Some new_row
  | Raises => None
  end.

(** ** [trading_service.py] *)

(** What a trade returns: the [data] of a success, or the reason of a
    [{"success": False, ...}] answer. *)
Record TradeData : Type := mkTradeData {
  d_symbol : string;
  d_quantity : Z;
  d_price : Q;
  d_total : Q;                    (* total_cost / total_proceeds *)
  d_realized_gain_loss : option Q; (* sells only *)
  d_new_balance : Q
}.

Inductive Failure : Type :=
| PriceUnavailable                        (* "Unable to fetch current stock price" *)
| WalletNotFound                          (* "User wallet not found" *)
| InsufficientBalance (required available : Q)
| NoPosition                              (* "You don't own any shares of this stock" *)
| InsufficientShares (owned : Z)
| TransactionFailed                       (* "Transaction failed: ..." *)
| InsufficientBalanceInfinity (available : Q).
                                          (* "... Required: Infinity, Available: ..." *)

Inductive Response : Type :=
| Success (transaction_id : nat) (data : TradeData)
| Rejected (why : Failure).

(** Lines 35-38 and 169-172: the price of the trade.  A supplied price is
    taken as it is; otherwise the answer [fetched] of [get_real_time_price] is
    used unless it is falsy ([None] or zero).  The prices of the trades are
    finite floats; what [buy_stock] does with [nan] and the infinities is
    [buy_stock_float] below. *)
Definition trade_price (current_price fetched : option Q) : option Q :=
  match current_price with
  | Some p => Some p
  | None =>
      match fetched with
      | Some p => if Qeq_bool p 0 then None else Some p
      | None => None
      end
  end.

(** The rows of one user in [stock_holdings]. *)
Definition holdings_of (db : Ledger) (user_id : Z) : list Holding.t :=
  map snd (filter (fun kv => fst (fst kv) = user_id) (map_to_list (stock_holdings db))).

Definition Qsum (l : list Q) : Q := fold_right Qplus 0 l.

(** [_update_portfolio_summary]: recompute the aggregates of the user's
    holdings and UPDATE the summary row, if there is one. *)
Definition _update_portfolio_summary (user_id : Z) (now : Z) (db : Ledger) : Ledger :=
  let rows := holdings_of db user_id in
  let total_value := Qsum (map Holding.current_value rows) in
  let total_invested := Qsum (map Holding.total_cost rows) in
  let num_holdings := length rows in
  let total_gain_loss := total_value - total_invested in
  let total_gain_loss_percent :=
    if Qlt_le_dec 0 total_invested then total_gain_loss / total_invested * 100 else 0 in
  match portfolio_summary db !! user_id with
  | Some _ =>
      with_summary
        (<[user_id := Summary.mk total_value total_invested total_gain_loss
                                 total_gain_loss_percent num_holdings now]>
           (portfolio_summary db)) db
  | None => db
  end.

(** [_update_price_cache]: INSERT ... ON CONFLICT (symbol) DO UPDATE, keeping
    the cached company name when the new one is NULL. *)
Definition _update_price_cache
    (symbol : string) (price : Q) (company_name : option string) (now : Z)
    (db : Ledger) : Ledger :=
  let name :=
    match company_name with
    | Some n => Some n
    | None =>
        match stock_prices_cache db !! symbol with
        | Some old => CachedPrice.company_name old
        | None => None
        end
    end in
  with_cache (<[symbol := CachedPrice.mk name price now]> (stock_prices_cache db)) db.

(** [_create_notification]. *)
Definition _create_notification
    (user_id : Z) (notification_type title : string) (message : TradeMessage)
    (db : Ledger) : Ledger :=
  with_notifications
    (Notification.mk user_id notification_type title message :: notifications db) db.

(** The CHECK (quantity > 0) of [stock_holdings]: a row that violates it
    makes the statement raise. *)
Definition check_quantity (h : Holding.t) : option Holding.t :=
  if (0 <? Holding.quantity h)%Z then Some h else None.

(** Lines 96-111: the values that a buy binds to the UPDATE of a holding
    that exists: the quantities added, the costs added, and their quotient
    as the new average price. *)
Definition rebuy_row
    (existing : Holding.t) (quantity : Z) (current_price total_cost : Q) (now : Z)
    : Holding.t :=
  let new_total_qty := (Holding.quantity existing + quantity)%Z in
  let new_total_cost := Holding.total_cost existing + total_cost in
  let new_avg_price := new_total_cost / inject_Z new_total_qty in
  Holding.mk (Holding.company_name existing) new_total_qty new_avg_price
             current_price new_total_cost (inject_Z new_total_qty * current_price) now.

(** Lines 238-249: the values that a sell of a part of a holding binds to
    the UPDATE: the average price is not among them. *)
Definition partial_sale_row
    (holding : Holding.t) (quantity : Z) (current_price : Q) (now : Z) : Holding.t :=
  let new_qty := (Holding.quantity holding - quantity)%Z in
  let new_total_cost :=
    Holding.total_cost holding - Holding.average_price holding * inject_Z quantity in
  Holding.mk (Holding.company_name holding) new_qty (Holding.average_price holding)
             current_price new_total_cost (inject_Z new_qty * current_price) now.

(** Lines 68-128 of [buy_stock]: the statements between BEGIN and COMMIT.
    [None] stands for an exception, after which the caller rolls back. *)
Definition buy_transaction
    (db : Ledger) (now : Z) (user_id : Z) (symbol : string) (quantity : Z)
    (current_price : Q) (company_name : string)
    (wallet : Wallet.t) (total_cost fees net_amount current_balance : Q)
    : option (Q * Ledger) :=
  let key := (user_id, Py.upper symbol) in
  (* 1. Record the transaction *)
  let db1 :=
    with_transactions
      (Tx.mk user_id BUY (Py.upper symbol) company_name quantity current_price
             total_cost fees net_amount NoNotes :: transactions db) db in
  (* 2. Update user balance *)
  let new_balance := current_balance - net_amount in
  let db2 :=
    match user_wallets db1 !! user_id with
    | Some w =>
        with_wallets
          (<[user_id := Wallet.mk new_balance (Wallet.total_invested w + total_cost)
                                  (Wallet.total_returns w)]> (user_wallets db1)) db1
    | None => db1
    end in
  (* 3. Update or create stock holding *)
  let existing_holding := stock_holdings db2 !! key in
  let written :=
    match existing_holding with
    | Some existing =>
        let existing_qty := Holding.quantity existing in
        let new_total_qty := (existing_qty + quantity)%Z in
        if (new_total_qty =? 0)%Z then None   (* Decimal division by zero *)
        else
          (* UPDATE stock_holdings ... WHERE user_id = %s AND symbol = %s *)
          before_update stock_holdings_table
            (rebuy_row existing quantity current_price total_cost now)
          ≫= check_quantity
    | None =>
        (* INSERT INTO stock_holdings *)
        check_quantity
          (Holding.mk company_name quantity current_price current_price
                      total_cost total_cost now)
    end in
  match written with
  | None => None
  | Some row =>
      let db3 := with_holdings (<[key := row]> (stock_holdings db2)) db2 in
      (* 4. Update portfolio summary *)
      let db4 := _update_portfolio_summary user_id now db3 in
      (* 5. Update stock price cache *)
      let db5 := _update_price_cache (Py.upper symbol) current_price (Some company_name) now db4 in
      Some (new_balance, db5)
  end.

(** [TradingService.buy_stock].  [fetched] is what [get_real_time_price] would
    answer, [company_info] the [longName] that [get_company_info] finds (if
    any), [now] the clock. *)
Definition buy_stock
    (db : Ledger) (fetched : option Q) (company_info : option string) (now : Z)
    (user_id : Z) (symbol : string) (quantity : Z) (current_price : option Q)
    : Response * Ledger :=
  match trade_price current_price fetched with
  | None => (Rejected PriceUnavailable, db)
  | Some price =>
      let total_cost := price * inject_Z quantity in
      let fees := 0 in
      let net_amount := total_cost + fees in
      match get_user_wallet db user_id with
      | None => (Rejected WalletNotFound, db)
      | Some wallet =>
          let current_balance := Wallet.quantz_balance wallet in
          if Qlt_le_dec current_balance net_amount
          then (Rejected (InsufficientBalance net_amount current_balance), db)
          else
            let company_name :=
              match company_info with Some n => n | None => symbol end in
            match buy_transaction db now user_id symbol quantity price company_name
                                  wallet total_cost fees net_amount current_balance with
            | None => (Rejected TransactionFailed, db)   (* ROLLBACK *)
            | Some (new_balance, db') =>
                (* RETURNING id: the rank of the new row in the log *)
                let transaction_id := S (length (transactions db)) in
                (Success transaction_id
                   (mkTradeData (Py.upper symbol) quantity price total_cost None new_balance),
                 _create_notification user_id "TRADE_EXECUTED" "Stock Purchase Successful"
                   (Purchased quantity (Py.upper symbol) price) db')
            end
      end
  end.


(** Lines 205-258 of [sell_stock]: the statements between BEGIN and COMMIT. *)
Definition sell_transaction
    (db : Ledger) (now : Z) (user_id : Z) (symbol : string) (quantity : Z)
    (current_price : Q) (holding : Holding.t)
    (total_proceeds fees net_proceeds realized_gain_loss : Q)
    : option (Q * Ledger) :=
  let key := (user_id, Py.upper symbol) in
  let current_qty := Holding.quantity holding in
  let avg_cost_per_share := Holding.average_price holding in
  let total_cost := Holding.total_cost holding in
  let company_name := Holding.company_name holding in
  (* 1. Record the transaction *)
  let db1 :=
    with_transactions
      (Tx.mk user_id SELL (Py.upper symbol) company_name quantity current_price
             total_proceeds fees net_proceeds (RealizedPnL realized_gain_loss)
         :: transactions db) db in
  (* 2. Update user balance *)
  match get_user_wallet db user_id with
  | None => None                       (* wallet['quantz_balance'] on None *)
  | Some wallet =>
      let current_balance := Wallet.quantz_balance wallet in
      let new_balance := current_balance + net_proceeds in
      let db2 :=
        with_wallets
          (<[user_id := Wallet.mk new_balance (Wallet.total_invested wallet)
                                  (Wallet.total_returns wallet + realized_gain_loss)]>
             (user_wallets db1)) db1 in
      (* 3. Update stock holding *)
      let written :=
        if (current_qty =? quantity)%Z then
          (* DELETE FROM stock_holdings *)
          Some (delete key (stock_holdings db2))
        else
          (* UPDATE stock_holdings ... WHERE user_id = %s AND symbol = %s *)
          match before_update stock_holdings_table
                  (partial_sale_row holding quantity current_price now)
                ≫= check_quantity with
          | Some row => Some (<[key := row]> (stock_holdings db2))
          | None => None
          end in
      match written with
      | None => None
      | Some rows =>
          let db3 := with_holdings rows db2 in
          (* 4. Update portfolio summary *)
          let db4 := _update_portfolio_summary user_id now db3 in
          (* 5. Update stock price cache *)
          let db5 := _update_price_cache (Py.upper symbol) current_price (Some company_name) now db4 in
          Some (new_balance, db5)
      end
  end.

(** [TradingService.sell_stock]. *)
Definition sell_stock
    (db : Ledger) (fetched : option Q) (now : Z)
    (user_id : Z) (symbol : string) (quantity : Z) (current_price : option Q)
    : Response * Ledger :=
  match trade_price current_price fetched with
  | None => (Rejected PriceUnavailable, db)
  | Some price =>
      match stock_holdings db !! (user_id, Py.upper symbol) with
      | None => (Rejected NoPosition, db)
      | Some holding =>
          let current_qty := Holding.quantity holding in
          let avg_price := Holding.average_price holding in
          if (current_qty <? quantity)%Z
          then (Rejected (InsufficientShares current_qty), db)
          else
            let total_proceeds := price * inject_Z quantity in
            let fees := 0 in
            let net_proceeds := total_proceeds - fees in
            let avg_cost_per_share := avg_price in
            let realized_gain_loss := (price - avg_cost_per_share) * inject_Z quantity in
            match sell_transaction db now user_id symbol quantity price holding
                                   total_proceeds fees net_proceeds realized_gain_loss with
            | None => (Rejected TransactionFailed, db)   (* ROLLBACK *)
            | Some (new_balance, db') =>
                let transaction_id := S (length (transactions db)) in
                (Success transaction_id
                   (mkTradeData (Py.upper symbol) quantity price total_proceeds
                                (Some realized_gain_loss) new_balance),
                 _create_notification user_id "TRADE_EXECUTED" "Stock Sale Successful"
                   (Sold quantity (Py.upper symbol) price realized_gain_loss) db')
            end
      end
  end.

(** ** [trading_routes.py]: the valuation of one holding in [get_portfolio]

    The body of the loop over [holdings_raw] (lines 289-420).  The row comes
    from a cursor of psycopg2, which hands NUMERIC columns over as
    [decimal.Decimal]; the prices obtained from the sources and [random.uniform]
    are floats, and so is [float(stored_price_result[0])].  Python refuses
    arithmetic between the two kinds ([TypeError]) but compares them, so the
    numbers of this part carry their kind.  Floats are finite here. *)

Inductive num : Type :=
| F (x : Q)     (* float *)
| D (x : Q).    (* decimal.Decimal *)

Definition value (a : num) : Q := match a with F x | D x => x end.

(** [a - b], [a * b] and [abs(a)]. *)
Definition py_sub (a b : num) : Attempt num :=
  match a, b with
  | F x, F y => Returns (F (x - y))
  | D x, D y => Returns (D (x - y))
  | _, _ => Raises     (* TypeError: unsupported operand type(s) *)
  end.

Definition py_mul (a b : num) : Attempt num :=
  match a, b with
  | F x, F y => Returns (F (x * y))
  | D x, D y => Returns (D (x * y))
  | _, _ => Raises     (* TypeError: unsupported operand type(s) *)
  end.

Definition py_abs (a : num) : num :=
  match a with
  | F x => F (Qabs x)
  | D x => D (Qabs x)
  end.

(** [a > c] for a float constant [c]: defined for both kinds. *)
Definition py_gt (a : num) (c : Q) : bool := if Qlt_le_dec c (value a) then true else false.

Definition bind {A B : Type} (a : Attempt A) (f : A -> Attempt B) : Attempt B :=
  match a with
  | Raises => Raises
  | Returns x => f x
  end.

(** [try: body except Exception: handler]. *)
Definition try_except {A : Type} (body handler : Attempt A) : Attempt A :=
  match body with
  | Raises => handler
  | Returns x => Returns x
  end.

(** [bool(x)] and [x or y] on optional finite floats. *)
Definition truthy_opt (x : option Q) : bool :=
  match x with
  | Some q => negb (Qeq_bool q 0)
  | None => false
  end.

Definition py_or (x y : option Q) : option Q := if truthy_opt x then x else y.

(** What the valuation of one holding takes from outside. *)
Record ValuationWorld : Type := mkValuationWorld {
  (* the answer of [get_real_time_price(symbol)] *)
  real_time_price : option Q;
  (* [yf.Ticker(symbol).info] of the manual fetch *)
  manual_info : Attempt (InfoField -> option Q);
  (* [random.uniform(-0.05, 0.05)] and [random.uniform(-0.02, 0.02)] *)
  price_change : Q;
  price_change_final : Q;
  (* [datetime.now()] *)
  clock : Z
}.

(** One entry of the [holdings] list of the answer. *)
Module View.
Record t : Type := mk {
  symbol : string;
  company_name : string;
  quantity : Z;
  average_price : Q;
  current_price : Q;
  total_cost : Q;
  current_value : Q;
  unrealized_gain_loss : Q;
  unrealized_gain_loss_percent : Q;
  holding_period_return : Q;
  cagr : Q;
  days_held : Z;
  price_change : Q;
  price_change_percent : Q;
  error : option string
}.
End View.

(** Line 368: [(datetime.now() - last_updated).days if last_updated else 1];
    [timedelta.days] is the floor of the difference in days. *)
Definition days_held (now : Z) (last_updated : option Z) : Z :=
  match last_updated with
  | Some t => ((now - t) / 86400)%Z
  | None => 1%Z
  end.

(** Line 369: [max(days_held / 365.25, 1/365.25)]. *)
Definition years_held (days : Z) : Q :=
  Qmax (inject_Z days / (1461 # 4)) (1 / (1461 # 4)).

(** Lines 296-331: the price used when the oracle has no usable answer.
    [avg_price] is the value of the row, of the kind the cursor gave it;
    [stored] is the [current_price] column read by the second SELECT. *)
Definition fallback_price (avg_price : num) (stored : Q) (w : ValuationWorld) : Attempt num :=
  let stored_price := if negb (Qeq_bool stored 0) then Some stored else None in
  let simulated (change : Q) := py_mul avg_price (F (1 + change)) in
  let last_resort :=
    try_except
      (bind (manual_info w) (fun info =>
         let manual_price :=
           py_or (info currentPrice) (py_or (info regularMarketPrice) (info previousClose)) in
         match manual_price with
         | Some m =>
             if (truthy_opt manual_price && py_gt (F m) 0)%bool then
               bind (py_sub (F m) avg_price) (fun d =>
                 if py_gt (py_abs d) (1 # 100) then Returns (F m)
                 else simulated (price_change w))
             else simulated (price_change w)
         | None => simulated (price_change w)
         end))
      (simulated (price_change_final w)) in
  match stored_price with
  | Some sp =>
      bind (py_sub (F sp) avg_price) (fun d =>
        if (py_gt (py_abs d) (1 # 100) && py_gt (F sp) 0)%bool then Returns (F sp)
        else last_resort)
  | None => last_resort
  end.

(** Lines 293-333: the price of the valuation; the fallback is taken when
    [not real_time_price or real_time_price <= 0]. *)
Definition valuation_price (avg_price : num) (stored : Q) (w : ValuationWorld) : Attempt num :=
  match real_time_price w with
  | Some p =>
      if (negb (truthy_opt (Some p)) || negb (py_gt (F p) 0))%bool
      then fallback_price avg_price stored w
      else Returns (F p)
  | None => fallback_price avg_price stored w
  end.

(** Lines 334-345: the write-back, in its own [try]: UPDATE stock_holdings
    SET current_price, current_value, last_updated WHERE user_id = %s AND
    symbol = %s, then [conn.commit()]; when the statement raises, the handler
    logs the error and rolls back, and the valuation goes on. *)
Definition write_back (db : Ledger) (key : Z * string) (price : Q) (w : ValuationWorld)
    : Ledger :=
  match stock_holdings db !! key with
  | Some h =>
      match before_update stock_holdings_table
              (Holding.mk (Holding.company_name h) (Holding.quantity h)
                          (Holding.average_price h) price (Holding.total_cost h)
                          (inject_Z (Holding.quantity h) * price) (clock w)) with
      | Some row => with_holdings (<[key := row]> (stock_holdings db)) db
      | None => db                     (* except Exception: conn.rollback() *)
      end
  | None => db
  end.

Section Valuation.

(** The float functions [pow] and [round(.., 2)]. *)
Variable pow : Q -> Q -> Q.
Variable round2 : Q -> Q.

(** [from_db] is the kind under which the cursor hands over a NUMERIC value. *)
Variable from_db : Q -> num.

(** Lines 347-391: the metrics and the entry. *)
Definition holding_dict (symbol : string) (h : Holding.t) (real_time_price : num) (now : Z)
    : View.t :=
  let quantity := inject_Z (Holding.quantity h) in
  let avg_price := Holding.average_price h in
  let total_cost := Holding.total_cost h in
  let current_price := value real_time_price in
  let current_market_value := current_price * quantity in
  let unrealized_pnl := (current_price - avg_price) * quantity in
  let unrealized_pnl_percent :=
    if Qlt_le_dec 0 avg_price then (current_price - avg_price) / avg_price * 100 else 0 in
  let hpr_percent :=
    if Qlt_le_dec 0 total_cost then (current_market_value - total_cost) / total_cost * 100
    else 0 in
  let days := days_held now (Some (Holding.last_updated h)) in
  let years := years_held days in
  let cagr :=
    if Qlt_le_dec 0 total_cost then
      if Qlt_le_dec 0 years then (pow (current_market_value / total_cost) (1 / years) - 1) * 100
      else 0
    else 0 in
  View.mk symbol (Holding.company_name h) (Holding.quantity h)
          (round2 avg_price) (round2 current_price) (round2 total_cost)
          (round2 current_market_value) (round2 unrealized_pnl)
          (round2 unrealized_pnl_percent) (round2 hpr_percent) (round2 cagr)
          days (round2 (current_price - avg_price)) (round2 unrealized_pnl_percent) None.

(** Lines 397-420: the entry built when the body raised. *)
Definition error_dict (symbol : string) (h : Holding.t) : View.t :=
  View.mk symbol (Holding.company_name h) (Holding.quantity h)
          (round2 (Holding.average_price h)) (round2 (Holding.average_price h))
          (round2 (Holding.total_cost h))
          (round2 (Holding.average_price h * inject_Z (Holding.quantity h)))
          0 0 0 0 0%Z 0 0 (Some "Price update failed"%string).

(** The body of the loop for the row [h] of [(user_id, symbol)]. *)
Definition process_holding_with
    (db : Ledger) (user_id : Z) (symbol : string) (h : Holding.t) (w : ValuationWorld)
    : View.t * Ledger :=
  let stored :=
    match stock_holdings db !! (user_id, symbol) with
    | Some row => Holding.current_price row
    | None => 0
    end in
  match valuation_price (from_db (Holding.average_price h)) stored w with
  | Returns price =>
      (holding_dict symbol h price (clock w), write_back db (user_id, symbol) (value price) w)
  | Raises => (error_dict symbol h, db)
  end.

End Valuation.

(** [get_portfolio]'s loop body with the cursor of the code, which gives
    Decimals. *)
Definition process_holding (pow : Q -> Q -> Q) (round2 : Q -> Q) :=
  process_holding_with pow round2 D.

(** ** Vocabulary of the statements *)

(** The CHECK (quantity > 0) of [stock_holdings], as a property of the table. *)
Definition quantities_positive (db : Ledger) : Prop :=
  map_Forall (fun _ h => (0 < Holding.quantity h)%Z) (stock_holdings db).

(** The row that a buy binds under its key: the one of [rebuy_row] when
    the holding exists, the one of the INSERT otherwise. *)
Definition bought_row
    (existing : option Holding.t) (company : string) (q : Z) (p : Q) (now : Z) : Holding.t :=
  match existing with
  | Some h =>
      let n := (Holding.quantity h + q)%Z in
      let c := Holding.total_cost h + (p * inject_Z q) in
      Holding.mk (Holding.company_name h) n (c / inject_Z n) p c (inject_Z n * p) now
  | None => Holding.mk company q p p (p * inject_Z q) (p * inject_Z q) now
  end.


(** [TradingDatabase.initialize_user_wallet]: both INSERTs are
    ON CONFLICT (user_id) DO NOTHING. *)
Definition initialize_user_wallet (user_id : Z) (initial_balance : Q) (now : Z) (db : Ledger)
    : Ledger :=
  let db1 :=
    match user_wallets db !! user_id with
    | Some _ => db
    | None => with_wallets (<[user_id := Wallet.mk initial_balance 0 0]> (user_wallets db)) db
    end in
  match portfolio_summary db1 !! user_id with
  | Some _ => db1
  | None => with_summary (<[user_id := Summary.mk 0 0 0 0 0%nat now]> (portfolio_summary db1)) db1
  end.

(** The empty database. *)
Definition empty_ledger : Ledger := mkLedger ∅ ∅ [] [] ∅ ∅.

(** The [stock_holdings] table as a sell of [q] shares of the row [h] stored
    under [key] would leave it: the row deleted, or the row of
    [partial_sale_row]. *)
Definition sold_rows
    (rows : gmap (Z * string) Holding.t) (key : Z * string) (h : Holding.t)
    (q : Z) (p : Q) (now : Z) : gmap (Z * string) Holding.t :=
  if (Holding.quantity h =? q)%Z then delete key rows
  else
    <[key := Holding.mk (Holding.company_name h) (Holding.quantity h - q)
                        (Holding.average_price h) p
                        (Holding.total_cost h - Holding.average_price h * inject_Z q)
                        (inject_Z (Holding.quantity h - q) * p) now]> rows.

(** One call of the trade engine, with everything the call takes from
    outside. *)
Inductive Trade : Type :=
| TBuy (fetched : option Q) (company_info : option string) (now : Z)
       (user_id : Z) (symbol : string) (quantity : Z) (current_price : option Q)
| TSell (fetched : option Q) (now : Z)
        (user_id : Z) (symbol : string) (quantity : Z) (current_price : option Q).

Definition execute (db : Ledger) (t : Trade) : Response * Ledger :=
  match t with
  | TBuy fetched info now u s q cp => buy_stock db fetched info now u s q cp
  | TSell fetched now u s q cp => sell_stock db fetched now u s q cp
  end.

(** The databases after each call of a sequence, in order. *)
Fixpoint history (db : Ledger) (ts : list Trade) : list Ledger :=
  match ts with
  | [] => []
  | t :: rest => let db' := snd (execute db t) in db' :: history db' rest
  end.

(** The discrepancy between the stored total cost of a holding and its
    average price times its quantity. *)
Definition cost_basis_gap (h : Holding.t) : Q :=
  Qabs (Holding.total_cost h - Holding.average_price h * inject_Z (Holding.quantity h)).

Definition cost_basis_consistent (db : Ledger) : Prop :=
  map_Forall (fun _ h => cost_basis_gap h == 0) (stock_holdings db).

(** A holding of 10 shares bought at 100, consulted later the same day, and
    two worlds: every source is down; the oracle answers 120. *)
Definition held_row : Holding.t := Holding.mk "Apple Inc." 10 100 100 1000 1000 0.

Definition held_ledger : Ledger :=
  mkLedger {[ 1%Z := Wallet.mk 9000 1000 0 ]} {[ (1%Z, "AAPL"%string) := held_row ]} [] [] ∅ ∅.

Definition world_down : ValuationWorld :=
  mkValuationWorld None Raises (3 # 100) (1 # 100) 3600.

Definition world_live : ValuationWorld :=
  mkValuationWorld (Some 120) Raises (3 # 100) (1 # 100) 3600.

(** ** Vocabulary of the further statements *)

Definition trade_user (t : Trade) : Z :=
  match t with
  | TBuy _ _ _ u _ _ _ => u
  | TSell _ _ u _ _ _ => u
  end.

Definition trade_symbol (t : Trade) : string :=
  match t with
  | TBuy _ _ _ _ s _ _ => s
  | TSell _ _ _ s _ _ => s
  end.

Definition trade_quantity (t : Trade) : Z :=
  match t with
  | TBuy _ _ _ _ _ q _ => q
  | TSell _ _ _ _ q _ => q
  end.

Definition is_success (r : Response) : bool :=
  match r with
  | Success _ _ => true
  | Rejected _ => false
  end.


(** The database after a sequence of calls. *)
Definition final (db : Ledger) (ts : list Trade) : Ledger :=
  fold_left (fun d t => snd (execute d t)) ts db.





(** The price at which a call trades, if it gets one. *)
Definition trade_offer (t : Trade) : option Q :=
  match t with
  | TBuy fetched _ _ _ _ _ cp => trade_price cp fetched
  | TSell fetched _ _ _ _ cp => trade_price cp fetched
  end.

(** An order for a non-negative quantity at a non-negative price. *)
Definition ordinary (t : Trade) : Prop :=
  (0 <= trade_quantity t)%Z /\ forall p, trade_offer t = Some p -> 0 <= p.

Definition balances_nonnegative (db : Ledger) : Prop :=
  map_Forall (fun _ w => 0 <= Wallet.quantz_balance w) (user_wallets db).

(** ** [trading_routes.py]: the order requests and the trading endpoints *)

(** The characters that [str.strip()] removes, among the ASCII ones. *)
Definition is_space (c : ascii) : bool :=
  let n := nat_of_ascii c in
  (((9 <=? n)%nat && (n <=? 13)%nat) || ((28 <=? n)%nat && (n <=? 32)%nat))%bool.

Fixpoint lstrip (s : string) : string :=
  match s with
  | EmptyString => EmptyString
  | String c r => if is_space c then lstrip r else s
  end.

Fixpoint rstrip (s : string) : string :=
  match s with
  | EmptyString => EmptyString
  | String c r =>
      match rstrip r with
      | EmptyString => if is_space c then EmptyString else String c EmptyString
      | r' => String c r'
      end
  end.

Definition strip (s : string) : string := rstrip (lstrip s).

(** [BuyOrderRequest] and [SellOrderRequest] have the same fields and the
    same validators. *)
Record OrderRequest : Type := mkOrderRequest {
  order_symbol : string;
  order_quantity : Z;
  order_current_price : option Q
}.

(** [symbol_must_be_valid]; [None] stands for the [ValueError]. *)
Definition symbol_must_be_valid (v : string) : option string :=
  if (String.length (strip v) =? 0)%nat then None
  else Some (strip (Py.upper v)).

(** [quantity_must_be_positive]. *)
Definition quantity_must_be_positive (v : Z) : option Z :=
  if (v <=? 0)%Z then None else Some v.

(** The request as the endpoint receives it, if the validators pass. *)
Definition validate_order (symbol : string) (quantity : Z) (current_price : option Q)
    : option OrderRequest :=
  match symbol_must_be_valid symbol, quantity_must_be_positive quantity with
  | Some s, Some q => Some (mkOrderRequest s q current_price)
  | _, _ => None
  end.

(** The endpoint [POST /trading/buy]: the wallet is created when the user
    has none, then the order goes to [buy_stock]; the status is 200 for a
    success and 400 otherwise. *)
Definition route_buy_stock
    (db : Ledger) (fetched : option Q) (company_info : option string) (now : Z)
    (user_id : Z) (order : OrderRequest) : (Z * Response) * Ledger :=
  let db1 :=
    match get_user_wallet db user_id with
    | Some _ => db
    | None => initialize_user_wallet user_id 10000 now db
    end in
  let result :=
    buy_stock db1 fetched company_info now user_id (order_symbol order)
              (order_quantity order) (order_current_price order) in
  ((if is_success (fst result) then 200%Z else 400%Z, fst result), snd result).

(** The endpoint [POST /trading/sell]. *)
Definition route_sell_stock
    (db : Ledger) (fetched : option Q) (now : Z)
    (user_id : Z) (order : OrderRequest) : (Z * Response) * Ledger :=
  let result :=
    sell_stock db fetched now user_id (order_symbol order)
               (order_quantity order) (order_current_price order) in
  ((if is_success (fst result) then 200%Z else 400%Z, fst result), snd result).

(** ** [trading_routes.py]: [get_portfolio] as a whole *)

(** The answer of [GET /trading/portfolio]. *)
Module Portfolio.
Record t : Type := mk {
  wallet_balance : Q;
  total_portfolio_value : Q;
  total_invested : Q;
  total_gain_loss : Q;
  total_gain_loss_percent : Q;
  number_of_holdings : nat;
  diversification_score : nat;
  holdings : list View.t;
  best_performer : option View.t;
  worst_performer : option View.t
}.
End Portfolio.

(** The first SELECT: the rows of the user with a positive quantity. *)
Definition portfolio_rows (db : Ledger) (user_id : Z) : list (string * Holding.t) :=
  omap (fun kv : (Z * string) * Holding.t =>
          if (bool_decide (fst (fst kv) = user_id) && (0 <? Holding.quantity (snd kv))%Z)%bool
          then Some (snd (fst kv), snd kv) else None)
       (map_to_list (stock_holdings db)).

(** [holdings_data.sort(key=current_value, reverse=True)]: a stable sort in
    descending order. *)
Fixpoint insert_by_value (x : View.t) (l : list View.t) : list View.t :=
  match l with
  | [] => [x]
  | y :: rest =>
      if Qlt_le_dec (View.current_value x) (View.current_value y)
      then y :: insert_by_value x rest
      else x :: y :: rest
  end.

Definition sort_by_value (l : list View.t) : list View.t :=
  fold_right insert_by_value [] l.

(** [max(l, key=..)] and [min(l, key=..)]: the first element that no other
    beats. *)
Fixpoint first_best (better : Q -> Q -> bool) (key : View.t -> Q) (l : list View.t)
    : option View.t :=
  match l with
  | [] => None
  | x :: rest =>
      match first_best better key rest with
      | Some y => if better (key y) (key x) then Some y else Some x
      | None => Some x
      end
  end.

Definition Qgtb (a b : Q) : bool := if Qlt_le_dec b a then true else false.
Definition Qltb (a b : Q) : bool := if Qlt_le_dec a b then true else false.

(** Line 430: [min(len(set(s[:2] for s in symbols if len(s) >= 2)) * 20, 100)]. *)
Definition diversification (symbols : list string) : nat :=
  let prefixes :=
    map (String.substring 0 2) (filter (fun s => (2 <= String.length s)%nat) symbols) in
  Nat.min (length (remove_dups prefixes) * 20) 100.

Section Portfolio.

Variable pow : Q -> Q -> Q.
Variable round2 : Q -> Q.

(** What one holding adds to [total_current_value] (lines 394 and 419). *)
Definition market_value
    (db : Ledger) (user_id : Z) (symbol : string) (h : Holding.t) (w : ValuationWorld) : Q :=
  let stored :=
    match stock_holdings db !! (user_id, symbol) with
    | Some row => Holding.current_price row
    | None => 0
    end in
  match valuation_price (D (Holding.average_price h)) stored w with
  | Returns price => value price * inject_Z (Holding.quantity h)
  | Raises => Holding.average_price h * inject_Z (Holding.quantity h)
  end.

(** The state of the loop: the entries so far, the two totals, the
    database. *)
Definition loop_state : Type := (list View.t * Q * Q * Ledger)%type.

Definition loop_step (user_id : Z) (worlds : string -> ValuationWorld)
    (st : loop_state) (row : string * Holding.t) : loop_state :=
  let '(holdings_data, total_current_value, total_invested, db) := st in
  let '(symbol, h) := row in
  let r := process_holding pow round2 db user_id symbol h (worlds symbol) in
  (holdings_data ++ [fst r],
   total_current_value + market_value db user_id symbol h (worlds symbol),
   total_invested + Holding.total_cost h,
   snd r).

(** [get_portfolio]; [worlds] gives, for each symbol, what the outside
    answers during its valuation. *)
Definition get_portfolio (db : Ledger) (user_id : Z) (worlds : string -> ValuationWorld)
    : Portfolio.t * Ledger :=
  let holdings_raw := portfolio_rows db user_id in
  match holdings_raw with
  | [] => (Portfolio.mk 0 0 0 0 0 0 0 [] None None, db)
  | _ =>
      let '(holdings_data, total_current_value, total_invested, db') :=
        fold_left (loop_step user_id worlds) holdings_raw ([], 0, 0, db) in
      let total_gain_loss := total_current_value - total_invested in
      let total_gain_loss_percent :=
        if Qlt_le_dec 0 total_invested then total_gain_loss / total_invested * 100 else 0 in
      let diversification_score := diversification (map View.symbol holdings_data) in
      let wallet_balance :=
        match user_wallets db' !! user_id with
        | Some wallet => Wallet.quantz_balance wallet
        | None => 0
        end in
      let sorted := sort_by_value holdings_data in
      (Portfolio.mk wallet_balance (round2 total_current_value) (round2 total_invested)
                    (round2 total_gain_loss) (round2 total_gain_loss_percent)
                    (length sorted) diversification_score sorted
                    (first_best Qgtb View.unrealized_gain_loss_percent sorted)
                    (first_best Qltb View.unrealized_gain_loss_percent sorted),
       db')
  end.

End Portfolio.

(** Two rows with the same position: company, quantity, average price and
    total cost. *)
Definition same_cost_basis (a b : Holding.t) : Prop :=
  Holding.company_name a = Holding.company_name b
  /\ Holding.quantity a = Holding.quantity b
  /\ Holding.average_price a = Holding.average_price b
  /\ Holding.total_cost a = Holding.total_cost b.

(** Two databases that differ at most in the cached price, the cached value
    and the time stamp of their holdings (and in the price cache and the
    summaries). *)
Definition same_positions (db db' : Ledger) : Prop :=
  user_wallets db' = user_wallets db
  /\ transactions db' = transactions db
  /\ notifications db' = notifications db
  /\ forall key,
       match stock_holdings db !! key, stock_holdings db' !! key with
       | Some a, Some b => same_cost_basis a b
       | None, None => True
       | _, _ => False
       end.

(** The order of the [holdings] list of the answer: by current value,
    largest first. *)
Definition by_value_desc (a b : View.t) : Prop :=
  View.current_value b <= View.current_value a.

(** Every source is down for a symbol: the oracle has no usable price. *)
Definition oracle_down (w : ValuationWorld) : Prop :=
  real_time_price w = None \/ exists p, real_time_price w = Some p /\ p <= 0.

(** ** [price_scheduler.py]: the periodic refresh of the cached prices *)

(** The row after [UPDATE stock_holdings SET current_price = p,
    current_value = quantity * p, last_updated = CURRENT_TIMESTAMP]. *)
Definition refreshed (h : Holding.t) (p : Q) (now : Z) : Holding.t :=
  Holding.mk (Holding.company_name h) (Holding.quantity h) (Holding.average_price h)
             p (Holding.total_cost h) (inject_Z (Holding.quantity h) * p) now.

(** The rows [WHERE symbol = %s AND quantity > 0]. *)
Definition rows_of_symbol (db : Ledger) (symbol : string) : list ((Z * string) * Holding.t) :=
  filter (fun kv : (Z * string) * Holding.t =>
            snd (fst kv) = symbol /\ (0 < Holding.quantity (snd kv))%Z)
         (map_to_list (stock_holdings db)).

(** The UPDATE of every row [WHERE symbol = %s AND quantity > 0]: the
    trigger runs for each of them, and the statement raises when one of
    them raises; [None] stands for the exception. *)
Definition refresh_symbol (db : Ledger) (symbol : string) (p : Q) (now : Z)
    : option Ledger :=
  match mapM (fun kv : (Z * string) * Holding.t =>
                before_update stock_holdings_table (fst kv, refreshed (snd kv) p now))
             (rows_of_symbol db symbol) with
  | Some written =>
      Some (with_holdings
              (foldr (fun kv rows => <[fst kv := snd kv]> rows) (stock_holdings db) written)
              db)
  | None => None
  end.

(** [SELECT DISTINCT symbol FROM stock_holdings WHERE quantity > 0]. *)
Definition held_symbols (db : Ledger) : list string :=
  remove_dups
    (omap (fun kv : (Z * string) * Holding.t =>
             if (0 <? Holding.quantity (snd kv))%Z then Some (snd (fst kv)) else None)
          (map_to_list (stock_holdings db))).

(** The statements that [_force_update_single_symbol] and the body of the
    loop of [_async_update_prices] share: the price is asked for the
    upper-cased symbol ([get_real_time_price] starts with [symbol.upper()]);
    when it is usable, the rows are updated and then the cache is written
    (on a connection of its own, committed at once), both under the symbol
    as given.  [prices] gives the answer of the oracle for each symbol;
    [None] stands for an exception, which leaves the cache unwritten. *)
Definition update_symbol
    (prices : string -> option Q) (now : Z) (db : Ledger) (symbol : string)
    : option Ledger :=
  match prices (Py.upper symbol) with
  | Some real_time_price =>
      if (truthy_opt (Some real_time_price) && Qgtb real_time_price 0)%bool
      then
        match refresh_symbol db symbol real_time_price now with
        | Some db' => Some (_update_price_cache symbol real_time_price None now db')
        | None => None
        end
      else Some db
  | None => Some db
  end.

(** [_force_update_single_symbol]: an exception is logged and the
    connection closed without a commit. *)
Definition _force_update_single_symbol
    (prices : string -> option Q) (now : Z) (db : Ledger) (symbol : string) : Ledger :=
  match update_symbol prices now db symbol with
  | Some db' => db'
  | None => db
  end.

(** [_async_update_prices]: one transaction for the whole loop.  An
    exception in the body is caught and the loop goes on, but the
    transaction is aborted from then on: every later UPDATE raises, and the
    final [conn.commit()] commits nothing.  The state of the loop is whether
    the transaction is aborted, the holdings as the open transaction sees
    them, and the database with the writes of the cache, which are
    committed on their own. *)
Definition update_loop_step (prices : string -> option Q) (now : Z)
    (st : bool * Ledger * Ledger) (symbol : string) : bool * Ledger * Ledger :=
  let '(aborted, pending, committed) := st in
  match prices (Py.upper symbol) with
  | Some real_time_price =>
      if (truthy_opt (Some real_time_price) && Qgtb real_time_price 0)%bool
      then
        if aborted then st             (* InFailedSqlTransaction *)
        else
          match refresh_symbol pending symbol real_time_price now with
          | Some pending' =>
              (false,
               _update_price_cache symbol real_time_price None now pending',
               _update_price_cache symbol real_time_price None now committed)
          | None => (true, pending, committed)
          end
      else st
  | None => st
  end.

Definition _async_update_prices (prices : string -> option Q) (now : Z) (db : Ledger)
    : Ledger :=
  let '(aborted, pending, committed) :=
    fold_left (update_loop_step prices now) (held_symbols db) (false, db, db) in
  if aborted then committed else pending.

(** Every holding is stored under an upper-case symbol. *)
Definition symbols_upper (db : Ledger) : Prop :=
  forall u s h, stock_holdings db !! (u, s) = Some h -> Py.upper s = s.

(** The place of a source in the order of the oracle. *)
Definition source_rank (s : Source) : nat :=
  match s with
  | Finnhub => 1
  | AlphaVantage => 2
  | YfFastInfo => 3
  | YfInfo => 4
  | YfHistory => 5
  | YahooChart => 6
  end.

(** ** [trading_routes.py]: the history and the holding endpoints *)

(** The text of the [transaction_type] column. *)
Definition type_text (k : transaction_type) : string :=
  match k with
  | BUY => "BUY"
  | SELL => "SELL"
  | DEPOSIT => "DEPOSIT"
  | WITHDRAWAL => "WITHDRAWAL"
  end.

(** The WHERE clause of [get_transaction_history]: the user, and the type
    when one is given (an empty string is no filter). *)
Definition history_where (user_id : Z) (transaction_type : option string) (tx : Tx.t) : bool :=
  (bool_decide (Tx.user_id tx = user_id)
   && match transaction_type with
      | Some t =>
          if (String.length t =? 0)%nat then true
          else bool_decide (type_text (Tx.kind tx) = Py.upper t)
      | None => true
      end)%bool.

(** The answers of an endpoint that can fail. *)
Inductive Http (A : Type) : Type :=
| Ok (a : A)
| NotFound            (* 404 *)
| ServerError.        (* 500 *)
Arguments Ok {A} a.
Arguments NotFound {A}.
Arguments ServerError {A}.

(** The answer of [GET /trading/transactions]: the page and the total count.
    The log is kept newest first, which is the order of
    [ORDER BY transaction_date DESC]. *)
Record HistoryPage : Type := mkHistoryPage {
  page_transactions : list Tx.t;
  page_total_count : nat;
  page_limit : nat;
  page_offset : nat
}.

(** [get_transaction_history]; [None] stands for the 422 of the bounds
    [limit >= 1], [limit <= 200] and [offset >= 0].  The column names are
    read from [cursor.description] after the COUNT query has run on the same
    cursor, so they are those of the count: formatting a row of the page
    looks up ['transaction_date'] in a dictionary that has no such key, and
    the [KeyError] becomes a 500.  An empty page has no row to format. *)
Definition get_transaction_history
    (db : Ledger) (user_id : Z) (limit offset : Z) (transaction_type : option string)
    : option (Http HistoryPage) :=
  if ((limit <? 1) || (200 <? limit) || (offset <? 0))%Z%bool then None
  else
    let rows := List.filter (history_where user_id transaction_type) (transactions db) in
    let transactions := firstn (Z.to_nat limit) (skipn (Z.to_nat offset) rows) in
    let total_count := length rows in
    match transactions with
    | [] => Some (Ok (mkHistoryPage [] total_count (Z.to_nat limit) (Z.to_nat offset)))
    | _ :: _ => Some ServerError
    end.

(** The computed columns of [get_stock_holding]. *)
Record HoldingDetail : Type := mkHoldingDetail {
  detail_row : Holding.t;
  detail_current_value : Q;
  detail_unrealized_gain_loss : Q;
  detail_unrealized_gain_loss_percent : Q
}.

(** [get_stock_holding]: the SELECT divides by [average_price], and a
    division by zero in it is an error of the statement, which the endpoint
    turns into a 500. *)
Definition get_stock_holding (db : Ledger) (user_id : Z) (symbol : string)
    : Http HoldingDetail :=
  match stock_holdings db !! (user_id, Py.upper symbol) with
  | None => NotFound
  | Some h =>
      if Qeq_bool (Holding.average_price h) 0 then ServerError
      else
        Ok (mkHoldingDetail h
              (Holding.current_price h * inject_Z (Holding.quantity h))
              ((Holding.current_price h - Holding.average_price h)
               * inject_Z (Holding.quantity h))
              ((Holding.current_price h - Holding.average_price h)
               / Holding.average_price h * 100))
  end.

(** ** [trading_routes.py]: the price alerts *)

(** A row of [price_alerts]. *)
Module Alert.
Record t : Type := mk {
  id : nat;
  user_id : Z;
  symbol : string;
  company_name : string;
  alert_type : string;
  condition_type : string;
  target_value : Q;
  is_active : bool
}.
End Alert.

(** The table, newest row first; rows are never removed, so the serial id of
    a new row is the number of rows plus one. *)
Definition Alerts : Type := list Alert.t.

(** [PriceAlertRequest] and its validators: the symbol is upper-cased and
    stripped (it may be empty), the two kinds must be of the listed ones;
    [notification_methods] is a list of strings, ["IN_APP"] when the request
    gives none. *)
Record PriceAlertRequest : Type := mkPriceAlertRequest {
  request_symbol : string;
  request_alert_type : string;
  request_condition_type : string;
  request_target_value : Q;
  request_notification_methods : list string
}.

Definition validate_alert (symbol alert_type condition_type : string) (target_value : Q)
    (notification_methods : option (list string)) : option PriceAlertRequest :=
  if bool_decide (alert_type ∈ ["PRICE_TARGET"; "PERCENTAGE_CHANGE"; "TECHNICAL_INDICATOR"]%string)
  then
    if bool_decide (condition_type ∈ ["ABOVE"; "BELOW"; "EQUALS"]%string)
    then Some (mkPriceAlertRequest (strip (Py.upper symbol)) alert_type condition_type
                 target_value
                 (match notification_methods with Some l => l | None => ["IN_APP"%string] end))
    else None
  else None.

(** What the INSERT makes of the Python list bound to the column
    [notification_methods JSON]: psycopg2 writes a list that is not empty as
    an SQL array, which is no expression of type json, and the statement
    raises; it writes the empty list as the literal ['{}'], which is read as
    the JSON text of an empty object. *)
Definition binds_to_json (l : list string) : bool :=
  match l with
  | [] => true
  | _ :: _ => false
  end.

(** [create_price_alert]: the id of the new row and the table; every
    exception becomes a 500. *)
Definition create_price_alert
    (alerts : Alerts) (company_info : option string) (user_id : Z) (alert : PriceAlertRequest)
    : Http nat * Alerts :=
  let company_name :=
    match company_info with Some n => n | None => request_symbol alert end in
  if binds_to_json (request_notification_methods alert) then
    let alert_id := S (length alerts) in
    (Ok alert_id,
     Alert.mk alert_id user_id (request_symbol alert) company_name
              (request_alert_type alert) (request_condition_type alert)
              (request_target_value alert) true :: alerts)
  else (ServerError, alerts).

(** [get_price_alerts]: the active alerts of the user, newest first. *)
Definition get_price_alerts (alerts : Alerts) (user_id : Z) : list Alert.t :=
  List.filter (fun a => (bool_decide (Alert.user_id a = user_id) && Alert.is_active a)%bool)
              alerts.

(** [delete_price_alert]: the UPDATE switches the matching rows off; when no
    row matches [id] and [user_id] the answer is 404. *)
Definition delete_price_alert (alerts : Alerts) (alert_id : nat) (user_id : Z)
    : Http unit * Alerts :=
  let matches (a : Alert.t) :=
    (bool_decide (Alert.id a = alert_id) && bool_decide (Alert.user_id a = user_id))%bool in
  let rowcount := length (List.filter matches alerts) in
  if (rowcount =? 0)%nat then (NotFound, alerts)
  else
    (Ok tt,
     map (fun a =>
            if matches a
            then Alert.mk (Alert.id a) (Alert.user_id a) (Alert.symbol a)
                          (Alert.company_name a) (Alert.alert_type a)
                          (Alert.condition_type a) (Alert.target_value a) false
            else a) alerts).

(** ** [main.py]: the staleness flag of [/admin/price-update-status] *)

(** ["needs_update": (datetime.now() - last_update).seconds > 300 if
    last_update else True]; [timedelta.seconds] is the part of the
    difference below one day. *)
Definition needs_update (now : Z) (last_update : option Z) : bool :=
  match last_update with
  | Some t => (300 <? (now - t) mod 86400)%Z
  | None => true
  end.

(** ** Every writer of [stock_holdings]

    The statements that write the table are those of [buy_stock] and
    [sell_stock], the write-back of [get_portfolio] and the UPDATEs of the
    price scheduler; a call is one of them. *)
Inductive Call : Type :=
| CallTrade (t : Trade)
| CallPortfolio (user_id : Z) (worlds : string -> ValuationWorld)
| CallScheduledUpdate (prices : string -> option Q) (now : Z)
| CallForceUpdate (prices : string -> option Q) (now : Z) (symbol : string).

Section Calls.

Variable pow : Q -> Q -> Q.
Variable round2 : Q -> Q.

Definition call (db : Ledger) (c : Call) : Ledger :=
  match c with
  | CallTrade t => snd (execute db t)
  | CallPortfolio user_id worlds => snd (get_portfolio pow round2 db user_id worlds)
  | CallScheduledUpdate prices now => _async_update_prices prices now db
  | CallForceUpdate prices now symbol => _force_update_single_symbol prices now db symbol
  end.

Definition calls (db : Ledger) (cs : list Call) : Ledger := fold_left call cs db.

End Calls.

(** A row that is as the INSERT of a first buy wrote it: the current price
    is the average price and the current value the total cost. *)
Definition as_inserted (h : Holding.t) : Prop :=
  Holding.current_price h = Holding.average_price h
  /\ Holding.current_value h = Holding.total_cost h.

Definition holdings_as_inserted (db : Ledger) : Prop :=
  map_Forall (fun _ h => as_inserted h) (stock_holdings db).

(** ** Properties of the price oracle *)

Lemma usable_gt0 x : Py.usable (Some x) = Py.gt0 x.
Proof.
  destruct x as [q| | |]; cbn; try reflexivity.
  destruct (Qlt_le_dec 0 q) as [H|H]; [|apply andb_false_r].
  rewrite andb_true_r. destruct (Qeq_bool q 0) eqn:E; [|reflexivity].
  apply Qeq_bool_eq in E. lra.
Qed.

Lemma resolve_price_cons o rest :
  resolve_price Py.gt0 (o :: rest) = or_else (answer o) (resolve_price Py.gt0 rest).
Proof.
  destruct o as [src [candidates|]]; unfold answer; cbn.
  - destruct (first_accepted Py.gt0 candidates); reflexivity.
  - destruct (resolve_price Py.gt0 rest); reflexivity.
Qed.

Lemma accept_answer src v : accept src v = (first_accepted Py.gt0 [v], [src]).
Proof.
  unfold accept. destruct v as [x|]; [|reflexivity].
  rewrite usable_gt0. cbn. destruct (Py.gt0 x); reflexivity.
Qed.

Lemma try_finnhub_answer w : try_finnhub w = answer (nth 0 (offers w) (Finnhub, None)).
Proof.
  unfold try_finnhub, answer. cbn.
  destruct (FINNHUB_API_KEY w); cbn; [|reflexivity].
  destruct (finnhub_quote w) as [|[st v]]; cbn; [reflexivity|].
  destruct (st =? 200)%Z; [apply accept_answer|reflexivity].
Qed.

Lemma try_alpha_vantage_answer w :
  try_alpha_vantage w = answer (nth 1 (offers w) (Finnhub, None)).
Proof.
  unfold try_alpha_vantage, answer. cbn.
  destruct (ALPHA_VANTAGE_API_KEY w); cbn; [|reflexivity].
  destruct (alpha_global_quote w) as [|[st [|[x|]]]]; cbn; try reflexivity;
    destruct (st =? 200)%Z; cbn; try reflexivity.
  destruct (Py.gt0 x); reflexivity.
Qed.

Lemma try_fast_info_answer w : try_fast_info w = answer (nth 2 (offers w) (Finnhub, None)).
Proof.
  unfold try_fast_info, answer. cbn.
  destruct (fast_info_last_price w); [reflexivity|apply accept_answer].
Qed.

Lemma first_usable_field_accepted get fields :
  first_usable_field get fields = first_accepted Py.gt0 (map get fields).
Proof.
  induction fields as [|f rest IH]; cbn [first_usable_field map first_accepted];
    [reflexivity|].
  destruct (get f) as [x|]; [|exact IH].
  rewrite usable_gt0. destruct (Py.gt0 x); [reflexivity|exact IH].
Qed.

Lemma try_info_answer w : try_info w = answer (nth 3 (offers w) (Finnhub, None)).
Proof.
  unfold try_info, answer. cbn [nth offers snd fst info_candidates].
  destruct (info w); [reflexivity|].
  cbn [info_candidates]. rewrite first_usable_field_accepted. reflexivity.
Qed.

Lemma try_history_answer w : try_history w = answer (nth 4 (offers w) (Finnhub, None)).
Proof.
  unfold try_history, answer. cbn.
  destruct (history_last_close w); [reflexivity|apply accept_answer].
Qed.

Lemma try_yahoo_chart_answer w : try_yahoo_chart w = answer (nth 5 (offers w) (Finnhub, None)).
Proof.
  unfold try_yahoo_chart, answer. cbn.
  destruct (yahoo_chart w) as [|[st v]]; cbn; [reflexivity|].
  destruct (st =? 200)%Z; [apply accept_answer|reflexivity].
Qed.

Lemma or_else_nil t : or_else t (None, []) = t.
Proof. destruct t as [[x|] l]; cbn; [reflexivity|]. rewrite app_nil_r. reflexivity. Qed.

Lemma first_accepted_sound accepted candidates x :
  first_accepted accepted candidates = Some x -> accepted x = true.
Proof.
  induction candidates as [|[y|] rest IH]; cbn; try discriminate; try exact IH.
  destruct (accepted y) eqn:E; [|exact IH]. intros [= <-]. exact E.
Qed.

Lemma resolve_price_sound accepted os x :
  fst (resolve_price accepted os) = Some x -> accepted x = true.
Proof.
  induction os as [|[src [candidates|]] rest IH]; cbn; try discriminate; try exact IH.
  destruct (first_accepted accepted candidates) eqn:E; cbn; [|exact IH].
  intros [= <-]. exact (first_accepted_sound _ _ _ E).
Qed.

Lemma get_real_time_price_resolve w :
  get_real_time_price w = resolve_price Py.gt0 (offers w).
Proof.
  unfold get_real_time_price.
  rewrite try_finnhub_answer, try_alpha_vantage_answer, try_fast_info_answer,
    try_info_answer, try_history_answer, try_yahoo_chart_answer.
  change (offers w) with
    [nth 0 (offers w) (Finnhub, None); nth 1 (offers w) (Finnhub, None);
     nth 2 (offers w) (Finnhub, None); nth 3 (offers w) (Finnhub, None);
     nth 4 (offers w) (Finnhub, None); nth 5 (offers w) (Finnhub, None)] at 7.
  rewrite !resolve_price_cons. cbn [resolve_price]. rewrite or_else_nil. reflexivity.
Qed.

Lemma first_accepted_none accepted candidates :
  first_accepted accepted candidates = None <->
  (forall x, In (Some x) candidates -> accepted x = false).
Proof.
  induction candidates as [|[y|] rest IH]; cbn.
  - split; [intros _ x []|reflexivity].
  - destruct (accepted y) eqn:E.
    + split; [discriminate|]. intros H. rewrite (H y) in E; [discriminate|]. left; reflexivity.
    + rewrite IH. split.
      * intros H x [[= <-]|Hin]; [exact E|exact (H x Hin)].
      * intros H x Hin. apply H. right; exact Hin.
  - rewrite IH. split.
    + intros H x [Hd|Hin]; [discriminate|exact (H x Hin)].
    + intros H x Hin. apply H. right; exact Hin.
Qed.

Lemma resolve_price_none accepted os :
  fst (resolve_price accepted os) = None <->
  (forall src candidates x,
      In (src, Some candidates) os -> In (Some x) candidates -> accepted x = false).
Proof.
  induction os as [|[src0 [cands0|]] rest IH]; cbn [resolve_price].
  - split; [intros _ ? ? ? []|reflexivity].
  - destruct (first_accepted accepted cands0) as [y|] eqn:E; cbn [fst].
    + split; [discriminate|]. intros H.
      pose proof (first_accepted_sound _ _ _ E) as Hy.
      assert (Hn : first_accepted accepted cands0 = None).
      { apply first_accepted_none. intros x Hx. apply (H src0 cands0 x); [left; reflexivity|exact Hx]. }
      congruence.
    + rewrite IH. split.
      * intros H src candidates x [[= <- <-]|Hin] Hx.
        -- exact (proj1 (first_accepted_none _ _) E x Hx).
        -- exact (H src candidates x Hin Hx).
      * intros H src candidates x Hin. apply (H src). right; exact Hin.
  - rewrite IH. split.
    + intros H src candidates x [Hd|Hin]; [discriminate|exact (H src candidates x Hin)].
    + intros H src candidates x Hin. apply (H src). right; exact Hin.
Qed.

(** C5, as the code has it.  [get_real_time_price] asks Finnhub, Alpha
    Vantage, yfinance fast_info, yfinance info, yfinance history and the Yahoo
    chart endpoint in this order, skipping a source whose key is absent; a
    candidate is accepted exactly when it is a number greater than zero (the
    positive infinity included); the first accepted candidate is the answer
    and no later source is contacted; the answer is [None] exactly when no
    source has an accepted candidate.  When Finnhub has no accepted candidate
    and Alpha Vantage has one, that one is the answer and yfinance is not
    contacted. *)
Theorem get_real_time_price_first_positive (w : Sources) :
  get_real_time_price w = resolve_price Py.gt0 (offers w)
  /\ (forall x, fst (get_real_time_price w) = Some x -> Py.gt0 x = true)
  /\ (fst (get_real_time_price w) = None <->
      forall src candidates x,
        In (src, Some candidates) (offers w) -> In (Some x) candidates -> Py.gt0 x = false)
  /\ (forall x,
        fst (try_finnhub w) = None ->
        fst (try_alpha_vantage w) = Some x ->
        fst (get_real_time_price w) = Some x
        /\ snd (get_real_time_price w) = snd (try_finnhub w) ++ [AlphaVantage]
        /\ ~ In YfFastInfo (snd (get_real_time_price w)))
  /\ get_real_time_price world_42 = (Some (Py.Fin 42), [Finnhub; AlphaVantage]).
Proof.
  split; [apply get_real_time_price_resolve|].
  split. { intros x. rewrite get_real_time_price_resolve. apply resolve_price_sound. }
  split. { rewrite get_real_time_price_resolve. apply resolve_price_none. }
  split; [|reflexivity].
  intros x H1 H2. unfold get_real_time_price.
  destruct (try_finnhub w) as [[y|] c1] eqn:E1; [discriminate|].
  destruct (try_alpha_vantage w) as [[y|] c2] eqn:E2; [|discriminate].
  cbn in H2. injection H2 as ->. cbn [or_else fst snd].
  assert (Hc2 : c2 = [AlphaVantage]).
  { unfold try_alpha_vantage in E2.
    destruct (ALPHA_VANTAGE_API_KEY w); cbn in E2; [|discriminate].
    destruct (alpha_global_quote w) as [|[st [|[z|]]]]; try discriminate;
      destruct (st =? 200)%Z; try discriminate.
    destruct (Py.gt0 z); [|discriminate]. congruence. }
  assert (Hc1 : c1 = [] \/ c1 = [Finnhub]).
  { unfold try_finnhub in E1.
    destruct (FINNHUB_API_KEY w); cbn in E1; [|left; congruence].
    right. destruct (finnhub_quote w) as [|[st v]]; [congruence|].
    destruct (st =? 200)%Z; [|congruence].
    unfold accept in E1. destruct (Py.usable v); congruence. }
  subst c2. split; [reflexivity|]. split; [reflexivity|].
  destruct Hc1 as [-> | ->]; cbn; intuition discriminate.
Qed.

(** The claim C5 asks for a finite accepted value: an infinite answer of the
    first source is returned all the same. *)
Lemma get_real_time_price_accepts_infinity :
  get_real_time_price world_inf = (Some Py.PosInf, [Finnhub])
  /\ finite_positive Py.PosInf = false
  /\ resolve_price finite_positive (offers world_inf) = (Some (Py.Fin 42), [Finnhub; AlphaVantage])
  /\ ~ (forall w x, fst (get_real_time_price w) = Some x -> finite_positive x = true).
Proof.
  split; [reflexivity|]. split; [reflexivity|]. split; [reflexivity|].
  intros H. specialize (H world_inf Py.PosInf eq_refl). discriminate.
Qed.

(** ** Properties of the trade engine *)

Lemma holdings_update_summary u now db :
  stock_holdings (_update_portfolio_summary u now db) = stock_holdings db.
Proof. unfold _update_portfolio_summary. destruct (portfolio_summary db !! u); reflexivity. Qed.

Lemma wallets_update_summary u now db :
  user_wallets (_update_portfolio_summary u now db) = user_wallets db.
Proof. unfold _update_portfolio_summary. destruct (portfolio_summary db !! u); reflexivity. Qed.

Lemma transactions_update_summary u now db :
  transactions (_update_portfolio_summary u now db) = transactions db.
Proof. unfold _update_portfolio_summary. destruct (portfolio_summary db !! u); reflexivity. Qed.

Ltac ledger_simpl :=
  cbn [with_wallets with_holdings with_transactions with_notifications with_cache
       with_summary user_wallets stock_holdings transactions notifications
       stock_prices_cache portfolio_summary] in *.

Ltac frame_simpl :=
  cbn [fst snd]; ledger_simpl;
  rewrite ?holdings_update_summary, ?wallets_update_summary, ?transactions_update_summary;
  ledger_simpl.

Lemma trigger_raises {A : Type} (row : A) : before_update stock_holdings_table row = None.
Proof. reflexivity. Qed.

Lemma buy_transaction_commits db now u s q p company w fees bal :
  get_user_wallet db u = Some w ->
  (0 < q)%Z ->
  stock_holdings db !! (u, Py.upper s) = None ->
  exists nb db',
    buy_transaction db now u s q p company w (p * inject_Z q) fees
                    (p * inject_Z q + fees) bal = Some (nb, db')
    /\ nb = bal - (p * inject_Z q + fees)
    /\ stock_holdings db' =
         <[(u, Py.upper s) := bought_row (stock_holdings db !! (u, Py.upper s)) company q p now]>
           (stock_holdings db)
    /\ user_wallets db' =
         <[u := Wallet.mk nb (Wallet.total_invested w + p * inject_Z q)
                          (Wallet.total_returns w)]> (user_wallets db)
    /\ transactions db' =
         Tx.mk u BUY (Py.upper s) company q p (p * inject_Z q) fees
               (p * inject_Z q + fees) NoNotes :: transactions db.
Proof.
  intros Hw Hq Hh. unfold get_user_wallet in Hw.
  unfold buy_transaction, _update_price_cache.
  ledger_simpl. rewrite Hw. ledger_simpl. rewrite Hh.
  unfold check_quantity; cbn [Holding.quantity bought_row].
  destruct (Z.ltb_spec 0 q) as [L|L]; [|lia].
  eexists _, _. split; [reflexivity|]. frame_simpl. auto.
Qed.

(** The UPDATE of a holding that exists raises: the transaction of a buy on
    a held symbol has no outcome but the exception. *)
Lemma buy_transaction_rebuy db now u s q p company w total fees net bal h :
  stock_holdings db !! (u, Py.upper s) = Some h ->
  buy_transaction db now u s q p company w total fees net bal = None.
Proof.
  intros Hh. unfold buy_transaction. ledger_simpl.
  assert (E : forall d : Ledger, stock_holdings d = stock_holdings db ->
                stock_holdings d !! (u, Py.upper s) = Some h) by (intros d ->; exact Hh).
  destruct (user_wallets db !! u); ledger_simpl; rewrite Hh;
    destruct (Holding.quantity h + q =? 0)%Z; reflexivity.
Qed.

Lemma buy_stock_commits db fetched info now u s q cp p w :
  trade_price cp fetched = Some p ->
  get_user_wallet db u = Some w ->
  p * inject_Z q <= Wallet.quantz_balance w ->
  (0 < q)%Z ->
  stock_holdings db !! (u, Py.upper s) = None ->
  let company := match info with Some n => n | None => s end in
  exists db',
    buy_stock db fetched info now u s q cp =
      (Success (S (length (transactions db)))
         (mkTradeData (Py.upper s) q p (p * inject_Z q) None
                      (Wallet.quantz_balance w - (p * inject_Z q + 0))), db')
    /\ stock_holdings db' =
         <[(u, Py.upper s) := bought_row (stock_holdings db !! (u, Py.upper s)) company q p now]>
           (stock_holdings db)
    /\ user_wallets db' =
         <[u := Wallet.mk (Wallet.quantz_balance w - (p * inject_Z q + 0))
                          (Wallet.total_invested w + p * inject_Z q)
                          (Wallet.total_returns w)]> (user_wallets db)
    /\ transactions db' =
         Tx.mk u BUY (Py.upper s) company q p (p * inject_Z q) 0
               (p * inject_Z q + 0) NoNotes :: transactions db.
Proof.
  intros Hp Hw Hbal Hq Hh company.
  destruct (buy_transaction_commits db now u s q p company w 0 (Wallet.quantz_balance w)
              Hw Hq Hh) as (nb & db' & Htx & -> & Hh' & Hwl & Ht).
  unfold buy_stock. rewrite Hp, Hw.
  destruct (Qlt_le_dec (Wallet.quantz_balance w) (p * inject_Z q + 0)) as [Hlt|_].
  { exfalso. lra. }
  fold company. rewrite Htx.
  eexists. split; [reflexivity|].
  unfold _create_notification. ledger_simpl. auto.
Qed.

Lemma buy_stock_rebuy db fetched info now u s q cp p w h :
  trade_price cp fetched = Some p ->
  get_user_wallet db u = Some w ->
  p * inject_Z q <= Wallet.quantz_balance w ->
  stock_holdings db !! (u, Py.upper s) = Some h ->
  buy_stock db fetched info now u s q cp = (Rejected TransactionFailed, db).
Proof.
  intros Hp Hw Hbal Hh. unfold buy_stock. rewrite Hp, Hw.
  destruct (Qlt_le_dec (Wallet.quantz_balance w) (p * inject_Z q + 0)) as [Hlt|_].
  { exfalso. lra. }
  rewrite (buy_transaction_rebuy _ _ _ _ _ _ _ _ _ _ _ _ h Hh). reflexivity.
Qed.

Lemma sell_stock_commits db fetched now u s q cp p h w :
  trade_price cp fetched = Some p ->
  stock_holdings db !! (u, Py.upper s) = Some h ->
  q = Holding.quantity h ->
  get_user_wallet db u = Some w ->
  let pnl := (p - Holding.average_price h) * inject_Z q in
  exists db',
    sell_stock db fetched now u s q cp =
      (Success (S (length (transactions db)))
         (mkTradeData (Py.upper s) q p (p * inject_Z q) (Some pnl)
                      (Wallet.quantz_balance w + (p * inject_Z q - 0))), db')
    /\ stock_holdings db' = sold_rows (stock_holdings db) (u, Py.upper s) h q p now
    /\ user_wallets db' =
         <[u := Wallet.mk (Wallet.quantz_balance w + (p * inject_Z q - 0))
                          (Wallet.total_invested w)
                          (Wallet.total_returns w + pnl)]> (user_wallets db)
    /\ transactions db' =
         Tx.mk u SELL (Py.upper s) (Holding.company_name h) q p (p * inject_Z q) 0
               (p * inject_Z q - 0) (RealizedPnL pnl) :: transactions db.
Proof.
  intros Hp Hh Hq Hw pnl.
  unfold sell_stock. rewrite Hp, Hh.
  destruct (Z.ltb_spec (Holding.quantity h) q) as [L|_]; [lia|].
  unfold sell_transaction. rewrite Hw. unfold sold_rows.
  destruct (Z.eqb_spec (Holding.quantity h) q) as [E|E]; [|congruence].
  eexists. split; [reflexivity|].
  unfold _create_notification, _update_price_cache. frame_simpl. auto.
Qed.

Lemma sell_stock_partial db fetched now u s q cp p h :
  trade_price cp fetched = Some p ->
  stock_holdings db !! (u, Py.upper s) = Some h ->
  (q < Holding.quantity h)%Z ->
  sell_stock db fetched now u s q cp = (Rejected TransactionFailed, db).
Proof.
  intros Hp Hh Hq. unfold sell_stock. rewrite Hp, Hh.
  destruct (Z.ltb_spec (Holding.quantity h) q) as [L|_]; [lia|].
  unfold sell_transaction.
  destruct (get_user_wallet db u); [|reflexivity].
  destruct (Z.eqb_spec (Holding.quantity h) q) as [E|E]; [lia|]. reflexivity.
Qed.

(** What the two UPDATEs would write: the weighted average of the claim,
    and the reduction of the cost at the average price. *)
Lemma rebuy_row_weighted_average h q p now :
  let row := rebuy_row h q p (p * inject_Z q) now in
  Holding.quantity row = (Holding.quantity h + q)%Z
  /\ Holding.total_cost row = Holding.total_cost h + p * inject_Z q
  /\ Holding.average_price row =
       (Holding.total_cost h + p * inject_Z q) / inject_Z (Holding.quantity h + q).
Proof. cbv zeta. repeat split; reflexivity. Qed.

Lemma partial_sale_row_keeps_average h q p now :
  let row := partial_sale_row h q p now in
  Holding.quantity row = (Holding.quantity h - q)%Z
  /\ Holding.total_cost row = Holding.total_cost h - Holding.average_price h * inject_Z q
  /\ Holding.average_price row = Holding.average_price h.
Proof. cbv zeta. repeat split; reflexivity. Qed.

(** C1.  A first buy that the wallet can pay commits and leaves a holding
    with the bought quantity, price times quantity as total cost and the
    price as average price (kept at four decimals).  A buy on a symbol that the user holds computes
    the weighted average ([rebuy_row]) and binds it to the UPDATE of the
    holding, which the trigger of [stock_holdings] makes raise: the buy is
    answered "Transaction failed", and the database, the holding included, is
    as it was. *)
Theorem buy_stock_on_held_symbol_is_rolled_back db fetched info now u s q cp p w :
  trade_price cp fetched = Some p ->
  get_user_wallet db u = Some w ->
  p * inject_Z q <= Wallet.quantz_balance w ->
  (0 < q)%Z ->
  let r := buy_stock db fetched info now u s q cp in
  match stock_holdings db !! (u, Py.upper s) with
  | Some h =>
      r = (Rejected TransactionFailed, db)
      /\ stock_holdings (snd r) !! (u, Py.upper s) = Some h
  | None =>
      exists tid data h',
        fst r = Success tid data
        /\ stock_holdings (snd r) !! (u, Py.upper s) = Some h'
        /\ Holding.quantity h' = q
        /\ Holding.total_cost h' == p * inject_Z q
        /\ Holding.average_price h' = p
        /\ Holding.average_price (Column.stored h') = Column.numeric 4 p
  end.
Proof.
  intros Hp Hw Hbal Hq r.
  destruct (stock_holdings db !! (u, Py.upper s)) as [h|] eqn:Hh.
  - subst r. rewrite (buy_stock_rebuy db fetched info now u s q cp p w h Hp Hw Hbal Hh).
    split; [reflexivity|exact Hh].
  - destruct (buy_stock_commits db fetched info now u s q cp p w Hp Hw Hbal Hq Hh)
      as (db' & Hr & Hrows & _).
    subst r. rewrite Hr. cbn [fst snd]. rewrite Hrows, lookup_insert_eq, Hh.
    eexists _, _, _. split; [reflexivity|]. split; [reflexivity|].
    cbn [bought_row Holding.quantity Holding.total_cost Holding.average_price].
    repeat split; reflexivity.
Qed.

Lemma buy_stock_on_held_symbol_is_rolled_back_witness :
  let db0 := initialize_user_wallet 1 10000 0 empty_ledger in
  let db1 := snd (buy_stock db0 None None 0 1 "aapl" 10 (Some 100)) in
  let r := buy_stock db1 None None 5 1 "AAPL" 10 (Some 200) in
  r = (Rejected TransactionFailed, db1)
  /\ stock_holdings (snd r) !! (1%Z, "AAPL"%string)
     = Some (Holding.mk "aapl" 10 100 100 (100 * inject_Z 10) (100 * inject_Z 10) 0)
  /\ Holding.average_price (rebuy_row (Holding.mk "aapl" 10 100 100 1000 1000 0)
                                      10 200 (200 * inject_Z 10) 5) == 150.
Proof.
  intros db0 db1 r.
  assert (Hw : exists w, get_user_wallet db1 1 = Some w
                         /\ 200 * inject_Z 10 <= Wallet.quantz_balance w).
  { eexists. split; [vm_compute; reflexivity|]. vm_compute. discriminate. }
  destruct Hw as (w & Hw & Hbal).
  pose proof (buy_stock_on_held_symbol_is_rolled_back db1 None None 5 1 "AAPL" 10 (Some 200)
                200 w eq_refl Hw Hbal eq_refl) as H.
  cbv zeta in H.
  change (stock_holdings db1 !! (1%Z, Py.upper "AAPL")) with
    (Some (Holding.mk "aapl" 10 100 100 (100 * inject_Z 10) (100 * inject_Z 10) 0)) in H.
  destruct H as [Hr Hkeep].
  split; [exact Hr|]. split; [exact Hkeep|]. vm_compute. reflexivity.
Defined.

(** C2.  A sell of fewer shares than the holding has computes the realized
    P&L and the reduced row ([partial_sale_row]: the quantity and the cost at
    the average price go down, the average price stays) and binds the row to
    the UPDATE of the holding, which the trigger makes raise: the sell is
    answered "Transaction failed" and nothing is written, neither the
    transaction nor the credit of the wallet nor the realized P&L. *)
Theorem sell_stock_of_a_part_is_rolled_back db fetched now u s q cp p h :
  trade_price cp fetched = Some p ->
  stock_holdings db !! (u, Py.upper s) = Some h ->
  (q < Holding.quantity h)%Z ->
  let r := sell_stock db fetched now u s q cp in
  r = (Rejected TransactionFailed, db)
  /\ stock_holdings (snd r) !! (u, Py.upper s) = Some h
  /\ user_wallets (snd r) = user_wallets db
  /\ transactions (snd r) = transactions db.
Proof.
  intros Hp Hh Hq r. subst r.
  rewrite (sell_stock_partial db fetched now u s q cp p h Hp Hh Hq).
  cbn [snd]. auto.
Qed.

Lemma sell_stock_of_a_part_is_rolled_back_witness :
  let db0 := initialize_user_wallet 1 10000 0 empty_ledger in
  let db1 := snd (buy_stock db0 None None 0 1 "AAPL" 20 (Some 150)) in
  let r := sell_stock db1 None 9 1 "AAPL" 5 (Some 180) in
  r = (Rejected TransactionFailed, db1)
  /\ (exists h, stock_holdings (snd r) !! (1%Z, "AAPL"%string) = Some h
                /\ Holding.quantity h = 20%Z /\ Holding.average_price h == 150)
  /\ user_wallets (snd r) !! 1%Z = Some (Wallet.mk (10000 - (150 * inject_Z 20 + 0))
                                                   (0 + 150 * inject_Z 20) 0).
Proof.
  intros db0 db1 r.
  assert (Hh : exists h, stock_holdings db1 !! (1%Z, Py.upper "AAPL") = Some h
                         /\ Holding.quantity h = 20%Z /\ Holding.average_price h == 150).
  { eexists. split; [vm_compute; reflexivity|]. split; reflexivity. }
  destruct Hh as (h & Hh & Hqty & Havg).
  assert (Hlt : (5 < Holding.quantity h)%Z) by (rewrite Hqty; reflexivity).
  destruct (sell_stock_of_a_part_is_rolled_back db1 None 9 1 "AAPL" 5 (Some 180) 180 h
              eq_refl Hh Hlt) as (Hr & Hkeep & Hwl & _).
  split; [exact Hr|]. split.
  - exists h. split; [exact Hkeep|]. split; assumption.
  - fold r in Hwl. rewrite Hwl. vm_compute. reflexivity.
Defined.

(** *** The cost basis *)

Lemma cost_basis_gap_zero h :
  cost_basis_gap h == 0 <->
  Holding.total_cost h == Holding.average_price h * inject_Z (Holding.quantity h).
Proof.
  unfold cost_basis_gap. split; intros H.
  - assert (Hle : Qabs (Holding.total_cost h
                        - Holding.average_price h * inject_Z (Holding.quantity h)) <= 0)
      by (rewrite H; apply Qle_refl).
    apply Qabs_Qle_condition in Hle. lra.
  - assert (E : Holding.total_cost h
                - Holding.average_price h * inject_Z (Holding.quantity h) == 0) by lra.
    rewrite E. reflexivity.
Qed.

Lemma inject_Z_nonzero n : n <> 0%Z -> ~ inject_Z n == 0.
Proof. intros Hn E. apply Hn. unfold Qeq, inject_Z in E. cbn in E. lia. Qed.

Lemma bought_row_consistent existing company q p now :
  (forall h, existing = Some h -> cost_basis_gap h == 0 /\ (Holding.quantity h + q)%Z <> 0%Z) ->
  cost_basis_gap (bought_row existing company q p now) == 0.
Proof.
  intros H. apply cost_basis_gap_zero. destruct existing as [h|]; cbn.
  - destruct (H h eq_refl) as [_ Hn]. apply inject_Z_nonzero in Hn. field. exact Hn.
  - reflexivity.
Qed.

(** What a call of [buy_stock] does to the holdings: nothing, or it writes
    the bought row. *)
Lemma buy_stock_holdings db fetched info now u s q cp :
  let db' := snd (buy_stock db fetched info now u s q cp) in
  stock_holdings db' = stock_holdings db
  \/ exists p company,
       stock_holdings db' =
         <[(u, Py.upper s) := bought_row (stock_holdings db !! (u, Py.upper s)) company q p now]>
           (stock_holdings db)
       /\ (forall h, stock_holdings db !! (u, Py.upper s) = Some h ->
                     (Holding.quantity h + q)%Z <> 0%Z).
Proof.
  unfold buy_stock.
  destruct (trade_price cp fetched) as [p|]; [|left; reflexivity].
  destruct (get_user_wallet db u) as [w|] eqn:Hw; [|left; reflexivity].
  destruct (Qlt_le_dec _ _); [left; reflexivity|].
  unfold buy_transaction, _update_price_cache, _create_notification, check_quantity.
  frame_simpl. unfold get_user_wallet in Hw. rewrite Hw. frame_simpl.
  destruct (stock_holdings db !! (u, Py.upper s)) as [h|] eqn:Hh; cbn [Holding.quantity].
  - destruct (Z.eqb_spec (Holding.quantity h + q) 0) as [E|E]; left; reflexivity.
  - destruct (0 <? q)%Z; [|left; reflexivity].
    right. frame_simpl. eexists p, _. split; [reflexivity|]. discriminate.
Qed.

(** What a call of [sell_stock] does to the holdings: nothing, or it removes
    the sold shares from the row it found. *)
Lemma sell_stock_holdings db fetched now u s q cp :
  let db' := snd (sell_stock db fetched now u s q cp) in
  stock_holdings db' = stock_holdings db
  \/ exists p h,
       stock_holdings db !! (u, Py.upper s) = Some h
       /\ stock_holdings db' = sold_rows (stock_holdings db) (u, Py.upper s) h q p now.
Proof.
  unfold sell_stock.
  destruct (trade_price cp fetched) as [p|]; [|left; reflexivity].
  destruct (stock_holdings db !! (u, Py.upper s)) as [h|] eqn:Hh; [|left; reflexivity].
  destruct (Holding.quantity h <? q)%Z; [left; reflexivity|].
  unfold sell_transaction, _update_price_cache, _create_notification, check_quantity, sold_rows.
  destruct (get_user_wallet db u) as [w|]; [|left; reflexivity].
  cbn [Holding.quantity].
  destruct (Holding.quantity h =? q)%Z eqn:E.
  - right. frame_simpl. exists p, h. rewrite E. split; reflexivity.
  - left. reflexivity.
Qed.

Lemma buy_stock_consistent db fetched info now u s q cp :
  cost_basis_consistent db ->
  cost_basis_consistent (snd (buy_stock db fetched info now u s q cp)).
Proof.
  intros Hc. unfold cost_basis_consistent in *.
  destruct (buy_stock_holdings db fetched info now u s q cp) as [->|(p & c & -> & Hn)];
    [exact Hc|].
  apply map_Forall_insert_2; [|exact Hc].
  apply bought_row_consistent. intros h Hh. split; [exact (Hc _ _ Hh)|exact (Hn _ Hh)].
Qed.

Lemma sell_stock_consistent db fetched now u s q cp :
  cost_basis_consistent db ->
  cost_basis_consistent (snd (sell_stock db fetched now u s q cp)).
Proof.
  intros Hc. unfold cost_basis_consistent in *.
  destruct (sell_stock_holdings db fetched now u s q cp) as [->|(p & h & Hh & ->)];
    [exact Hc|].
  unfold sold_rows. destruct (Holding.quantity h =? q)%Z.
  - apply map_Forall_delete. exact Hc.
  - apply map_Forall_insert_2; [|exact Hc].
    pose proof (Hc _ _ Hh) as Hg. cbn beta in Hg.
    apply cost_basis_gap_zero in Hg. apply cost_basis_gap_zero. cbn.
    rewrite Hg. unfold Zminus. rewrite inject_Z_plus, inject_Z_opp. ring.
Qed.

Lemma execute_consistent db t :
  cost_basis_consistent db -> cost_basis_consistent (snd (execute db t)).
Proof.
  destruct t; cbn [execute]; [apply buy_stock_consistent|apply sell_stock_consistent].
Qed.

(** What a call of [buy_stock] does to the holdings, sharper: nothing, and
    then the answer is no success, or the INSERT of the row of a first
    buy. *)
Lemma buy_stock_inserts db fetched info now u s q cp :
  let db' := snd (buy_stock db fetched info now u s q cp) in
  (stock_holdings db' = stock_holdings db
   /\ forall tid data, fst (buy_stock db fetched info now u s q cp) <> Success tid data)
  \/ exists p company,
       trade_price cp fetched = Some p
       /\ stock_holdings db !! (u, Py.upper s) = None
       /\ (0 < q)%Z
       /\ stock_holdings db' =
            <[(u, Py.upper s) :=
                Holding.mk company q p p (p * inject_Z q) (p * inject_Z q) now]>
              (stock_holdings db).
Proof.
  unfold buy_stock.
  destruct (trade_price cp fetched) as [p|]; [|left; split; [reflexivity|discriminate]].
  destruct (get_user_wallet db u) as [w|] eqn:Hw; [|left; split; [reflexivity|discriminate]].
  destruct (Qlt_le_dec _ _); [left; split; [reflexivity|discriminate]|].
  destruct (stock_holdings db !! (u, Py.upper s)) as [h|] eqn:Hh.
  - rewrite (buy_transaction_rebuy _ _ _ _ _ _ _ _ _ _ _ _ h Hh).
    left; split; [reflexivity|discriminate].
  - unfold buy_transaction, _update_price_cache, _create_notification, check_quantity.
    frame_simpl. unfold get_user_wallet in Hw. rewrite Hw. frame_simpl. rewrite Hh.
    cbn [Holding.quantity].
    destruct (Z.ltb_spec 0 q) as [L|L]; [|left; split; [reflexivity|discriminate]].
    right. frame_simpl. eexists p, _.
    split; [reflexivity|]. split; [reflexivity|]. split; [exact L|reflexivity].
Qed.

(** What a call of [sell_stock] does to the holdings, sharper: nothing, or
    the DELETE of the row. *)
Lemma sell_stock_deletes db fetched now u s q cp :
  let db' := snd (sell_stock db fetched now u s q cp) in
  stock_holdings db' = stock_holdings db
  \/ stock_holdings db' = delete (u, Py.upper s) (stock_holdings db).
Proof.
  unfold sell_stock.
  destruct (trade_price cp fetched) as [p|]; [|left; reflexivity].
  destruct (stock_holdings db !! (u, Py.upper s)) as [h|] eqn:Hh; [|left; reflexivity].
  destruct (Holding.quantity h <? q)%Z; [left; reflexivity|].
  unfold sell_transaction, _update_price_cache, _create_notification.
  destruct (get_user_wallet db u) as [w|]; [|left; reflexivity].
  destruct (Holding.quantity h =? q)%Z eqn:E.
  - right. frame_simpl. reflexivity.
  - left. reflexivity.
Qed.

Lemma execute_positive db t :
  quantities_positive db -> quantities_positive (snd (execute db t)).
Proof.
  intros Hpos. unfold quantities_positive in *. destruct t; cbn [execute].
  - destruct (buy_stock_inserts db fetched company_info now user_id symbol quantity
                current_price) as [[-> _]|(p & c & _ & _ & Hq & ->)]; [exact Hpos|].
    apply map_Forall_insert_2; [exact Hq|exact Hpos].
  - destruct (sell_stock_deletes db fetched now user_id symbol quantity current_price)
      as [->| ->]; [exact Hpos|].
    apply map_Forall_delete. exact Hpos.
Qed.

(** *** The scale of the columns *)

Lemma pow10_positive scale : 0 < inject_Z (10 ^ Z.of_nat scale).
Proof.
  change 0 with (inject_Z 0). rewrite <- Zlt_Qlt. apply Z.pow_pos_nonneg; lia.
Qed.

(** A DECIMAL column of scale [s] keeps a value up to half a unit of its last
    decimal. *)
Lemma numeric_close scale x :
  Qabs (Column.numeric scale x - x) <= (1 # 2) / inject_Z (10 ^ Z.of_nat scale).
Proof.
  unfold Column.numeric.
  set (unit := inject_Z (10 ^ Z.of_nat scale)).
  assert (Hu : 0 < unit) by apply pow10_positive.
  set (n := Qfloor (Qabs x * unit + (1 # 2))).
  assert (Hlo : inject_Z n <= Qabs x * unit + (1 # 2)) by apply Qfloor_le.
  assert (Hhi : Qabs x * unit + (1 # 2) < inject_Z n + 1).
  { pose proof (Qlt_floor (Qabs x * unit + (1 # 2))) as H. fold n in H.
    rewrite inject_Z_plus in H. exact H. }
  assert (Hinv : 0 < / unit) by (apply Qinv_lt_0_compat; exact Hu).
  assert (Hone : unit * / unit == 1) by (apply Qmult_inv_r; lra).
  apply Qabs_Qle_condition.
  destruct (Qlt_le_dec x 0) as [Hneg|Hnn].
  - (* negative *)
    assert (Hs : Z.sgn (Qnum x) = (-1)%Z).
    { destruct x as [[|k|k] d]; unfold Qlt in Hneg; cbn in *; try lia. }
    assert (Ha : Qabs x == - x) by (apply Qabs_neg; lra).
    rewrite Hs. rewrite Ha in Hlo, Hhi.
    replace (-1 * n)%Z with (- n)%Z by lia. rewrite inject_Z_opp.
    unfold Qdiv.
    assert (E1 : (- inject_Z n) * / unit - x == (- x * unit - inject_Z n) * / unit).
    { field. lra. }
    rewrite E1. split.
    + assert (H1 : - (1 # 2) <= - x * unit - inject_Z n) by lra.
      assert (E2 : - ((1 # 2) * / unit) == (- (1 # 2)) * / unit) by ring.
        rewrite E2.
      apply Qmult_le_compat_r; lra.
    + assert (H1 : - x * unit - inject_Z n <= 1 # 2) by lra.
      apply Qmult_le_compat_r; lra.
  - destruct (Qeq_dec x 0) as [Hz|Hnz].
    + assert (Hs : Z.sgn (Qnum x) = 0%Z).
      { destruct x as [[|k|k] d]; unfold Qeq in Hz; cbn in *; try lia. }
      rewrite Hs. replace (0 * n)%Z with 0%Z by lia. unfold Qdiv. rewrite Hz.
      change (inject_Z 0) with 0.
      assert (0 <= (1 # 2) * / unit) by (apply Qmult_le_0_compat; lra).
      split; lra.
    + assert (Hs : Z.sgn (Qnum x) = 1%Z).
      { destruct x as [[|k|k] d]; unfold Qle, Qeq in *; cbn in *; try lia. }
      assert (Ha : Qabs x == x) by (apply Qabs_pos; exact Hnn).
      rewrite Hs. rewrite Ha in Hlo, Hhi.
      replace (1 * n)%Z with n by lia.
      unfold Qdiv.
      assert (E1 : inject_Z n * / unit - x == (inject_Z n - x * unit) * / unit).
      { field. lra. }
      rewrite E1. split.
      * assert (H1 : - (1 # 2) <= inject_Z n - x * unit) by lra.
        assert (E2 : - ((1 # 2) * / unit) == (- (1 # 2)) * / unit) by ring.
        rewrite E2.
        apply Qmult_le_compat_r; lra.
      * assert (H1 : inject_Z n - x * unit <= 1 # 2) by lra.
        apply Qmult_le_compat_r; lra.
Qed.

(** The gap of a stored row whose bound values agree: half a cent for the
    total cost, and half a unit of the fourth decimal of the average price
    for each share. *)
Lemma stored_gap h :
  cost_basis_gap h == 0 ->
  (0 < Holding.quantity h)%Z ->
  cost_basis_gap (Column.stored h)
  <= (1 # 200) + inject_Z (Holding.quantity h) * (1 # 20000).
Proof.
  intros Hc Hq. apply cost_basis_gap_zero in Hc.
  unfold cost_basis_gap, Column.stored.
  cbn [Holding.total_cost Holding.average_price Holding.quantity].
  set (c := Holding.total_cost h) in *. set (a := Holding.average_price h) in *.
  set (q := inject_Z (Holding.quantity h)) in *.
  assert (Hq0 : 0 < q).
  { subst q. change 0 with (inject_Z 0). rewrite <- Zlt_Qlt. exact Hq. }
  clearbody c a q.
  pose proof (numeric_close 2 c) as H2. pose proof (numeric_close 4 a) as H4.
  change ((1 # 2) / inject_Z (10 ^ Z.of_nat 2)) with ((1 # 2) / 100) in H2.
  change ((1 # 2) / inject_Z (10 ^ Z.of_nat 4)) with ((1 # 2) / 10000) in H4.
  apply Qabs_Qle_condition in H2. apply Qabs_Qle_condition in H4.
  destruct H2 as [H2a H2b]. destruct H4 as [H4a H4b].
  apply Qabs_Qle_condition.
  assert (M1 : (Column.numeric 4 a - a) * q <= ((1 # 2) / 10000) * q)
    by (apply Qmult_le_compat_r; lra).
  assert (M2 : (- ((1 # 2) / 10000)) * q <= (Column.numeric 4 a - a) * q)
    by (apply Qmult_le_compat_r; lra).
  generalize dependent (Column.numeric 2 c). generalize dependent (Column.numeric 4 a).
  intros n4 H4a H4b M1 M2 n2 H2a H2b.
  assert (E1 : (n4 - a) * q == n4 * q - c) by (rewrite Hc; ring).
  assert (E2 : (1 # 2) / 10000 * q == q * (1 # 20000)) by field.
  assert (E3 : - ((1 # 2) / 10000) * q == - (q * (1 # 20000))) by field.
  assert (E4 : (1 # 2) / 100 == 1 # 200) by reflexivity.
  rewrite E1, E2 in M1. rewrite E1, E3 in M2. rewrite E4 in H2a, H2b.
  set (x := n4 * q) in *. set (y := q * (1 # 20000)) in *. clearbody x y.
  split; lra.
Qed.

(** C3, as the code has it.  The statements bind a total cost and an average
    price that agree exactly, and the table keeps the first rounded to cents
    and the second to four decimals: after each call of any sequence of buys
    and sells, every holding that exists satisfies, as stored,
    |total_cost - average_price * quantity| <= 0.005 + 0.00005 * quantity.
    A buy that succeeds leaves such a row, with the bought quantity, the
    price rounded to four decimals as average price and price times quantity
    rounded to cents as total cost. *)
Theorem cost_basis_up_to_column_rounding (ts : list Trade) (db : Ledger) :
  cost_basis_consistent db ->
  quantities_positive db ->
  Forall (fun db' =>
            map_Forall (fun _ h =>
                          cost_basis_gap (Column.stored h)
                          <= (1 # 200) + inject_Z (Holding.quantity h) * (1 # 20000))
                       (stock_holdings db'))
         (history db ts)
  /\ (forall fetched info now u s q cp tid data,
        fst (buy_stock db fetched info now u s q cp) = Success tid data ->
        exists p h,
          trade_price cp fetched = Some p
          /\ stock_holdings (snd (buy_stock db fetched info now u s q cp)) !! (u, Py.upper s)
             = Some h
          /\ Holding.quantity (Column.stored h) = q
          /\ Holding.average_price (Column.stored h) = Column.numeric 4 p
          /\ Holding.total_cost (Column.stored h) = Column.numeric 2 (p * inject_Z q)).
Proof.
  intros Hc Hpos. split.
  - revert db Hc Hpos.
    induction ts as [|t rest IH]; intros db Hc Hpos; cbn [history].
    + constructor.
    + pose proof (execute_consistent db t Hc) as Hc'.
      pose proof (execute_positive db t Hpos) as Hpos'.
      constructor; [|apply IH; assumption].
      intros k h Hh. apply stored_gap; [exact (Hc' k h Hh)|exact (Hpos' k h Hh)].
  - intros fetched info now u s q cp tid data Hr.
    destruct (buy_stock_inserts db fetched info now u s q cp)
      as [[_ Hno]|(p & c & Hp & _ & _ & Hrows)].
    + exfalso. exact (Hno _ _ Hr).
    + exists p. eexists. split; [exact Hp|]. rewrite Hrows, lookup_insert_eq.
      split; [reflexivity|]. repeat split.
Qed.

Lemma cost_basis_up_to_column_rounding_witness :
  let db0 := initialize_user_wallet 1 10000 0 empty_ledger in
  let db1 := snd (buy_stock db0 None None 0 1 "AAPL" 5000 (Some (100004 # 100000))) in
  (exists h,
     stock_holdings db1 !! (1%Z, "AAPL"%string) = Some h
     /\ Holding.quantity (Column.stored h) = 5000%Z
     /\ Holding.average_price (Column.stored h) == 1
     /\ Holding.total_cost (Column.stored h) == 50002 # 10)
  /\ Forall (fun db' =>
               map_Forall (fun _ h =>
                             cost_basis_gap (Column.stored h)
                             <= (1 # 200) + inject_Z (Holding.quantity h) * (1 # 20000))
                          (stock_holdings db'))
            (history db0 [TBuy None None 0 1 "AAPL" 5000 (Some (100004 # 100000));
                          TBuy None None 5 1 "MSFT" 3 (Some (123456 # 10000));
                          TSell None 9 1 "MSFT" 3 (Some 13)]).
Proof.
  intros db0 db1.
  assert (Hc : cost_basis_consistent db0) by apply map_Forall_empty.
  assert (Hpos : quantities_positive db0) by apply map_Forall_empty.
  destruct (cost_basis_up_to_column_rounding
              [TBuy None None 0 1 "AAPL" 5000 (Some (100004 # 100000));
               TBuy None None 5 1 "MSFT" 3 (Some (123456 # 10000));
               TSell None 9 1 "MSFT" 3 (Some 13)] db0 Hc Hpos) as [Hall Hbuy].
  split; [|exact Hall].
  destruct (Hbuy None None 0%Z 1%Z "AAPL"%string 5000%Z (Some (100004 # 100000))
              1%nat _ ltac:(vm_compute; reflexivity))
    as (p & h & Hp & Hh & Hq & Ha & Ht).
  injection Hp as <-.
  exists h. split; [exact Hh|]. split; [exact Hq|].
  split; [rewrite Ha; vm_compute; reflexivity|rewrite Ht; vm_compute; reflexivity].
Defined.

(** The claim C3 asks for a gap below a fixed epsilon (and the specification
    for a total cost equal to the average price times the quantity, rounded
    to cents): after one buy of 5000 shares at 1.00004 the table holds an
    average price of 1.0000 and a total cost of 5000.20, a gap of 0.20. *)
Lemma cost_basis_gap_of_twenty_cents :
  let db0 := initialize_user_wallet 1 10000 0 empty_ledger in
  let r := buy_stock db0 None None 0 1 "AAPL" 5000 (Some (100004 # 100000)) in
  exists tid data h,
    fst r = Success tid data
    /\ stock_holdings (snd r) !! (1%Z, "AAPL"%string) = Some h
    /\ cost_basis_gap (Column.stored h) == 1 # 5
    /\ ~ cost_basis_gap (Column.stored h) < 1 # 100
    /\ ~ Holding.total_cost (Column.stored h)
         == Column.numeric 2 (Holding.average_price (Column.stored h)
                              * inject_Z (Holding.quantity (Column.stored h))).
Proof.
  cbv zeta. eexists _, _, _.
  split; [vm_compute; reflexivity|]. split; [vm_compute; reflexivity|].
  split; [vm_compute; reflexivity|]. split; vm_compute; intros H; discriminate H.
Qed.

(** *** Sells that exhaust or exceed a position *)

(** C4.  Once the price of the trade is known: selling a symbol without a
    holding row is rejected with the no-position answer; selling more than
    the row's quantity is rejected with the insufficient-shares answer; both
    leave the database as it was.  Selling exactly the row's quantity, for a
    user who has a wallet, commits and deletes the row. *)
Theorem sell_stock_exhaustion db fetched now u s q cp p :
  trade_price cp fetched = Some p ->
  let r := sell_stock db fetched now u s q cp in
  match stock_holdings db !! (u, Py.upper s) with
  | None => r = (Rejected NoPosition, db)
  | Some h =>
      ((Holding.quantity h < q)%Z ->
       r = (Rejected (InsufficientShares (Holding.quantity h)), db))
      /\ (q = Holding.quantity h ->
          is_Some (get_user_wallet db u) ->
          (exists tid data, fst r = Success tid data)
          /\ stock_holdings (snd r) !! (u, Py.upper s) = None
          /\ (forall k, k <> (u, Py.upper s) ->
                        stock_holdings (snd r) !! k = stock_holdings db !! k))
  end.
Proof.
  intros Hp r.
  destruct (stock_holdings db !! (u, Py.upper s)) as [h|] eqn:Hh.
  - split.
    + intros Hlt. subst r. unfold sell_stock. rewrite Hp, Hh.
      destruct (Z.ltb_spec (Holding.quantity h) q) as [_|L]; [reflexivity|lia].
    + intros -> [w Hw].
      destruct (sell_stock_commits db fetched now u s (Holding.quantity h) cp p h w
                  Hp Hh ltac:(lia) Hw) as (db' & Hr & Hrows & _).
      subst r. rewrite Hr. cbn [fst snd]. rewrite Hrows. unfold sold_rows.
      rewrite Z.eqb_refl. split; [eauto|]. split.
      * apply lookup_delete_eq.
      * intros k Hk. apply lookup_delete_ne. congruence.
  - subst r. unfold sell_stock. rewrite Hp, Hh. reflexivity.
Qed.

Lemma sell_stock_exhaustion_witness :
  let db0 := initialize_user_wallet 1 10000 0 empty_ledger in
  let db2 := snd (buy_stock db0 None None 0 1 "AAPL" 20 (Some 150)) in
  stock_holdings (snd (sell_stock db2 None 9 1 "AAPL" 20 (Some 180))) !! (1%Z, "AAPL"%string)
    = None
  /\ sell_stock db2 None 9 1 "AAPL" 21 (Some 180) = (Rejected (InsufficientShares 20), db2)
  /\ sell_stock db2 None 9 1 "MSFT" 1 (Some 180) = (Rejected NoPosition, db2).
Proof.
  intros db0 db2.
  assert (Hh : exists h, stock_holdings db2 !! (1%Z, Py.upper "AAPL") = Some h
                         /\ Holding.quantity h = 20%Z).
  { eexists. split; [vm_compute; reflexivity|]. reflexivity. }
  destruct Hh as (h & Hh & Hq).
  pose proof (sell_stock_exhaustion db2 None 9 1 "AAPL" 20 (Some 180) 180 eq_refl) as H20.
  pose proof (sell_stock_exhaustion db2 None 9 1 "AAPL" 21 (Some 180) 180 eq_refl) as H21.
  pose proof (sell_stock_exhaustion db2 None 9 1 "MSFT" 1 (Some 180) 180 eq_refl) as Hm.
  cbv zeta in H20, H21, Hm. rewrite Hh in H20, H21.
  assert (Hnone : stock_holdings db2 !! (1%Z, Py.upper "MSFT") = None)
    by (vm_compute; reflexivity).
  rewrite Hnone in Hm.
  destruct H20 as [_ H20]. destruct H21 as [H21 _].
  assert (Hw : is_Some (get_user_wallet db2 1)) by (eexists; vm_compute; reflexivity).
  destruct (H20 (eq_sym Hq) Hw) as (_ & Hdel & _).
  split; [exact Hdel|]. split; [|exact Hm].
  rewrite <- Hq. apply H21. rewrite Hq. reflexivity.
Defined.

(** *** Rejected trades *)

Lemma buy_stock_rejected db fetched info now u s q cp why :
  fst (buy_stock db fetched info now u s q cp) = Rejected why ->
  snd (buy_stock db fetched info now u s q cp) = db.
Proof.
  unfold buy_stock.
  destruct (trade_price cp fetched); [|reflexivity].
  destruct (get_user_wallet db u); [|reflexivity].
  destruct (Qlt_le_dec _ _); [reflexivity|].
  destruct (buy_transaction _ _ _ _ _ _ _ _ _ _ _ _) as [[nb db']|]; [discriminate|reflexivity].
Qed.

Lemma sell_stock_rejected db fetched now u s q cp why :
  fst (sell_stock db fetched now u s q cp) = Rejected why ->
  snd (sell_stock db fetched now u s q cp) = db.
Proof.
  unfold sell_stock.
  destruct (trade_price cp fetched); [|reflexivity].
  destruct (stock_holdings db !! (u, Py.upper s)); [|reflexivity].
  destruct (_ <? _)%Z; [reflexivity|].
  destruct (sell_transaction _ _ _ _ _ _ _ _ _ _ _) as [[nb db']|]; [discriminate|reflexivity].
Qed.

Lemma buy_stock_insufficient_balance db fetched info now u s q cp p w :
  trade_price cp fetched = Some p ->
  get_user_wallet db u = Some w ->
  Wallet.quantz_balance w < p * inject_Z q ->
  buy_stock db fetched info now u s q cp =
    (Rejected (InsufficientBalance (p * inject_Z q + 0) (Wallet.quantz_balance w)), db).
Proof.
  intros Hp Hw Hlt. unfold buy_stock. rewrite Hp, Hw.
  destruct (Qlt_le_dec _ _) as [_|Hle]; [reflexivity|]. exfalso. lra.
Qed.

Lemma trade_price_unavailable fetched :
  (fetched = None \/ exists p, fetched = Some p /\ p == 0) ->
  trade_price None fetched = None.
Proof.
  intros [->|(p & -> & Hp)]; [reflexivity|]. cbn.
  apply Qeq_bool_iff in Hp. rewrite Hp. reflexivity.
Qed.

(** C6.  A trade that is answered with a rejection (price unavailable, wallet
    not found, insufficient balance, no position, insufficient shares, or a
    rolled back transaction) leaves the whole database as it was: no
    transaction row, no notification, the wallets and the holdings
    untouched.  A buy whose cost exceeds the cash balance is such a trade. *)
Theorem rejected_trade_leaves_no_trace db t why :
  fst (execute db t) = Rejected why ->
  snd (execute db t) = db
  /\ transactions (snd (execute db t)) = transactions db
  /\ user_wallets (snd (execute db t)) = user_wallets db
  /\ stock_holdings (snd (execute db t)) = stock_holdings db
  /\ (forall fetched info now u s q cp p w,
        t = TBuy fetched info now u s q cp ->
        trade_price cp fetched = Some p ->
        get_user_wallet db u = Some w ->
        Wallet.quantz_balance w < p * inject_Z q ->
        why = InsufficientBalance (p * inject_Z q + 0) (Wallet.quantz_balance w)).
Proof.
  intros Hr.
  assert (E : snd (execute db t) = db).
  { destruct t; cbn [execute] in *;
      [eapply buy_stock_rejected|eapply sell_stock_rejected]; exact Hr. }
  rewrite E. repeat (split; [reflexivity|]).
  intros fetched info now u s q cp p w -> Hp Hw Hlt. cbn [execute] in Hr.
  rewrite (buy_stock_insufficient_balance _ _ _ _ _ _ _ _ _ _ Hp Hw Hlt) in Hr.
  cbn in Hr. congruence.
Qed.

Lemma rejected_trade_leaves_no_trace_witness :
  let db0 := initialize_user_wallet 1 10000 0 empty_ledger in
  let t := TBuy None None 3 1 "AAPL" 200 (Some 100) in
  fst (execute db0 t) = Rejected (InsufficientBalance (100 * inject_Z 200 + 0) 10000)
  /\ snd (execute db0 t) = db0
  /\ transactions (snd (execute db0 t)) = [].
Proof.
  intros db0 t.
  assert (Hr : fst (execute db0 t)
               = Rejected (InsufficientBalance (100 * inject_Z 200 + 0) 10000))
    by (vm_compute; reflexivity).
  destruct (rejected_trade_leaves_no_trace db0 t _ Hr) as (E & Ht & _).
  split; [exact Hr|]. split; [exact E|]. rewrite Ht. reflexivity.
Defined.

(** *** Prices supplied by the caller *)



(** ** Properties of the valuation *)

Lemma decimal_times_float_raises a change : py_mul (D a) (F change) = Raises.
Proof. reflexivity. Qed.

Lemma float_minus_decimal_raises x a : py_sub (F x) (D a) = Raises.
Proof. reflexivity. Qed.

(** With a Decimal average price every branch of the fallback ends in a
    [TypeError]. *)
Lemma fallback_price_decimal_raises a stored w : fallback_price (D a) stored w = Raises.
Proof.
  unfold fallback_price. cbv zeta.
  destruct (negb (Qeq_bool stored 0)); cbn [py_sub bind]; [reflexivity|].
  destruct (manual_info w) as [|info]; cbn [bind try_except py_mul]; [reflexivity|].
  destruct (py_or (info currentPrice) (py_or (info regularMarketPrice) (info previousClose)))
    as [m|]; [|reflexivity].
  destruct (truthy_opt (Some m) && py_gt (F m) 0)%bool; reflexivity.
Qed.

Lemma valuation_price_decimal a stored w :
  valuation_price (D a) stored w =
    match real_time_price w with
    | Some p => if Qlt_le_dec 0 p then Returns (F p) else Raises
    | None => Raises
    end.
Proof.
  unfold valuation_price. rewrite fallback_price_decimal_raises.
  destruct (real_time_price w) as [p|]; [|reflexivity].
  unfold py_gt, truthy_opt. cbn [value].
  destruct (Qlt_le_dec 0 p) as [H|H]; cbn [negb orb].
  - destruct (Qeq_bool p 0) eqn:E; [|reflexivity].
    apply Qeq_bool_eq in E. lra.
  - rewrite orb_true_r. reflexivity.
Qed.

Lemma process_holding_cases pow round2 db u s h w :
  process_holding pow round2 db u s h w =
    match real_time_price w with
    | Some p =>
        if Qlt_le_dec 0 p
        then (holding_dict pow round2 s h (F p) (clock w), write_back db (u, s) p w)
        else (error_dict round2 s h, db)
    | None => (error_dict round2 s h, db)
    end.
Proof.
  unfold process_holding, process_holding_with. rewrite valuation_price_decimal.
  destruct (real_time_price w) as [p|]; [|reflexivity].
  destruct (Qlt_le_dec 0 p); reflexivity.
Qed.

(** The UPDATE of the write-back touches the row of the holding, if there
    is one, and raises: the handler rolls back, and nothing is written. *)
Lemma write_back_nothing db key price w : write_back db key price w = db.
Proof.
  unfold write_back. destruct (stock_holdings db !! key); reflexivity.
Qed.

Lemma process_holding_db pow round2 db u s h w :
  snd (process_holding pow round2 db u s h w) = db.
Proof.
  rewrite process_holding_cases.
  destruct (real_time_price w) as [p|]; [|reflexivity].
  destruct (Qlt_le_dec 0 p); [apply write_back_nothing|reflexivity].
Qed.

Lemma process_holding_down pow round2 db u s h w :
  oracle_down w -> process_holding pow round2 db u s h w = (error_dict round2 s h, db).
Proof.
  intros Hd. rewrite process_holding_cases.
  destruct Hd as [-> | (p & -> & Hle)]; [reflexivity|].
  destruct (Qlt_le_dec 0 p) as [Hlt|_]; [exfalso; lra|reflexivity].
Qed.




(** Had the cursor handed the average price over as a float, the random walk
    would be computed and shown without any marker: the entry has no field
    that tells a simulated price from a quote. *)
Lemma simulated_price_with_float_rows (pow : Q -> Q -> Q) (round2 : Q -> Q) :
  let r := process_holding_with pow round2 F held_ledger 1 "AAPL" held_row world_down in
  View.error (fst r) = None
  /\ View.current_price (fst r) = round2 (100 * (1 + (1 # 100))).
Proof.
  cbv zeta. split; reflexivity.
Qed.

(** *** Days held *)

Lemma years_held_positive d : 0 < years_held d.
Proof.
  unfold years_held.
  apply Qlt_le_trans with (1 / (1461 # 4)); [reflexivity|apply Q.le_max_r].
Qed.

Lemma years_held_clamped d :
  years_held d == inject_Z (Z.max d 1) / (1461 # 4).
Proof.
  unfold years_held.
  destruct (Z.max_spec d 1) as [[Hlt ->]|[Hle ->]].
  - rewrite Q.max_r; [reflexivity|].
    apply Qmult_le_compat_r; [|discriminate].
    change 1 with (inject_Z 1). rewrite <- Zle_Qle. lia.
  - rewrite Q.max_l; [reflexivity|].
    apply Qmult_le_compat_r; [|discriminate].
    change 1 with (inject_Z 1). rewrite <- Zle_Qle. exact Hle.
Qed.

(** C9, as the code has it.  [days_held] is the whole number of days between
    the clock and the holding's [last_updated] (it is 0 on the day of the
    last update and is reported as such); the minimum of one day is applied
    to [years_held], which is max(days_held, 1) / 365.25 and hence positive,
    so that the exponent 1 / years_held of the CAGR is 365.25 / max(days_held,
    1); the CAGR is computed with it when the total cost is positive and is 0
    otherwise. *)
Theorem days_held_and_cagr
    (pow : Q -> Q -> Q) (round2 : Q -> Q) (s : string) (h : Holding.t) (p : Q) (now : Z) :
  let d := days_held now (Some (Holding.last_updated h)) in
  let view := holding_dict pow round2 s h (F p) now in
  d = ((now - Holding.last_updated h) / 86400)%Z
  /\ View.days_held view = d
  /\ 0 < years_held d
  /\ years_held d == inject_Z (Z.max d 1) / (1461 # 4)
  /\ 1 / years_held d == (1461 # 4) / inject_Z (Z.max d 1)
  /\ View.cagr view =
       round2 (if Qlt_le_dec 0 (Holding.total_cost h)
               then (pow (p * inject_Z (Holding.quantity h) / Holding.total_cost h)
                         (1 / years_held d) - 1) * 100
               else 0).
Proof.
  cbv zeta. split; [reflexivity|]. split; [reflexivity|].
  split; [apply years_held_positive|]. split; [apply years_held_clamped|]. split.
  - rewrite years_held_clamped.
    assert (Hm : ~ inject_Z (Z.max (days_held now (Some (Holding.last_updated h))) 1) == 0).
    { apply inject_Z_nonzero. lia. }
    field. exact Hm.
  - unfold holding_dict. cbn [View.cagr value].
    destruct (Qlt_le_dec 0 (Holding.total_cost h)); [|reflexivity].
    destruct (Qlt_le_dec 0 (years_held _)) as [_|Hle]; [reflexivity|].
    exfalso. pose proof (years_held_positive
      (days_held now (Some (Holding.last_updated h)))). lra.
Qed.

(** The claim C9 asks for at least one day held: a holding consulted on the
    day of its last update has 0 days, in the function and in the entry. *)
Lemma days_held_can_be_zero :
  days_held 3600 (Some 0%Z) = 0%Z
  /\ View.days_held (fst (process_holding (fun x _ => x) (fun x => x)
                            held_ledger 1 "AAPL" held_row world_live)) = 0%Z
  /\ ~ (forall now last_updated, (1 <= days_held now last_updated)%Z).
Proof.
  split; [reflexivity|]. split; [vm_compute; reflexivity|].
  intros H. specialize (H 3600%Z (Some 0%Z)). vm_compute in H. apply H. reflexivity.
Qed.


(** ** Further properties of the trade engine *)

Lemma notifications_update_summary u now db :
  notifications (_update_portfolio_summary u now db) = notifications db.
Proof. unfold _update_portfolio_summary. destruct (portfolio_summary db !! u); reflexivity. Qed.

(** What a call of [execute] does to the wallets, the holdings, the log and
    the notifications: nothing when it is rejected; when it succeeds, one
    wallet row and one holding row (those of the caller and of the symbol)
    are written, and one transaction and one notification are added. *)
Lemma execute_effect db t :
  let u := trade_user t in
  let key := (u, Py.upper (trade_symbol t)) in
  let db' := snd (execute db t) in
  (is_success (fst (execute db t)) = false /\ db' = db)
  \/ (is_success (fst (execute db t)) = true
      /\ (exists w, user_wallets db' = <[u := w]> (user_wallets db))
      /\ (stock_holdings db' = delete key (stock_holdings db)
          \/ exists h, stock_holdings db' = <[key := h]> (stock_holdings db))
      /\ (exists tx, transactions db' = tx :: transactions db
                     /\ Tx.user_id tx = u /\ Tx.quantity tx = trade_quantity t
                     /\ Tx.symbol tx = Py.upper (trade_symbol t))
      /\ (exists n, notifications db' = n :: notifications db
                    /\ Notification.user_id n = u)).
Proof.
  destruct t as [fetched info now u s q cp|fetched now u s q cp];
    cbn [execute trade_user trade_symbol trade_quantity]; cbv zeta.
  - unfold buy_stock.
    destruct (trade_price cp fetched) as [p|]; [|left; split; reflexivity].
    destruct (get_user_wallet db u) as [w|] eqn:Hw; [|left; split; reflexivity].
    destruct (Qlt_le_dec _ _); [left; split; reflexivity|].
    unfold buy_transaction, _update_price_cache, _create_notification, check_quantity.
    frame_simpl. unfold get_user_wallet in Hw. rewrite Hw. frame_simpl.
    destruct (stock_holdings db !! (u, Py.upper s)) as [h|] eqn:Hh; cbn [Holding.quantity].
    + destruct (Holding.quantity h + q =? 0)%Z; left; split; reflexivity.
    + destruct (0 <? q)%Z; [|left; split; reflexivity].
      right. cbn [fst snd is_success]. frame_simpl.
      rewrite ?notifications_update_summary. ledger_simpl.
      split; [reflexivity|]. split; [eauto|]. split; [right; eauto|].
      split; eexists; repeat split; reflexivity.
  - unfold sell_stock.
    destruct (trade_price cp fetched) as [p|]; [|left; split; reflexivity].
    destruct (stock_holdings db !! (u, Py.upper s)) as [h|] eqn:Hh; [|left; split; reflexivity].
    destruct (Holding.quantity h <? q)%Z; [left; split; reflexivity|].
    unfold sell_transaction, _update_price_cache, _create_notification, check_quantity.
    destruct (get_user_wallet db u) as [w|]; [|left; split; reflexivity].
    cbn [Holding.quantity].
    destruct (Holding.quantity h =? q)%Z.
    + right. cbn [fst snd is_success]. frame_simpl.
      rewrite ?notifications_update_summary. ledger_simpl.
      split; [reflexivity|]. split; [eauto|]. split; [left; reflexivity|].
      split; eexists; repeat split; reflexivity.
    + left; split; reflexivity.
Qed.

(** X1.  A trade of one user on one symbol writes no other row: the wallets
    of the other users and every holding but the one of the caller and the
    (upper-cased) symbol are as before, whether the trade commits or not. *)
Theorem trade_touches_only_its_rows db t :
  (forall u', u' <> trade_user t ->
     user_wallets (snd (execute db t)) !! u' = user_wallets db !! u')
  /\ (forall key, key <> (trade_user t, Py.upper (trade_symbol t)) ->
        stock_holdings (snd (execute db t)) !! key = stock_holdings db !! key).
Proof.
  destruct (execute_effect db t) as [[_ ->]|(_ & (w & Hw) & Hh & _)];
    [split; reflexivity|].
  split.
  - intros u' Hu. rewrite Hw. apply lookup_insert_ne. congruence.
  - intros key Hk. destruct Hh as [->|(h & ->)].
    + apply lookup_delete_ne. congruence.
    + apply lookup_insert_ne. congruence.
Qed.

Lemma final_cons db t ts : final db (t :: ts) = final (snd (execute db t)) ts.
Proof. reflexivity. Qed.


Lemma cache_update_summary u now db :
  stock_prices_cache (_update_portfolio_summary u now db) = stock_prices_cache db.
Proof. unfold _update_portfolio_summary. destruct (portfolio_summary db !! u); reflexivity. Qed.

(** Every call of [buy_stock] is a rejection that changes nothing or a
    commit with the effects below. *)
Lemma buy_stock_inversion db fetched info now u s q cp :
  let r := buy_stock db fetched info now u s q cp in
  let company := match info with Some n => n | None => s end in
  (is_success (fst r) = false /\ snd r = db)
  \/ exists p w,
       trade_price cp fetched = Some p
       /\ get_user_wallet db u = Some w
       /\ p * inject_Z q + 0 <= Wallet.quantz_balance w
       /\ fst r = Success (S (length (transactions db)))
                    (mkTradeData (Py.upper s) q p (p * inject_Z q) None
                                 (Wallet.quantz_balance w - (p * inject_Z q + 0)))
       /\ stock_holdings (snd r) =
            <[(u, Py.upper s) :=
                bought_row (stock_holdings db !! (u, Py.upper s)) company q p now]>
              (stock_holdings db)
       /\ user_wallets (snd r) =
            <[u := Wallet.mk (Wallet.quantz_balance w - (p * inject_Z q + 0))
                             (Wallet.total_invested w + p * inject_Z q)
                             (Wallet.total_returns w)]> (user_wallets db)
       /\ transactions (snd r) =
            Tx.mk u BUY (Py.upper s) company q p (p * inject_Z q) 0
                  (p * inject_Z q + 0) NoNotes :: transactions db
       /\ stock_prices_cache (snd r) =
            <[Py.upper s := CachedPrice.mk (Some company) p now]> (stock_prices_cache db).
Proof.
  cbv zeta. unfold buy_stock.
  destruct (trade_price cp fetched) as [p|]; [|left; split; reflexivity].
  destruct (get_user_wallet db u) as [w|] eqn:Hw; [|left; split; reflexivity].
  destruct (Qlt_le_dec _ _) as [|Hle]; [left; split; reflexivity|].
  unfold buy_transaction, _update_price_cache, _create_notification, check_quantity.
  frame_simpl. unfold get_user_wallet in Hw. rewrite Hw. frame_simpl.
  destruct (stock_holdings db !! (u, Py.upper s)) as [h|] eqn:Hh; cbn [Holding.quantity].
  - destruct (Holding.quantity h + q =? 0)%Z; left; split; reflexivity.
  - destruct (0 <? q)%Z; [|left; split; reflexivity].
    right. exists p, w. frame_simpl. rewrite ?cache_update_summary. ledger_simpl.
    split; [reflexivity|]. split; [reflexivity|]. split; [exact Hle|].
    repeat split; reflexivity.
Qed.

(** Every call of [sell_stock] is a rejection that changes nothing or a
    commit with the effects below. *)
Lemma sell_stock_inversion db fetched now u s q cp :
  let r := sell_stock db fetched now u s q cp in
  (is_success (fst r) = false /\ snd r = db)
  \/ exists p w h,
       trade_price cp fetched = Some p
       /\ get_user_wallet db u = Some w
       /\ stock_holdings db !! (u, Py.upper s) = Some h
       /\ (q <= Holding.quantity h)%Z
       /\ fst r = Success (S (length (transactions db)))
                    (mkTradeData (Py.upper s) q p (p * inject_Z q)
                                 (Some ((p - Holding.average_price h) * inject_Z q))
                                 (Wallet.quantz_balance w + (p * inject_Z q - 0)))
       /\ stock_holdings (snd r) = sold_rows (stock_holdings db) (u, Py.upper s) h q p now
       /\ user_wallets (snd r) =
            <[u := Wallet.mk (Wallet.quantz_balance w + (p * inject_Z q - 0))
                             (Wallet.total_invested w)
                             (Wallet.total_returns w
                              + (p - Holding.average_price h) * inject_Z q)]>
              (user_wallets db)
       /\ transactions (snd r) =
            Tx.mk u SELL (Py.upper s) (Holding.company_name h) q p (p * inject_Z q) 0
                  (p * inject_Z q - 0)
                  (RealizedPnL ((p - Holding.average_price h) * inject_Z q))
              :: transactions db
       /\ stock_prices_cache (snd r) =
            <[Py.upper s := CachedPrice.mk (Some (Holding.company_name h)) p now]>
              (stock_prices_cache db).
Proof.
  cbv zeta. unfold sell_stock.
  destruct (trade_price cp fetched) as [p|]; [|left; split; reflexivity].
  destruct (stock_holdings db !! (u, Py.upper s)) as [h|] eqn:Hh; [|left; split; reflexivity].
  destruct (Z.ltb_spec (Holding.quantity h) q) as [|Hle]; [left; split; reflexivity|].
  unfold sell_transaction, _update_price_cache, _create_notification, check_quantity, sold_rows.
  destruct (get_user_wallet db u) as [w|] eqn:Hw; [|left; split; reflexivity].
  cbn [Holding.quantity].
  destruct (Holding.quantity h =? q)%Z eqn:E.
  - right. exists p, w, h. frame_simpl. rewrite ?cache_update_summary. ledger_simpl.
    rewrite ?E.
    split; [reflexivity|]. split; [reflexivity|]. split; [reflexivity|].
    split; [exact Hle|]. repeat split; reflexivity.
  - left; split; reflexivity.
Qed.

(** *** The wallet against the log *)





Lemma inject_Z_nonneg q : (0 <= q)%Z -> 0 <= inject_Z q.
Proof. intros H. change 0 with (inject_Z 0). rewrite <- Zle_Qle. exact H. Qed.

Lemma execute_keeps_balances db t :
  ordinary t -> balances_nonnegative db -> balances_nonnegative (snd (execute db t)).
Proof.
  intros [Hq Hp] Hb. unfold balances_nonnegative in *.
  destruct t as [fetched info now u s q cp|fetched now u s q cp];
    cbn [execute trade_quantity trade_offer] in *.
  - destruct (buy_stock_inversion db fetched info now u s q cp)
      as [[_ ->]|(p & w & _ & _ & Hle & _ & _ & -> & _)]; [exact Hb|].
    apply map_Forall_insert_2; [|exact Hb]. cbn. lra.
  - destruct (sell_stock_inversion db fetched now u s q cp)
      as [[_ ->]|(p & w & h & Hpr & Hw & _ & _ & _ & _ & -> & _)]; [exact Hb|].
    apply map_Forall_insert_2; [|exact Hb]. cbn.
    pose proof (Hb _ _ Hw) as Hw0. cbn beta in Hw0.
    pose proof (Qmult_le_0_compat _ _ (Hp _ Hpr) (inject_Z_nonneg _ Hq)). lra.
Qed.

Lemma execute_invested_monotone db t u w :
  ordinary t ->
  user_wallets db !! u = Some w ->
  exists w', user_wallets (snd (execute db t)) !! u = Some w'
             /\ Wallet.total_invested w <= Wallet.total_invested w'.
Proof.
  intros [Hq Hp] Hw.
  destruct t as [fetched info now u0 s q cp|fetched now u0 s q cp];
    cbn [execute trade_quantity trade_offer] in *.
  - destruct (buy_stock_inversion db fetched info now u0 s q cp)
      as [[_ ->]|(p & w0 & Hpr & Hw0 & _ & _ & _ & -> & _)].
    { exists w. split; [exact Hw|apply Qle_refl]. }
    destruct (decide (u0 = u)) as [->|Hne].
    + unfold get_user_wallet in Hw0. rewrite Hw in Hw0. injection Hw0 as <-.
      rewrite lookup_insert_eq. eexists. split; [reflexivity|]. cbn.
      pose proof (Qmult_le_0_compat _ _ (Hp _ Hpr) (inject_Z_nonneg _ Hq)). lra.
    + rewrite lookup_insert_ne by exact Hne. exists w. split; [exact Hw|apply Qle_refl].
  - destruct (sell_stock_inversion db fetched now u0 s q cp)
      as [[_ ->]|(p & w0 & h & _ & Hw0 & _ & _ & _ & _ & -> & _)].
    { exists w. split; [exact Hw|apply Qle_refl]. }
    destruct (decide (u0 = u)) as [->|Hne].
    + unfold get_user_wallet in Hw0. rewrite Hw in Hw0. injection Hw0 as <-.
      rewrite lookup_insert_eq. eexists. split; [reflexivity|]. cbn. apply Qle_refl.
    + rewrite lookup_insert_ne by exact Hne. exists w. split; [exact Hw|apply Qle_refl].
Qed.

(** X5.  Over any sequence of orders for non-negative quantities at
    non-negative prices, run one after the other, no cash balance becomes
    negative (a buy is refused when the balance does not cover it, a sell
    only adds), and the total invested of a wallet never decreases. *)
Theorem balance_never_negative db ts :
  Forall ordinary ts ->
  (balances_nonnegative db -> balances_nonnegative (final db ts))
  /\ (forall u w, user_wallets db !! u = Some w ->
        exists w', user_wallets (final db ts) !! u = Some w'
                   /\ Wallet.total_invested w <= Wallet.total_invested w').
Proof.
  intros Hts. revert db. induction Hts as [|t rest Ht _ IH]; intros db.
  - split; [auto|]. intros u w Hw. exists w. split; [exact Hw|apply Qle_refl].
  - rewrite final_cons. destruct (IH (snd (execute db t))) as [IHb IHi]. split.
    + intros Hb. apply IHb, execute_keeps_balances; assumption.
    + intros u w Hw.
      destruct (execute_invested_monotone db t u w Ht Hw) as (w1 & Hw1 & Hle1).
      destruct (IHi u w1 Hw1) as (w' & Hw' & Hle).
      exists w'. split; [exact Hw'|]. eapply Qle_trans; eassumption.
Qed.

Lemma balance_never_negative_witness :
  let db0 := initialize_user_wallet 1 10000 0 empty_ledger in
  let ts := [TBuy None None 0 1 "AAPL" 99 (Some 100);
             TBuy None None 5 1 "AAPL" 10 (Some 200);
             TSell None 9 1 "AAPL" 5 (Some 180)] in
  balances_nonnegative (final db0 ts).
Proof.
  intros db0 ts.
  assert (Hts : Forall ordinary ts).
  { repeat constructor; cbn; try lia; intros p [= <-]; discriminate. }
  apply (proj1 (balance_never_negative db0 ts Hts)).
  unfold balances_nonnegative. cbn. apply map_Forall_insert_2; [discriminate|].
  apply map_Forall_empty.
Defined.

(** ** Properties of the order requests and of the endpoints *)

Lemma upper_ascii_idempotent c : Py.upper_ascii (Py.upper_ascii c) = Py.upper_ascii c.
Proof. destruct c as [[] [] [] [] [] [] [] []]; reflexivity. Qed.

Lemma upper_idempotent s : Py.upper (Py.upper s) = Py.upper s.
Proof.
  induction s as [|c r IH]; cbn; [reflexivity|].
  rewrite upper_ascii_idempotent, IH. reflexivity.
Qed.

(** X6.  The symbol of a trade is taken in upper case: selling under a
    symbol and under its upper-case form is the same call, and so is buying
    once the company name is known (without it, the symbol as typed is
    stored as the company name). *)
Theorem symbol_case_is_ignored db fetched now u s q cp :
  sell_stock db fetched now u s q cp = sell_stock db fetched now u (Py.upper s) q cp
  /\ (forall name,
        buy_stock db fetched (Some name) now u s q cp
        = buy_stock db fetched (Some name) now u (Py.upper s) q cp).
Proof.
  split.
  - unfold sell_stock, sell_transaction. rewrite !upper_idempotent. reflexivity.
  - intros name. unfold buy_stock, buy_transaction. rewrite !upper_idempotent. reflexivity.
Qed.

Lemma is_space_upper c : is_space (Py.upper_ascii c) = is_space c.
Proof. destruct c as [[] [] [] [] [] [] [] []]; reflexivity. Qed.

Lemma upper_lstrip s : Py.upper (lstrip s) = lstrip (Py.upper s).
Proof.
  induction s as [|c r IH]; cbn [lstrip Py.upper]; [reflexivity|].
  rewrite is_space_upper. destruct (is_space c); [exact IH|reflexivity].
Qed.

Lemma upper_rstrip s : Py.upper (rstrip s) = rstrip (Py.upper s).
Proof.
  induction s as [|c r IH]; cbn [rstrip Py.upper]; [reflexivity|].
  rewrite <- IH, is_space_upper.
  destruct (rstrip r) as [|c' r']; cbn [Py.upper]; [|reflexivity].
  destruct (is_space c); reflexivity.
Qed.

Lemma upper_strip s : Py.upper (strip s) = strip (Py.upper s).
Proof. unfold strip. rewrite upper_rstrip, upper_lstrip. reflexivity. Qed.

Lemma upper_length s : String.length (Py.upper s) = String.length s.
Proof. induction s as [|c r IH]; cbn; [reflexivity|]. rewrite IH. reflexivity. Qed.

Lemma rstrip_idempotent s : rstrip (rstrip s) = rstrip s.
Proof.
  induction s as [|c r IH]; cbn [rstrip]; [reflexivity|].
  destruct (rstrip r) as [|c' r'] eqn:E.
  - destruct (is_space c) eqn:Ec; cbn [rstrip]; [reflexivity|]. rewrite Ec. reflexivity.
  - cbn [rstrip]. cbn [rstrip] in IH. rewrite IH. reflexivity.
Qed.

Lemma lstrip_head s c r : lstrip s = String c r -> is_space c = false.
Proof.
  induction s as [|a t IH]; cbn [lstrip]; [discriminate|].
  destruct (is_space a) eqn:Ea; [exact IH|]. intros [= <- _]. exact Ea.
Qed.

Lemma rstrip_head s c r : rstrip s = String c r -> exists t, s = String c t.
Proof.
  destruct s as [|a t]; cbn [rstrip]; [discriminate|].
  destruct (rstrip t); [destruct (is_space a)|]; intros [= <- _]; eauto.
Qed.

Lemma strip_head s c r : strip s = String c r -> is_space c = false.
Proof.
  unfold strip. intros H. destruct (rstrip_head _ _ _ H) as [t Ht].
  exact (lstrip_head _ _ _ Ht).
Qed.

Lemma lstrip_fixed s :
  match s with String c _ => is_space c = false | EmptyString => True end ->
  lstrip s = s.
Proof. destruct s as [|c r]; cbn [lstrip]; [reflexivity|]. intros ->. reflexivity. Qed.

Lemma strip_idempotent s : strip (strip s) = strip s.
Proof.
  unfold strip at 1. rewrite lstrip_fixed.
  - unfold strip. apply rstrip_idempotent.
  - destruct (strip s) as [|c r] eqn:E; [exact I|]. exact (strip_head _ _ _ E).
Qed.

Lemma rstrip_last front c :
  rstrip (front ++ String c EmptyString) = (front ++ String c EmptyString)%string ->
  is_space c = false.
Proof.
  induction front as [|a t IH]; simpl.
  - destruct (is_space c); [discriminate|reflexivity].
  - destruct (rstrip (t ++ String c "")) as [|c' r'] eqn:E.
    + destruct t; destruct (is_space a); discriminate.
    + intros [= H]. apply IH. exact H.
Qed.

(** X7.  An order that passes the validators has a positive quantity and a
    symbol that is not empty, is in upper case and neither starts nor ends
    with white space; validating it again gives it back.  A symbol made of
    white space only, or a quantity that is not positive, is refused. *)
Theorem validated_order_is_normalised symbol quantity cp o :
  validate_order symbol quantity cp = Some o ->
  (0 < order_quantity o)%Z
  /\ order_symbol o <> EmptyString
  /\ Py.upper (order_symbol o) = order_symbol o
  /\ (forall c rest, order_symbol o = String c rest -> is_space c = false)
  /\ (forall front c, order_symbol o = (front ++ String c EmptyString)%string ->
                      is_space c = false)
  /\ validate_order (order_symbol o) (order_quantity o) cp = Some o
  /\ (forall blank, strip blank = EmptyString -> validate_order blank quantity cp = None)
  /\ (forall q', (q' <= 0)%Z -> validate_order symbol q' cp = None).
Proof.
  unfold validate_order, symbol_must_be_valid, quantity_must_be_positive.
  destruct (Nat.eqb_spec (String.length (strip symbol)) 0) as [|Hlen]; [discriminate|].
  destruct (Z.leb_spec quantity 0) as [|Hq]; [discriminate|].
  intros [= <-]. cbn [order_symbol order_quantity].
  assert (Hfix : strip (strip (Py.upper symbol)) = strip (Py.upper symbol))
    by apply strip_idempotent.
  assert (Hup : Py.upper (strip (Py.upper symbol)) = strip (Py.upper symbol))
    by (rewrite upper_strip, upper_idempotent; reflexivity).
  assert (Hne : String.length (strip (Py.upper symbol)) <> 0%nat)
    by (rewrite <- upper_strip, upper_length; exact Hlen).
  split; [exact Hq|]. split.
  { intros E. rewrite E in Hne. apply Hne. reflexivity. }
  split; [exact Hup|]. split.
  { intros c rest E. exact (strip_head _ _ _ E). }
  split.
  { intros front c E. apply (rstrip_last front c). rewrite <- E.
    unfold strip. apply rstrip_idempotent. }
  split.
  { rewrite Hfix, Hup, Hfix.
    destruct (Nat.eqb_spec (String.length (strip (Py.upper symbol))) 0) as [E|_];
      [contradiction|].
    destruct (Z.leb_spec quantity 0); [lia|reflexivity]. }
  split.
  { intros blank ->. reflexivity. }
  intros q' Hq'. destruct (Z.leb_spec q' 0); [reflexivity|lia].
Qed.

Lemma validated_order_is_normalised_witness :
  exists o,
    validate_order "  aapl " 3 None = Some o
    /\ order_symbol o = "AAPL"%string
    /\ (0 < order_quantity o)%Z
    /\ validate_order "AAPL" 3 None = Some o.
Proof.
  eexists. split; [reflexivity|]. split; [reflexivity|].
  destruct (validated_order_is_normalised "  aapl " 3 None _ eq_refl)
    as (Hq & _ & _ & _ & _ & Hagain & _).
  split; [exact Hq|exact Hagain].
Defined.

(** *** The wallet of a new user *)

Lemma initialize_user_wallet_wallets u b now db :
  user_wallets (initialize_user_wallet u b now db) =
    match user_wallets db !! u with
    | Some _ => user_wallets db
    | None => <[u := Wallet.mk b 0 0]> (user_wallets db)
    end.
Proof.
  unfold initialize_user_wallet.
  destruct (user_wallets db !! u); ledger_simpl;
    destruct (portfolio_summary db !! u); reflexivity.
Qed.

Lemma initialize_user_wallet_frame u b now db :
  stock_holdings (initialize_user_wallet u b now db) = stock_holdings db
  /\ transactions (initialize_user_wallet u b now db) = transactions db
  /\ notifications (initialize_user_wallet u b now db) = notifications db
  /\ stock_prices_cache (initialize_user_wallet u b now db) = stock_prices_cache db.
Proof.
  unfold initialize_user_wallet.
  destruct (user_wallets db !! u); ledger_simpl;
    destruct (portfolio_summary db !! u); repeat split; reflexivity.
Qed.

Lemma initialize_user_wallet_summary u b now db :
  is_Some (portfolio_summary (initialize_user_wallet u b now db) !! u).
Proof.
  unfold initialize_user_wallet.
  destruct (user_wallets db !! u); ledger_simpl;
    destruct (portfolio_summary db !! u) eqn:E; ledger_simpl;
    rewrite ?E, ?lookup_insert_eq; eauto.
Qed.

Lemma initialize_user_wallet_noop u b now db :
  is_Some (user_wallets db !! u) ->
  is_Some (portfolio_summary db !! u) ->
  initialize_user_wallet u b now db = db.
Proof.
  intros [w Hw] [x Hx]. unfold initialize_user_wallet. rewrite Hw, Hx. reflexivity.
Qed.

(** X8.  [initialize_user_wallet] never overwrites: a user who has a wallet
    keeps it as it is, a user who has none gets one with the initial balance
    and nothing invested or returned; the other wallets, the holdings and
    the log are untouched, and calling it a second time, with whatever
    balance, changes nothing. *)
Theorem initialize_user_wallet_is_idempotent u b b' now now' db :
  let db1 := initialize_user_wallet u b now db in
  user_wallets db1 !! u =
    Some (match user_wallets db !! u with Some w => w | None => Wallet.mk b 0 0 end)
  /\ (forall u', u' <> u -> user_wallets db1 !! u' = user_wallets db !! u')
  /\ stock_holdings db1 = stock_holdings db
  /\ transactions db1 = transactions db
  /\ initialize_user_wallet u b' now' db1 = db1.
Proof.
  cbv zeta. rewrite initialize_user_wallet_wallets.
  destruct (initialize_user_wallet_frame u b now db) as (Hh & Ht & _).
  split.
  { destruct (user_wallets db !! u) eqn:E; [exact E|apply lookup_insert_eq]. }
  split.
  { intros u' Hne. destruct (user_wallets db !! u); [reflexivity|].
    apply lookup_insert_ne. congruence. }
  split; [exact Hh|]. split; [exact Ht|].
  apply initialize_user_wallet_noop.
  - rewrite initialize_user_wallet_wallets.
    destruct (user_wallets db !! u) eqn:E; [rewrite E; eauto|].
    rewrite lookup_insert_eq. eauto.
  - apply initialize_user_wallet_summary.
Qed.

Lemma buy_stock_with_wallet db fetched info now u s q cp w :
  get_user_wallet db u = Some w ->
  fst (buy_stock db fetched info now u s q cp) <> Rejected WalletNotFound.
Proof.
  intros Hw. unfold buy_stock. rewrite Hw.
  destruct (trade_price cp fetched); [|discriminate].
  destruct (Qlt_le_dec _ _); [discriminate|].
  destruct (buy_transaction _ _ _ _ _ _ _ _ _ _ _ _) as [[nb db']|]; discriminate.
Qed.

(** X9.  Through the endpoint a buy is never answered "User wallet not
    found": a user without a wallet gets the initial 10000 first.  The status
    is 200 exactly for a success, the user has a wallet afterwards, and a
    refused first order still leaves that new wallet behind, with no holding
    and no transaction written. *)
Theorem route_buy_stock_opens_the_wallet db fetched info now u o :
  let r := route_buy_stock db fetched info now u o in
  snd (fst r) <> Rejected WalletNotFound
  /\ (fst (fst r) = 200%Z <-> is_success (snd (fst r)) = true)
  /\ is_Some (user_wallets (snd r) !! u)
  /\ (get_user_wallet db u = None ->
      is_success (snd (fst r)) = false ->
      user_wallets (snd r) !! u = Some (Wallet.mk 10000 0 0)
      /\ stock_holdings (snd r) = stock_holdings db
      /\ transactions (snd r) = transactions db).
Proof.
  cbv zeta. unfold route_buy_stock. cbn [fst snd].
  set (db1 := match get_user_wallet db u with
              | Some _ => db
              | None => initialize_user_wallet u 10000 now db
              end).
  assert (Hw1 : exists w, get_user_wallet db1 u = Some w
                          /\ (get_user_wallet db u = None -> w = Wallet.mk 10000 0 0)).
  { subst db1. destruct (get_user_wallet db u) as [w|] eqn:E.
    - exists w. split; [exact E|discriminate].
    - eexists. split; [|reflexivity]. unfold get_user_wallet in *.
      rewrite initialize_user_wallet_wallets, E. apply lookup_insert_eq. }
  destruct Hw1 as (w1 & Hw1 & Hnew).
  split; [exact (buy_stock_with_wallet _ _ _ _ _ _ _ _ _ Hw1)|].
  split.
  { destruct (is_success _); split; congruence || discriminate. }
  split.
  { destruct (buy_stock_inversion db1 fetched info now u (order_symbol o)
                (order_quantity o) (order_current_price o))
      as [[_ ->]|(p & w & _ & _ & _ & _ & _ & -> & _)].
    - exists w1. exact Hw1.
    - eexists. apply lookup_insert_eq. }
  intros Hnone Hfail.
  destruct (buy_stock_inversion db1 fetched info now u (order_symbol o)
              (order_quantity o) (order_current_price o))
    as [[_ ->]|(p & w & _ & _ & _ & Hs & _)].
  - rewrite <- (Hnew Hnone). split; [exact Hw1|].
    subst db1. rewrite Hnone.
    destruct (initialize_user_wallet_frame u 10000 now db) as (Hh & Ht & _). auto.
  - rewrite Hs in Hfail. discriminate.
Qed.

Lemma route_buy_stock_opens_the_wallet_witness :
  let o := mkOrderRequest "AAPL" 200 (Some 100) in
  let r := route_buy_stock empty_ledger None None 0 7 o in
  fst (fst r) = 400%Z
  /\ user_wallets (snd r) !! 7%Z = Some (Wallet.mk 10000 0 0)
  /\ transactions (snd r) = [].
Proof.
  intros o r.
  destruct (route_buy_stock_opens_the_wallet empty_ledger None None 0 7 o)
    as (_ & _ & _ & Hnew).
  destruct (Hnew eq_refl ltac:(vm_compute; reflexivity)) as (Hw & _ & Ht).
  split; [vm_compute; reflexivity|]. split; [exact Hw|exact Ht].
Defined.

(** ** Further properties of the valuation *)

Lemma same_positions_refl db : same_positions db db.
Proof.
  repeat split. intros key. destruct (stock_holdings db !! key); [|exact I].
  repeat split.
Qed.

Lemma same_positions_trans a b c :
  same_positions a b -> same_positions b c -> same_positions a c.
Proof.
  intros (Hw1 & Ht1 & Hn1 & Hh1) (Hw2 & Ht2 & Hn2 & Hh2).
  split; [congruence|]. split; [congruence|]. split; [congruence|].
  intros key. specialize (Hh1 key). specialize (Hh2 key).
  destruct (stock_holdings a !! key), (stock_holdings b !! key),
    (stock_holdings c !! key); try contradiction; try exact I.
  destruct Hh1 as (? & ? & ? & ?), Hh2 as (? & ? & ? & ?).
  repeat split; congruence.
Qed.

Lemma write_back_same_positions db key price w :
  same_positions db (write_back db key price w).
Proof.
  rewrite write_back_nothing. apply same_positions_refl.
Qed.

Lemma process_holding_same_positions pow round2 db u s h w :
  same_positions db (snd (process_holding pow round2 db u s h w)).
Proof.
  rewrite process_holding_cases.
  destruct (real_time_price w) as [p|]; [|apply same_positions_refl].
  destruct (Qlt_le_dec 0 p); [apply write_back_same_positions|apply same_positions_refl].
Qed.

Lemma same_positions_consistent db db' :
  same_positions db db' -> cost_basis_consistent db -> cost_basis_consistent db'.
Proof.
  intros (_ & _ & _ & Hh) Hc key b Hb. specialize (Hh key). rewrite Hb in Hh.
  destruct (stock_holdings db !! key) as [a|] eqn:Ha; [|contradiction].
  pose proof (Hc key a Ha) as Hg. cbn beta in *.
  destruct Hh as (_ & Hq & Hp & Ht).
  unfold cost_basis_gap in *. rewrite <- Hq, <- Hp, <- Ht. exact Hg.
Qed.

Lemma loop_same_positions pow round2 u worlds rows st :
  same_positions (snd st)
    (snd (fold_left (loop_step pow round2 u worlds) rows st)).
Proof.
  revert st. induction rows as [|[s h] rest IH]; intros st; cbn [fold_left].
  - apply same_positions_refl.
  - eapply same_positions_trans; [|apply IH].
    destruct st as [[[hd tcv] ti] db]. cbn [loop_step snd].
    apply process_holding_same_positions.
Qed.

(** X10.  Looking at the portfolio never moves a position: after
    [get_portfolio] every holding has the company, quantity, average price
    and total cost it had, no holding appears or disappears, and the wallets,
    the transaction log and the notifications are as before; in particular
    the cost basis stays consistent. *)
Theorem get_portfolio_keeps_positions
    (pow : Q -> Q -> Q) (round2 : Q -> Q) db u worlds :
  same_positions db (snd (get_portfolio pow round2 db u worlds))
  /\ (cost_basis_consistent db ->
      cost_basis_consistent (snd (get_portfolio pow round2 db u worlds))).
Proof.
  assert (H : same_positions db (snd (get_portfolio pow round2 db u worlds))).
  { unfold get_portfolio.
    destruct (portfolio_rows db u) as [|row rest] eqn:E; [apply same_positions_refl|].
    pose proof (loop_same_positions pow round2 u worlds (row :: rest) ([], 0, 0, db)) as Hl.
    destruct (fold_left _ _ _) as [[[hd tcv] ti] db']. exact Hl. }
  split; [exact H|]. apply same_positions_consistent. exact H.
Qed.

Lemma portfolio_rows_spec db u s h :
  (s, h) ∈ portfolio_rows db u <->
  stock_holdings db !! (u, s) = Some h /\ (0 < Holding.quantity h)%Z.
Proof.
  unfold portfolio_rows. rewrite list_elem_of_omap. split.
  - intros ([[u' s'] h'] & Hin & Hf). cbn [fst snd] in Hf.
    apply elem_of_map_to_list in Hin.
    destruct (bool_decide_reflect (u' = u)) as [->|]; cbn [andb] in Hf; [|discriminate].
    destruct (Z.ltb_spec 0 (Holding.quantity h')); [|discriminate].
    injection Hf as <- <-. split; assumption.
  - intros [Hl Hq]. exists ((u, s), h). split; [apply elem_of_map_to_list; exact Hl|].
    cbn [fst snd]. rewrite bool_decide_eq_true_2 by reflexivity.
    destruct (Z.ltb_spec 0 (Holding.quantity h)); [reflexivity|lia].
Qed.

Lemma portfolio_rows_symbols_nodup db u : NoDup (map fst (portfolio_rows db u)).
Proof.
  unfold portfolio_rows.
  pose proof (NoDup_fst_map_to_list (stock_holdings db)) as Hnd.
  induction (map_to_list (stock_holdings db)) as [|[[u' s'] h'] rest IH];
    cbn [omap list_omap fst snd]; [constructor|].
  apply NoDup_cons in Hnd as [Hnotin Hnd]. specialize (IH Hnd).
  destruct (bool_decide_reflect (u' = u)) as [->|]; cbn [andb]; [|exact IH].
  destruct (0 <? Holding.quantity h')%Z; [|exact IH].
  cbn [map fst]. apply NoDup_cons. split; [|exact IH].
  intros Hin. apply Hnotin. apply list_elem_of_fmap in Hin as [[s2 h2] [Hs Hin]].
  cbn in Hs. subst s2. apply list_elem_of_omap in Hin as ([[u3 s3] h3] & Hin3 & Hf).
  cbn [fst snd] in Hf.
  destruct (bool_decide_reflect (u3 = u)) as [->|]; cbn [andb] in Hf; [|discriminate].
  destruct (0 <? Holding.quantity h3)%Z; [|discriminate].
  injection Hf as -> ->. apply list_elem_of_fmap. exists ((u, s'), h2). split; [reflexivity|exact Hin3].
Qed.

Lemma insert_by_value_perm x l : Permutation (insert_by_value x l) (x :: l).
Proof.
  induction l as [|y rest IH]; cbn [insert_by_value]; [reflexivity|].
  destruct (Qlt_le_dec _ _); [|reflexivity].
  rewrite IH. apply perm_swap.
Qed.

Lemma sort_by_value_perm l : Permutation (sort_by_value l) l.
Proof.
  induction l as [|x rest IH]; cbn; [reflexivity|].
  fold (sort_by_value rest). rewrite insert_by_value_perm, IH. reflexivity.
Qed.

Lemma insert_by_value_sorted x l :
  StronglySorted by_value_desc l -> StronglySorted by_value_desc (insert_by_value x l).
Proof.
  induction 1 as [|y rest Hs IH Hall]; cbn [insert_by_value].
  - repeat constructor.
  - destruct (Qlt_le_dec (View.current_value x) (View.current_value y)) as [Hlt|Hle].
    + constructor; [exact IH|].
      rewrite insert_by_value_perm. constructor; [|exact Hall].
      unfold by_value_desc. apply Qlt_le_weak. exact Hlt.
    + constructor; [constructor; assumption|].
      constructor; [exact Hle|].
      eapply Forall_impl; [exact Hall|].
      intros z Hz. unfold by_value_desc in *. eapply Qle_trans; eassumption.
Qed.

Lemma sort_by_value_sorted l : StronglySorted by_value_desc (sort_by_value l).
Proof.
  induction l as [|x rest IH]; cbn; [constructor|].
  apply insert_by_value_sorted. exact IH.
Qed.

Lemma process_holding_entry pow round2 db u s h w :
  View.symbol (fst (process_holding pow round2 db u s h w)) = s
  /\ View.quantity (fst (process_holding pow round2 db u s h w)) = Holding.quantity h
  /\ View.average_price (fst (process_holding pow round2 db u s h w))
     = round2 (Holding.average_price h)
  /\ View.total_cost (fst (process_holding pow round2 db u s h w))
     = round2 (Holding.total_cost h).
Proof.
  rewrite process_holding_cases.
  destruct (real_time_price w) as [p|]; [|repeat split].
  destruct (Qlt_le_dec 0 p); repeat split.
Qed.

Lemma loop_entries pow round2 u worlds rows st :
  let st' := fold_left (loop_step pow round2 u worlds) rows st in
  map (fun v => (View.symbol v, View.quantity v)) (fst (fst (fst st')))
  = map (fun v => (View.symbol v, View.quantity v)) (fst (fst (fst st)))
    ++ map (fun row => (fst row, Holding.quantity (snd row))) rows.
Proof.
  revert st. induction rows as [|[s h] rest IH]; intros st; cbn [fold_left map].
  - rewrite app_nil_r. reflexivity.
  - cbv zeta in IH. rewrite IH.
    destruct st as [[[hd tcv] ti] db]. cbn [loop_step fst snd].
    rewrite map_app. cbn [map].
    destruct (process_holding_entry pow round2 db u s h (worlds s)) as (-> & -> & _).
    rewrite <- app_assoc. reflexivity.
Qed.

(** X11.  The portfolio lists every holding of the user that has a positive
    quantity, once, with its quantity: the number of holdings is the number
    of such rows, the (symbol, quantity) pairs of the list are those of the
    rows up to order, no symbol comes twice, and the list is in descending
    order of current value. *)
Theorem get_portfolio_lists_every_holding
    (pow : Q -> Q -> Q) (round2 : Q -> Q) db u worlds :
  let v := fst (get_portfolio pow round2 db u worlds) in
  Portfolio.number_of_holdings v = length (portfolio_rows db u)
  /\ Permutation (map (fun e => (View.symbol e, View.quantity e)) (Portfolio.holdings v))
                 (map (fun row => (fst row, Holding.quantity (snd row))) (portfolio_rows db u))
  /\ (forall s h, (s, h) ∈ portfolio_rows db u <->
                  stock_holdings db !! (u, s) = Some h /\ (0 < Holding.quantity h)%Z)
  /\ NoDup (map View.symbol (Portfolio.holdings v))
  /\ StronglySorted by_value_desc (Portfolio.holdings v).
Proof.
  cbv zeta.
  assert (Hperm :
    Permutation
      (map (fun e => (View.symbol e, View.quantity e))
           (Portfolio.holdings (fst (get_portfolio pow round2 db u worlds))))
      (map (fun row => (fst row, Holding.quantity (snd row))) (portfolio_rows db u))
    /\ Portfolio.number_of_holdings (fst (get_portfolio pow round2 db u worlds))
       = length (Portfolio.holdings (fst (get_portfolio pow round2 db u worlds)))
    /\ StronglySorted by_value_desc
         (Portfolio.holdings (fst (get_portfolio pow round2 db u worlds)))).
  { unfold get_portfolio.
    destruct (portfolio_rows db u) as [|row rest] eqn:E.
    { cbn. repeat split; constructor. }
    pose proof (loop_entries pow round2 u worlds (row :: rest) ([], 0, 0, db)) as Hl.
    cbv zeta in Hl.
    destruct (fold_left _ _ _) as [[[hd tcv] ti] db']. cbn [fst snd] in *.
    cbn [Portfolio.holdings Portfolio.number_of_holdings].
    split; [|split; [reflexivity|apply sort_by_value_sorted]].
    etransitivity; [apply Permutation_map, sort_by_value_perm|].
    rewrite Hl. reflexivity. }
  destruct Hperm as (Hperm & Hlen & Hsorted).
  split.
  { rewrite Hlen. rewrite <- (length_map (fun e => (View.symbol e, View.quantity e))).
    rewrite (Permutation_length Hperm). apply length_map. }
  split; [exact Hperm|]. split; [apply portfolio_rows_spec|]. split; [|exact Hsorted].
  assert (Hsym : Permutation
            (map View.symbol (Portfolio.holdings (fst (get_portfolio pow round2 db u worlds))))
            (map fst (portfolio_rows db u))).
  { apply (Permutation_map fst) in Hperm. rewrite !map_map in Hperm. exact Hperm. }
  rewrite Hsym. apply portfolio_rows_symbols_nodup.
Qed.

(** X12.  For a user who has no holding with a positive quantity the
    portfolio is the empty one and the database is not touched; its wallet
    balance is 0 whatever the wallet of the user holds. *)
Theorem get_portfolio_without_holdings
    (pow : Q -> Q -> Q) (round2 : Q -> Q) db u worlds :
  (forall s h, stock_holdings db !! (u, s) = Some h -> (Holding.quantity h <= 0)%Z) ->
  get_portfolio pow round2 db u worlds = (Portfolio.mk 0 0 0 0 0 0 0 [] None None, db)
  /\ Portfolio.wallet_balance (fst (get_portfolio pow round2 db u worlds)) = 0.
Proof.
  intros Hnone.
  assert (E : portfolio_rows db u = []).
  { destruct (portfolio_rows db u) as [|[s h] rest] eqn:E; [reflexivity|exfalso].
    assert (Hin : (s, h) ∈ portfolio_rows db u) by (rewrite E; left).
    apply portfolio_rows_spec in Hin as [Hl Hq]. specialize (Hnone s h Hl). lia. }
  unfold get_portfolio. rewrite E. split; reflexivity.
Qed.

Lemma get_portfolio_without_holdings_witness :
  let db0 := initialize_user_wallet 1 10000 0 empty_ledger in
  user_wallets db0 !! 1%Z = Some (Wallet.mk 10000 0 0)
  /\ Portfolio.wallet_balance
       (fst (get_portfolio (fun x _ => x) (fun x => x) db0 1 (fun _ => world_live))) = 0.
Proof.
  intros db0. split; [reflexivity|].
  apply (get_portfolio_without_holdings (fun x _ => x) (fun x => x) db0 1).
  intros s h Hl. exfalso. change (stock_holdings db0) with (∅ : gmap (Z * string) Holding.t) in Hl.
  rewrite lookup_empty in Hl. discriminate.
Defined.

Lemma loop_down pow round2 u worlds rows st :
  (forall s, oracle_down (worlds s)) ->
  Forall (fun e => View.error e = Some "Price update failed"%string) (fst (fst (fst st))) ->
  let st' := fold_left (loop_step pow round2 u worlds) rows st in
  snd st' = snd st
  /\ Forall (fun e => View.error e = Some "Price update failed"%string) (fst (fst (fst st'))).
Proof.
  intros Hd. revert st. induction rows as [|[s h] rest IH]; intros st Hst; cbn [fold_left].
  - split; [reflexivity|exact Hst].
  - destruct st as [[[hd tcv] ti] db]. cbn [loop_step].
    rewrite (process_holding_down pow round2 db u s h (worlds s) (Hd s)).
    cbn [fst snd] in *.
    destruct (IH (hd ++ [error_dict round2 s h],
                  tcv + market_value db u s h (worlds s), ti + Holding.total_cost h, db))
      as [Hdb Hall].
    { cbn [fst]. apply Forall_app. split; [exact Hst|]. repeat constructor. }
    split; [exact Hdb|exact Hall].
Qed.

(** X13.  When the oracle has no usable price for any symbol, looking at the
    portfolio writes nothing at all, and every entry of the list carries the
    marker "Price update failed". *)
Theorem get_portfolio_when_every_source_is_down
    (pow : Q -> Q -> Q) (round2 : Q -> Q) db u worlds :
  (forall s, oracle_down (worlds s)) ->
  snd (get_portfolio pow round2 db u worlds) = db
  /\ Forall (fun e => View.error e = Some "Price update failed"%string)
            (Portfolio.holdings (fst (get_portfolio pow round2 db u worlds))).
Proof.
  intros Hd. unfold get_portfolio.
  destruct (portfolio_rows db u) as [|row rest]; [split; [reflexivity|constructor]|].
  destruct (loop_down pow round2 u worlds (row :: rest) ([], 0, 0, db) Hd) as [Hdb Hall];
    [constructor|].
  cbv zeta in Hdb, Hall.
  destruct (fold_left _ _ _) as [[[hd tcv] ti] db']. cbn [fst snd] in *.
  cbn [Portfolio.holdings]. split; [exact Hdb|].
  rewrite sort_by_value_perm. exact Hall.
Qed.

Lemma get_portfolio_when_every_source_is_down_witness :
  let r := get_portfolio (fun x _ => x) (fun x => x) held_ledger 1 (fun _ => world_down) in
  snd r = held_ledger
  /\ Forall (fun e => View.error e = Some "Price update failed"%string)
            (Portfolio.holdings (fst r)).
Proof.
  apply (get_portfolio_when_every_source_is_down (fun x _ => x) (fun x => x)
           held_ledger 1 (fun _ => world_down)).
  intros s. left. reflexivity.
Defined.

(** *** The diversification score *)

Lemma remove_dups_length_cons {A} `{EqDecision A} (x : A) (l : list A) :
  (length (remove_dups l) <= length (remove_dups (x :: l)))%nat
  /\ (x ∈ l -> remove_dups (x :: l) = remove_dups l).
Proof.
  cbn [remove_dups]. destruct (decide_rel elem_of x l) as [Hin|Hnin].
  - split; [lia|reflexivity].
  - split; [cbn; lia|]. intros Hin. contradiction.
Qed.

Lemma loop_symbols pow round2 u worlds rows st :
  map View.symbol (fst (fst (fst (fold_left (loop_step pow round2 u worlds) rows st))))
  = map View.symbol (fst (fst (fst st))) ++ map fst rows.
Proof.
  pose proof (loop_entries pow round2 u worlds rows st) as H. cbv zeta in H.
  apply (f_equal (map fst)) in H. rewrite map_app, !map_map in H. exact H.
Qed.

(** X14.  The diversification score of the portfolio is computed from the
    symbols of the user's holdings: 20 points for each distinct pair of
    leading characters among the symbols of two characters or more, capped
    at 100.  It is a multiple of 20 between 0 and 100, it is 0 exactly when
    no symbol has two characters, a further symbol never lowers it, and a
    symbol whose two leading characters are already there leaves it as it
    is. *)
Theorem diversification_score_bounds
    (pow : Q -> Q -> Q) (round2 : Q -> Q) db u worlds (symbols : list string) (s : string) :
  Portfolio.diversification_score (fst (get_portfolio pow round2 db u worlds))
    = diversification (map fst (portfolio_rows db u))
  /\ (diversification symbols <= 100)%nat
  /\ (exists k, (k <= 5)%nat /\ diversification symbols = (20 * k)%nat)
  /\ (diversification symbols = 0%nat <->
      forall x, x ∈ symbols -> (String.length x < 2)%nat)
  /\ (diversification symbols <= diversification (s :: symbols))%nat
  /\ ((2 <= String.length s)%nat ->
      String.substring 0 2 s
        ∈ map (String.substring 0 2) (filter (fun x => (2 <= String.length x)%nat) symbols) ->
      diversification (s :: symbols) = diversification symbols).
Proof.
  split.
  { unfold get_portfolio.
    destruct (portfolio_rows db u) as [|row rest]; [reflexivity|].
    pose proof (loop_symbols pow round2 u worlds (row :: rest) ([], 0, 0, db)) as Hl.
    destruct (fold_left _ _ _) as [[[hd tcv] ti] db']. cbn [fst snd] in *.
    cbn [Portfolio.diversification_score]. rewrite Hl. reflexivity. }
  unfold diversification.
  set (pre := fun l : list string =>
                map (String.substring 0 2) (filter (fun x => (2 <= String.length x)%nat) l)).
  change (map (String.substring 0 2)
              (filter (fun x => (2 <= String.length x)%nat) symbols)) with (pre symbols).
  change (map (String.substring 0 2)
              (filter (fun x => (2 <= String.length x)%nat) (s :: symbols)))
    with (pre (s :: symbols)).
  split; [lia|]. split.
  { exists (Nat.min (length (remove_dups (pre symbols))) 5). split; lia. }
  split.
  { split.
    - intros H x Hx.
      destruct (le_lt_dec 2 (String.length x)) as [Hlen|]; [exfalso|assumption].
      assert (Hin : String.substring 0 2 x ∈ pre symbols).
      { unfold pre. apply list_elem_of_fmap. exists x. split; [reflexivity|].
        apply list_elem_of_filter. split; assumption. }
      apply elem_of_remove_dups in Hin.
      destruct (remove_dups (pre symbols)); [inversion Hin|cbn in H; lia].
    - intros H.
      assert (E : pre symbols = []).
      { unfold pre. destruct (filter _ symbols) as [|x rest] eqn:Ef; [reflexivity|exfalso].
        assert (Hx : x ∈ filter (fun x => (2 <= String.length x)%nat) symbols)
          by (rewrite Ef; left).
        apply list_elem_of_filter in Hx as [Hlen Hx]. specialize (H x Hx). lia. }
      rewrite E. reflexivity. }
  assert (Hpre : pre (s :: symbols)
                 = if decide (2 <= String.length s)%nat
                   then String.substring 0 2 s :: pre symbols else pre symbols).
  { unfold pre. rewrite filter_cons. destruct (decide _); reflexivity. }
  rewrite Hpre. destruct (decide (2 <= String.length s)%nat) as [Hlen|Hlen].
  - destruct (remove_dups_length_cons (String.substring 0 2 s) (pre symbols)) as [Hle Heq].
    split; [lia|]. intros _ Hin. rewrite (Heq Hin). reflexivity.
  - split; [lia|]. intros Hlen'. contradiction.
Qed.

(** *** Valuations write nothing *)

Lemma loop_db pow round2 u worlds rows st :
  snd (fold_left (loop_step pow round2 u worlds) rows st) = snd st.
Proof.
  revert st. induction rows as [|[s h] rest IH]; intros st; cbn [fold_left].
  - reflexivity.
  - rewrite IH. destruct st as [[[hd tcv] ti] db]. cbn [loop_step snd].
    apply process_holding_db.
Qed.

Lemma get_portfolio_db pow round2 db u worlds :
  snd (get_portfolio pow round2 db u worlds) = db.
Proof.
  unfold get_portfolio.
  destruct (portfolio_rows db u) as [|row rest] eqn:E; [reflexivity|].
  pose proof (loop_db pow round2 u worlds (row :: rest) ([], 0, 0, db)) as Hl.
  destruct (fold_left _ _ _) as [[[hd tcv] ti] db']. exact Hl.
Qed.



(** ** Properties of the price scheduler *)

Lemma usable_price_positive p :
  (truthy_opt (Some p) && Qgtb p 0)%bool = if Qlt_le_dec 0 p then true else false.
Proof.
  unfold truthy_opt, Qgtb. destruct (Qlt_le_dec 0 p) as [H|H]; [|apply andb_false_r].
  rewrite andb_true_r. destruct (Qeq_bool p 0) eqn:E; [|reflexivity].
  apply Qeq_bool_eq in E. lra.
Qed.

Lemma ledger_eta db : with_holdings (stock_holdings db) db = db.
Proof. destruct db; reflexivity. Qed.

Lemma rows_of_symbol_spec db symbol key h :
  (key, h) ∈ rows_of_symbol db symbol <->
  stock_holdings db !! key = Some h /\ snd key = symbol /\ (0 < Holding.quantity h)%Z.
Proof.
  unfold rows_of_symbol. rewrite list_elem_of_filter, elem_of_map_to_list.
  cbn [fst snd]. tauto.
Qed.

(** The UPDATE of the rows of a symbol raises as soon as there is a row. *)
Lemma refresh_symbol_held db symbol p now u h :
  stock_holdings db !! (u, symbol) = Some h ->
  (0 < Holding.quantity h)%Z ->
  refresh_symbol db symbol p now = None.
Proof.
  intros Hl Hq. unfold refresh_symbol.
  assert (Hin : ((u, symbol), h) ∈ rows_of_symbol db symbol)
    by (apply rows_of_symbol_spec; auto).
  destruct (rows_of_symbol db symbol) as [|row rest]; [inversion Hin|].
  reflexivity.
Qed.

Lemma refresh_symbol_not_held db symbol p now :
  (forall u h, stock_holdings db !! (u, symbol) = Some h -> (Holding.quantity h <= 0)%Z) ->
  refresh_symbol db symbol p now = Some db.
Proof.
  intros Hno. unfold refresh_symbol.
  destruct (rows_of_symbol db symbol) as [|[[u s] h] rest] eqn:E.
  - cbn. rewrite ledger_eta. reflexivity.
  - exfalso.
    assert (Hin : ((u, s), h) ∈ rows_of_symbol db symbol) by (rewrite E; left).
    apply rows_of_symbol_spec in Hin as (Hl & Hs & Hq). cbn [snd] in Hs. subst s.
    specialize (Hno _ _ Hl). lia.
Qed.

Lemma held_symbols_spec db s :
  s ∈ held_symbols db <->
  exists u h, stock_holdings db !! (u, s) = Some h /\ (0 < Holding.quantity h)%Z.
Proof.
  unfold held_symbols. rewrite elem_of_remove_dups, list_elem_of_omap. split.
  - intros ([[u s'] h] & Hin & Hf). cbn [fst snd] in Hf.
    apply elem_of_map_to_list in Hin.
    destruct (Z.ltb_spec 0 (Holding.quantity h)); [|discriminate].
    injection Hf as ->. eauto.
  - intros (u & h & Hl & Hq). exists ((u, s), h).
    split; [apply elem_of_map_to_list; exact Hl|]. cbn [fst snd].
    destruct (Z.ltb_spec 0 (Holding.quantity h)); [reflexivity|lia].
Qed.

(** A forced update of a symbol that someone holds changes nothing: the
    exception comes before the cache is written. *)
Lemma force_update_held prices now db symbol u h :
  stock_holdings db !! (u, symbol) = Some h ->
  (0 < Holding.quantity h)%Z ->
  _force_update_single_symbol prices now db symbol = db.
Proof.
  intros Hl Hq. unfold _force_update_single_symbol, update_symbol.
  destruct (prices (Py.upper symbol)) as [p|]; [|reflexivity].
  destruct (_ && _)%bool; [|reflexivity].
  rewrite (refresh_symbol_held db symbol p now u h Hl Hq). reflexivity.
Qed.

Lemma force_update_not_held prices now db symbol :
  (forall u h, stock_holdings db !! (u, symbol) = Some h -> (Holding.quantity h <= 0)%Z) ->
  _force_update_single_symbol prices now db symbol =
    match prices (Py.upper symbol) with
    | Some p =>
        if Qlt_le_dec 0 p then _update_price_cache symbol p None now db else db
    | None => db
    end.
Proof.
  intros Hno. unfold _force_update_single_symbol, update_symbol.
  destruct (prices (Py.upper symbol)) as [p|]; [|reflexivity].
  rewrite usable_price_positive. destruct (Qlt_le_dec 0 p); [|reflexivity].
  rewrite (refresh_symbol_not_held db symbol p now Hno). reflexivity.
Qed.

Lemma update_loop_held prices now db symbols aborted :
  (forall s, s ∈ symbols -> s ∈ held_symbols db) ->
  exists aborted',
    fold_left (update_loop_step prices now) symbols (aborted, db, db) = (aborted', db, db).
Proof.
  revert aborted. induction symbols as [|s rest IH]; intros aborted Hall; cbn [fold_left].
  - eauto.
  - assert (Hs : s ∈ held_symbols db) by (apply Hall; left).
    apply held_symbols_spec in Hs as (u & h & Hl & Hq).
    assert (Hrest : forall s', s' ∈ rest -> s' ∈ held_symbols db)
      by (intros s' Hin; apply Hall; right; exact Hin).
    unfold update_loop_step at 2.
    destruct (prices (Py.upper s)) as [p|]; [|apply IH; exact Hrest].
    destruct (_ && _)%bool; [|apply IH; exact Hrest].
    destruct aborted; [apply IH; exact Hrest|].
    rewrite (refresh_symbol_held db s p now u h Hl Hq). apply IH; exact Hrest.
Qed.

Lemma async_update_nothing prices now db : _async_update_prices prices now db = db.
Proof.
  unfold _async_update_prices.
  destruct (update_loop_held prices now db (held_symbols db) false (fun s H => H))
    as (aborted & ->).
  destruct aborted; reflexivity.
Qed.

Lemma refresh_symbol_some db symbol p now db' :
  refresh_symbol db symbol p now = Some db' -> db' = db.
Proof.
  unfold refresh_symbol. destruct (rows_of_symbol db symbol) as [|row rest].
  - cbn. rewrite ledger_eta. congruence.
  - discriminate.
Qed.

Lemma force_update_holdings prices now db symbol :
  stock_holdings (_force_update_single_symbol prices now db symbol) = stock_holdings db.
Proof.
  unfold _force_update_single_symbol, update_symbol.
  destruct (prices (Py.upper symbol)) as [p|]; [|reflexivity].
  destruct (_ && _)%bool; [|reflexivity].
  destruct (refresh_symbol db symbol p now) as [db'|] eqn:E; [|reflexivity].
  apply refresh_symbol_some in E. subst db'. reflexivity.
Qed.

(** X16.  The scheduled refresh writes nothing.  Every symbol that it
    visits is held with a positive quantity; when the oracle has a usable
    price for it, the UPDATE of its rows raises in the trigger of
    [stock_holdings], the cache is not reached and the transaction is
    aborted; a symbol without a usable price is skipped.  The database after
    the run is the database before it: no price, value or time stamp of a
    holding, and no row of the cache, has changed. *)
Theorem scheduled_refresh_writes_nothing prices now db :
  _async_update_prices prices now db = db
  /\ (forall s, s ∈ held_symbols db -> _force_update_single_symbol prices now db s = db).
Proof.
  split; [apply async_update_nothing|].
  - intros s Hs. apply held_symbols_spec in Hs as (u & h & Hl & Hq).
    exact (force_update_held prices now db s u h Hl Hq).
Qed.

Lemma execute_symbols_upper db t : symbols_upper db -> symbols_upper (snd (execute db t)).
Proof.
  intros Hup.
  destruct (execute_effect db t) as [[_ ->]|(_ & _ & Hh & _)]; [exact Hup|].
  cbv zeta in Hh. intros u s h.
  destruct Hh as [->|(h0 & ->)].
  - intros Hl. apply lookup_delete_Some in Hl as [_ Hl]. exact (Hup _ _ _ Hl).
  - intros Hl. apply lookup_insert_Some in Hl as [[E _]|[_ Hl]]; [|exact (Hup _ _ _ Hl)].
    injection E as _ <-. apply upper_idempotent.
Qed.

(** X17.  Holdings are stored under upper-case symbols, whatever the case
    of the symbols that the orders carry: this holds after any sequence of
    buys and sells on a database where it held (the empty one for
    instance). *)
Theorem holdings_are_stored_in_upper_case db ts :
  symbols_upper db -> symbols_upper (final db ts).
Proof.
  revert db. induction ts as [|t rest IH]; intros db Hup; [exact Hup|].
  rewrite final_cons. apply IH, execute_symbols_upper, Hup.
Qed.

Lemma holdings_are_stored_in_upper_case_witness :
  let db0 := initialize_user_wallet 1 10000 0 empty_ledger in
  let db1 := final db0 [TBuy None None 0 1 "aapl" 10 (Some 100)] in
  symbols_upper db1
  /\ is_Some (stock_holdings db1 !! (1%Z, "AAPL"%string))
  /\ stock_holdings db1 !! (1%Z, "aapl"%string) = None.
Proof.
  intros db0 db1. split.
  - apply holdings_are_stored_in_upper_case. intros u s h Hl.
    change (stock_holdings db0) with (∅ : gmap (Z * string) Holding.t) in Hl.
    rewrite lookup_empty in Hl. discriminate.
  - split; [eexists|]; vm_compute; reflexivity.
Defined.

(** X18.  A forced update asks the oracle for the upper-cased symbol but
    writes under the symbol as given: for a symbol that is not in upper case
    no holding is refreshed at all, and a usable price ends in a row of the
    price cache under the symbol as given. *)
Theorem force_update_needs_upper_case prices now db symbol :
  symbols_upper db ->
  Py.upper symbol <> symbol ->
  stock_holdings (_force_update_single_symbol prices now db symbol) = stock_holdings db
  /\ (forall p, prices (Py.upper symbol) = Some p -> 0 < p ->
        exists row,
          stock_prices_cache (_force_update_single_symbol prices now db symbol) !! symbol
            = Some row
          /\ CachedPrice.current_price row = p).
Proof.
  intros Hup Hne.
  assert (Hno : forall u h, stock_holdings db !! (u, symbol) = Some h ->
                            (Holding.quantity h <= 0)%Z).
  { intros u h Hl. exfalso. apply Hne. exact (Hup _ _ _ Hl). }
  rewrite (force_update_not_held prices now db symbol Hno). split.
  - destruct (prices (Py.upper symbol)) as [p|]; [|reflexivity].
    destruct (Qlt_le_dec 0 p); reflexivity.
  - intros p Hp Hpos. rewrite Hp.
    destruct (Qlt_le_dec 0 p) as [_|Hle]; [|exfalso; lra].
    unfold _update_price_cache. ledger_simpl. rewrite lookup_insert_eq.
    eexists. split; reflexivity.
Qed.

Lemma force_update_needs_upper_case_witness :
  let db := _force_update_single_symbol (fun _ => Some 120) 50 held_ledger "aapl" in
  stock_holdings db = stock_holdings held_ledger
  /\ exists row, stock_prices_cache db !! "aapl"%string = Some row
                 /\ CachedPrice.current_price row = 120.
Proof.
  intros db.
  assert (Hup : symbols_upper held_ledger).
  { intros u s h Hl. unfold held_ledger in Hl. ledger_simpl.
    apply lookup_singleton_Some in Hl as [[= <- <-] _]. reflexivity. }
  destruct (force_update_needs_upper_case (fun _ => Some 120) 50 held_ledger "aapl" Hup
              ltac:(discriminate)) as [Hh Hc].
  split; [exact Hh|]. apply (Hc 120); reflexivity.
Defined.

(** ** The price cache and the portfolio summary *)

Lemma execute_cache db t :
  is_success (fst (execute db t)) = true ->
  exists p company,
    trade_offer t = Some p
    /\ stock_prices_cache (snd (execute db t))
       = <[Py.upper (trade_symbol t) :=
             CachedPrice.mk (Some company) p
               (match t with TBuy _ _ now _ _ _ _ => now | TSell _ now _ _ _ _ => now end)]>
           (stock_prices_cache db).
Proof.
  destruct t as [fetched info now u s q cp|fetched now u s q cp];
    cbn [execute trade_offer trade_symbol].
  - destruct (buy_stock_inversion db fetched info now u s q cp)
      as [[Hf _]|(p & w & Hp & _ & _ & _ & _ & _ & _ & Hc)]; [congruence|].
    intros _. eauto.
  - destruct (sell_stock_inversion db fetched now u s q cp)
      as [[Hf _]|(p & w & h & Hp & _ & _ & _ & _ & _ & _ & _ & Hc)]; [congruence|].
    intros _. eauto.
Qed.

(** X19.  After a committed trade the price cache has a row for the
    upper-case symbol with the price of the trade and a company name, and
    the rows of the other symbols are untouched.  A later forced update of
    that symbol changes nothing as long as someone holds the symbol (the
    UPDATE of the holdings raises before the cache is reached: the cache
    keeps the price of the trade); once nobody holds it, a usable price
    replaces the cached price and keeps the company name. *)
Theorem price_cache_follows_trades_and_refreshes db t prices now2 :
  is_success (fst (execute db t)) = true ->
  let s := Py.upper (trade_symbol t) in
  let db1 := snd (execute db t) in
  exists p company row,
    trade_offer t = Some p
    /\ stock_prices_cache db1 !! s = Some row
    /\ CachedPrice.current_price row = p
    /\ CachedPrice.company_name row = Some company
    /\ (forall s', s' <> s -> stock_prices_cache db1 !! s' = stock_prices_cache db !! s')
    /\ (forall u h, stock_holdings db1 !! (u, s) = Some h -> (0 < Holding.quantity h)%Z ->
          _force_update_single_symbol prices now2 db1 s = db1)
    /\ ((forall u h, stock_holdings db1 !! (u, s) = Some h -> (Holding.quantity h <= 0)%Z) ->
        forall p2, prices s = Some p2 -> 0 < p2 ->
          stock_prices_cache (_force_update_single_symbol prices now2 db1 s) !! s
          = Some (CachedPrice.mk (Some company) p2 now2)).
Proof.
  intros Hs. cbv zeta.
  destruct (execute_cache db t Hs) as (p & company & Hp & Hc).
  exists p, company. eexists. split; [exact Hp|].
  rewrite Hc, lookup_insert_eq. split; [reflexivity|]. split; [reflexivity|].
  split; [reflexivity|]. split.
  { intros s' Hne. apply lookup_insert_ne. congruence. }
  split.
  { intros u h Hl Hq. exact (force_update_held prices now2 _ _ u h Hl Hq). }
  intros Hno p2 Hp2 Hpos. rewrite (force_update_not_held prices now2 _ _ Hno).
  rewrite upper_idempotent, Hp2.
  destruct (Qlt_le_dec 0 p2) as [_|Hle]; [|exfalso; lra].
  unfold _update_price_cache. ledger_simpl.
  rewrite lookup_insert_eq, Hc, lookup_insert_eq. reflexivity.
Qed.

Lemma price_cache_follows_trades_and_refreshes_witness :
  let db0 := initialize_user_wallet 1 10000 0 empty_ledger in
  let t := TBuy None (Some "Apple Inc."%string) 0 1 "aapl" 10 (Some 100) in
  let db1 := snd (execute db0 t) in
  stock_prices_cache db1 !! "AAPL"%string
  = Some (CachedPrice.mk (Some "Apple Inc."%string) 100 0)
  /\ _force_update_single_symbol (fun _ => Some 120) 60 db1 "AAPL" = db1.
Proof.
  intros db0 t db1.
  destruct (price_cache_follows_trades_and_refreshes db0 t (fun _ => Some 120) 60
              ltac:(vm_compute; reflexivity))
    as (p & company & row & _ & _ & _ & _ & _ & Hheld & _).
  split; [vm_compute; reflexivity|].
  apply (Hheld 1%Z (Holding.mk "Apple Inc." 10 100 100 (100 * inject_Z 10)
                               (100 * inject_Z 10) 0));
    [vm_compute; reflexivity|reflexivity].
Defined.

Lemma holdings_of_ext a b u :
  stock_holdings a = stock_holdings b -> holdings_of a u = holdings_of b u.
Proof. intros E. unfold holdings_of. rewrite E. reflexivity. Qed.

Lemma update_portfolio_summary_row u now d :
  portfolio_summary (_update_portfolio_summary u now d) !! u
  = (fun _ =>
       let rows := holdings_of d u in
       let total_value := Qsum (map Holding.current_value rows) in
       let total_invested := Qsum (map Holding.total_cost rows) in
       Summary.mk total_value total_invested (total_value - total_invested)
         (if Qlt_le_dec 0 total_invested
          then (total_value - total_invested) / total_invested * 100 else 0)
         (length rows) now) <$> portfolio_summary d !! u.
Proof.
  unfold _update_portfolio_summary.
  destruct (portfolio_summary d !! u) eqn:E; ledger_simpl.
  - rewrite lookup_insert_eq. reflexivity.
  - rewrite E. reflexivity.
Qed.

Lemma update_portfolio_summary_other u u' now d :
  u' <> u ->
  portfolio_summary (_update_portfolio_summary u now d) !! u' = portfolio_summary d !! u'.
Proof.
  intros Hne. unfold _update_portfolio_summary.
  destruct (portfolio_summary d !! u); ledger_simpl; [|reflexivity].
  apply lookup_insert_ne. congruence.
Qed.

(** The summaries after a committed trade are those that
    [_update_portfolio_summary] writes on a database with the old summaries
    and the new holdings. *)
Lemma execute_summary db t :
  is_success (fst (execute db t)) = true ->
  exists d now,
    stock_holdings d = stock_holdings (snd (execute db t))
    /\ portfolio_summary d = portfolio_summary db
    /\ portfolio_summary (snd (execute db t))
       = portfolio_summary (_update_portfolio_summary (trade_user t) now d).
Proof.
  destruct t as [fetched info now u s q cp|fetched now u s q cp];
    cbn [execute trade_user].
  - unfold buy_stock.
    destruct (trade_price cp fetched) as [p|]; [|discriminate].
    destruct (get_user_wallet db u) as [w|] eqn:Hw; [|discriminate].
    destruct (Qlt_le_dec _ _); [discriminate|].
    unfold buy_transaction, _update_price_cache, _create_notification, check_quantity.
    frame_simpl. unfold get_user_wallet in Hw. rewrite Hw. frame_simpl.
    destruct (stock_holdings db !! (u, Py.upper s)) as [h|]; cbn [Holding.quantity].
    + destruct (Holding.quantity h + q =? 0)%Z; discriminate.
    + destruct (0 <? q)%Z; [|discriminate].
      intros _. frame_simpl. eexists _, now. split; [|split; [|reflexivity]]; reflexivity.
  - unfold sell_stock.
    destruct (trade_price cp fetched) as [p|]; [|discriminate].
    destruct (stock_holdings db !! (u, Py.upper s)) as [h|]; [|discriminate].
    destruct (Holding.quantity h <? q)%Z; [discriminate|].
    unfold sell_transaction, _update_price_cache, _create_notification, check_quantity.
    destruct (get_user_wallet db u) as [w|]; [|discriminate].
    cbn [Holding.quantity].
    destruct (Holding.quantity h =? q)%Z.
    + intros _. frame_simpl. eexists _, now. split; [|split; [|reflexivity]]; reflexivity.
    + discriminate.
Qed.

(** X20.  After a committed trade the summary row of the trader, when there
    is one, agrees with the trader's holdings as the trade left them: total
    invested is the sum of their total costs, portfolio value the sum of
    their current values, gain the difference, and the number of holdings
    their number.  No summary row is created, and the rows of the other
    users are untouched. *)
Theorem summary_follows_committed_trade db t :
  is_success (fst (execute db t)) = true ->
  let u := trade_user t in
  let db' := snd (execute db t) in
  let rows := holdings_of db' u in
  match portfolio_summary db !! u with
  | Some _ =>
      exists row,
        portfolio_summary db' !! u = Some row
        /\ Summary.total_invested row = Qsum (map Holding.total_cost rows)
        /\ Summary.total_portfolio_value row = Qsum (map Holding.current_value rows)
        /\ Summary.total_gain_loss row
           = Summary.total_portfolio_value row - Summary.total_invested row
        /\ Summary.number_of_holdings row = length rows
  | None => portfolio_summary db' !! u = None
  end
  /\ (forall u', u' <> u -> portfolio_summary db' !! u' = portfolio_summary db !! u').
Proof.
  intros Hs. cbv zeta.
  destruct (execute_summary db t Hs) as (d & now & Hh & Hold & Hnew).
  rewrite Hnew. split.
  - rewrite update_portfolio_summary_row, Hold.
    rewrite <- (holdings_of_ext d _ _ Hh).
    destruct (portfolio_summary db !! trade_user t); cbn; [|reflexivity].
    eexists. split; [reflexivity|]. repeat split; reflexivity.
  - intros u' Hne. rewrite update_portfolio_summary_other by exact Hne.
    rewrite Hold. reflexivity.
Qed.

Lemma summary_follows_committed_trade_witness :
  let db0 := initialize_user_wallet 1 10000 0 empty_ledger in
  let db1 := snd (execute db0 (TBuy None None 0 1 "AAPL" 10 (Some 100))) in
  let t := TBuy None None 5 1 "MSFT" 2 (Some 50) in
  exists row,
    portfolio_summary (snd (execute db1 t)) !! 1%Z = Some row
    /\ Summary.number_of_holdings row = 2%nat
    /\ Summary.total_invested row == 1100.
Proof.
  intros db0 db1 t.
  destruct (summary_follows_committed_trade db1 t ltac:(vm_compute; reflexivity))
    as [Hrow _].
  cbv zeta in Hrow.
  assert (Hsome : is_Some (portfolio_summary db1 !! trade_user t))
    by (eexists; vm_compute; reflexivity).
  destruct Hsome as [old Hold]. rewrite Hold in Hrow.
  destruct Hrow as (row & Hlook & Hinv & _ & _ & Hnum).
  exists row. split; [exact Hlook|]. split.
  - rewrite Hnum. vm_compute. reflexivity.
  - rewrite Hinv. vm_compute. reflexivity.
Defined.

(** ** Further properties of the price oracle *)

Lemma accept_contacts src v : snd (accept src v) = [src].
Proof. unfold accept. destruct (Py.usable v); reflexivity. Qed.

Lemma try_finnhub_contacts w :
  snd (try_finnhub w) = if FINNHUB_API_KEY w then [Finnhub] else [].
Proof.
  unfold try_finnhub. destruct (FINNHUB_API_KEY w); cbn [negb]; [|reflexivity].
  destruct (finnhub_quote w) as [|[st v]]; [reflexivity|].
  destruct (st =? 200)%Z; [apply accept_contacts|reflexivity].
Qed.

Lemma try_alpha_vantage_contacts w :
  snd (try_alpha_vantage w) = if ALPHA_VANTAGE_API_KEY w then [AlphaVantage] else [].
Proof.
  unfold try_alpha_vantage. destruct (ALPHA_VANTAGE_API_KEY w); cbn [negb]; [|reflexivity].
  destruct (alpha_global_quote w) as [|[st [|[x|]]]]; try reflexivity;
    destruct (st =? 200)%Z; try reflexivity.
  destruct (Py.gt0 x); reflexivity.
Qed.

Lemma try_fast_info_contacts w : snd (try_fast_info w) = [YfFastInfo].
Proof.
  unfold try_fast_info. destruct (fast_info_last_price w); [reflexivity|apply accept_contacts].
Qed.

Lemma try_info_contacts w : snd (try_info w) = [YfInfo].
Proof. unfold try_info. destruct (info w); reflexivity. Qed.

Lemma try_history_contacts w : snd (try_history w) = [YfHistory].
Proof.
  unfold try_history. destruct (history_last_close w); [reflexivity|apply accept_contacts].
Qed.

Lemma try_yahoo_chart_contacts w : snd (try_yahoo_chart w) = [YahooChart].
Proof.
  unfold try_yahoo_chart. destruct (yahoo_chart w) as [|[st v]]; [reflexivity|].
  destruct (st =? 200)%Z; [apply accept_contacts|reflexivity].
Qed.

(** X21.  The oracle contacts its sources in the fixed order, each at most
    once, and never a keyed source whose API key is absent; when it answers
    [None] it has contacted every source it has a key for, the four
    key-less ones included. *)
Theorem oracle_contacts_sources_in_order (w : Sources) :
  let contacted := snd (get_real_time_price w) in
  StronglySorted lt (map source_rank contacted)
  /\ (FINNHUB_API_KEY w = false -> ~ In Finnhub contacted)
  /\ (ALPHA_VANTAGE_API_KEY w = false -> ~ In AlphaVantage contacted)
  /\ (fst (get_real_time_price w) = None ->
      contacted =
        (if FINNHUB_API_KEY w then [Finnhub] else [])
        ++ (if ALPHA_VANTAGE_API_KEY w then [AlphaVantage] else [])
        ++ [YfFastInfo; YfInfo; YfHistory; YahooChart]).
Proof.
  cbv zeta. unfold get_real_time_price.
  pose proof (try_finnhub_contacts w) as H1.
  pose proof (try_alpha_vantage_contacts w) as H2.
  pose proof (try_fast_info_contacts w) as H3.
  pose proof (try_info_contacts w) as H4.
  pose proof (try_history_contacts w) as H5.
  pose proof (try_yahoo_chart_contacts w) as H6.
  destruct (try_finnhub w) as [o1 l1], (try_alpha_vantage w) as [o2 l2],
    (try_fast_info w) as [o3 l3], (try_info w) as [o4 l4],
    (try_history w) as [o5 l5], (try_yahoo_chart w) as [o6 l6].
  cbn [snd] in *. subst.
  destruct (FINNHUB_API_KEY w), (ALPHA_VANTAGE_API_KEY w),
    o1, o2, o3, o4, o5, o6; cbn;
    (split; [repeat constructor; lia|]);
    (split; [try discriminate; intros _; intuition discriminate|]);
    (split; [try discriminate; intros _; intuition discriminate|]);
    try discriminate; reflexivity.
Qed.

(** ** Properties of the history and holding endpoints *)

Lemma page_empty_iff {A} (rows : list A) (limit offset : nat) :
  (1 <= limit)%nat ->
  firstn limit (skipn offset rows) = [] <-> (length rows <= offset)%nat.
Proof.
  intros Hl. split.
  - intros E. destruct (le_lt_dec (length rows) offset) as [|Hlt]; [assumption|exfalso].
    assert (Hlen : length (firstn limit (skipn offset rows)) = 0%nat) by (rewrite E; reflexivity).
    rewrite length_firstn, length_skipn in Hlen. lia.
  - intros Hle. rewrite skipn_all2 by exact Hle. apply firstn_nil.
Qed.

(** X22.  The transaction history can only be read where it is empty: with
    bounds that pass, the endpoint answers 500 as soon as the requested page
    has a row (the offset is below the number of the user's matching rows),
    and answers an empty page with the right total count otherwise.  In
    particular the first page of a user is a 500 right after any of the
    user's trades has committed. *)
Theorem transaction_history_fails_on_rows db u limit offset ty :
  (1 <= limit <= 200)%Z ->
  (0 <= offset)%Z ->
  let rows := List.filter (history_where u ty) (transactions db) in
  ((Z.of_nat (length rows) <= offset)%Z ->
   get_transaction_history db u limit offset ty
   = Some (Ok (mkHistoryPage [] (length rows) (Z.to_nat limit) (Z.to_nat offset))))
  /\ ((offset < Z.of_nat (length rows))%Z ->
      get_transaction_history db u limit offset ty = Some ServerError)
  /\ (forall t, is_success (fst (execute db t)) = true -> trade_user t = u ->
        get_transaction_history (snd (execute db t)) u limit 0 None = Some ServerError).
Proof.
  intros Hlimit Hoffset. cbv zeta.
  assert (Hb : forall o, (0 <= o)%Z ->
             ((limit <? 1) || (200 <? limit) || (o <? 0))%Z%bool = false).
  { intros o Ho. destruct (Z.ltb_spec limit 1), (Z.ltb_spec 200 limit), (Z.ltb_spec o 0);
      try lia; reflexivity. }
  split; [|split].
  - intros Hle. unfold get_transaction_history. rewrite (Hb _ Hoffset).
    assert (E : firstn (Z.to_nat limit)
                  (skipn (Z.to_nat offset) (List.filter (history_where u ty) (transactions db)))
                = []) by (apply page_empty_iff; lia).
    cbv zeta. rewrite E. reflexivity.
  - intros Hlt. unfold get_transaction_history. rewrite (Hb _ Hoffset). cbv zeta.
    destruct (firstn _ _) as [|x rest] eqn:E; [|reflexivity].
    apply page_empty_iff in E; lia.
  - intros t Hs Hu. unfold get_transaction_history. rewrite (Hb 0%Z ltac:(lia)). cbv zeta.
    destruct (firstn _ _) as [|x rest] eqn:E; [exfalso|reflexivity].
    apply page_empty_iff in E; [|lia].
    destruct (execute_effect db t) as [[Hf _]|(_ & _ & _ & (tx & Htx & Hux & _) & _)];
      [congruence|].
    cbv zeta in Htx. rewrite Htx in E. cbn [List.filter] in E.
    unfold history_where at 1 in E. rewrite Hux, Hu in E.
    rewrite bool_decide_eq_true_2 in E by reflexivity. cbn in E. lia.
Qed.

Lemma transaction_history_fails_on_rows_witness :
  let db0 := initialize_user_wallet 1 10000 0 empty_ledger in
  let db1 := snd (execute db0 (TBuy None None 0 1 "AAPL" 10 (Some 100))) in
  get_transaction_history db0 1 50 0 None = Some (Ok (mkHistoryPage [] 0 50 0))
  /\ get_transaction_history db1 1 50 0 None = Some ServerError.
Proof.
  intros db0 db1.
  destruct (transaction_history_fails_on_rows db0 1 50 0 None ltac:(lia) ltac:(lia))
    as (Hempty & _ & Hafter).
  split.
  - apply Hempty. vm_compute. discriminate.
  - apply (Hafter (TBuy None None 0 1 "AAPL" 10 (Some 100))); vm_compute; reflexivity.
Defined.





(** ** Properties of the price alerts *)

Lemma filter_map_switch_off (alerts : Alerts) (matches keep : Alert.t -> bool)
    (off : Alert.t -> Alert.t) :
  (forall a, matches a = true -> keep (off a) = false) ->
  List.filter keep (map (fun a => if matches a then off a else a) alerts)
  = List.filter (fun a => (negb (matches a) && keep a)%bool) alerts.
Proof.
  intros Hoff. induction alerts as [|a rest IH]; cbn [map List.filter]; [reflexivity|].
  rewrite IH. destruct (matches a) eqn:E; cbn [negb andb].
  - rewrite (Hoff a E). reflexivity.
  - reflexivity.
Qed.

Lemma filter_twice {A} (f g : A -> bool) (l : list A) :
  List.filter f (List.filter g l) = List.filter (fun a => (g a && f a)%bool) l.
Proof.
  induction l as [|a rest IH]; cbn [List.filter]; [reflexivity|].
  destruct (g a); cbn [andb List.filter]; [|exact IH].
  destruct (f a); rewrite IH; reflexivity.
Qed.

Lemma delete_price_alert_found (alerts : Alerts) alert_id u :
  (exists a, In a alerts /\ Alert.id a = alert_id /\ Alert.user_id a = u) ->
  delete_price_alert alerts alert_id u
  = (Ok tt,
     map (fun a =>
            if (bool_decide (Alert.id a = alert_id) && bool_decide (Alert.user_id a = u))%bool
            then Alert.mk (Alert.id a) (Alert.user_id a) (Alert.symbol a)
                          (Alert.company_name a) (Alert.alert_type a)
                          (Alert.condition_type a) (Alert.target_value a) false
            else a) alerts).
Proof.
  intros (a & Hin & Hid & Hu). unfold delete_price_alert. cbv zeta.
  destruct (Nat.eqb_spec (length (List.filter
              (fun a => (bool_decide (Alert.id a = alert_id)
                         && bool_decide (Alert.user_id a = u))%bool) alerts)) 0)
    as [E|_]; [exfalso|reflexivity].
  apply length_zero_iff_nil in E.
  assert (Hf : In a (List.filter
              (fun a => (bool_decide (Alert.id a = alert_id)
                         && bool_decide (Alert.user_id a = u))%bool) alerts)).
  { apply filter_In. split; [exact Hin|].
    rewrite !bool_decide_eq_true_2 by assumption. reflexivity. }
  rewrite E in Hf. exact Hf.
Qed.

Lemma delete_price_alert_missing (alerts : Alerts) alert_id u :
  (forall a, In a alerts -> Alert.id a = alert_id -> Alert.user_id a <> u) ->
  delete_price_alert alerts alert_id u = (NotFound, alerts).
Proof.
  intros Hnot. unfold delete_price_alert. cbv zeta.
  destruct (List.filter _ alerts) as [|a rest] eqn:E; [reflexivity|exfalso].
  assert (Hf : In a (List.filter
              (fun a => (bool_decide (Alert.id a = alert_id)
                         && bool_decide (Alert.user_id a = u))%bool) alerts))
    by (rewrite E; left; reflexivity).
  apply filter_In in Hf as [Hin Hm].
  apply andb_true_iff in Hm as [Hid Hu].
  apply bool_decide_eq_true_1 in Hid, Hu. exact (Hnot a Hin Hid Hu).
Qed.

(** X25.  A price alert can only be switched off by its owner: deleting
    with an id that the user does not own answers 404 and changes nothing;
    deleting one's own alert answers success, removes exactly that alert
    from the user's list of active alerts and leaves the lists of the other
    users as they were, and deleting it a second time answers success
    again.  A request to create an alert that carries notification methods,
    as every request does unless it gives an empty list, is answered 500 and
    creates nothing: the list is bound to a JSON column and the INSERT
    raises. *)
Theorem price_alert_is_deleted_by_its_owner_only (alerts : Alerts) alert_id u :
  let r := delete_price_alert alerts alert_id u in
  ((forall a, In a alerts -> Alert.id a = alert_id -> Alert.user_id a <> u) ->
   r = (NotFound, alerts))
  /\ ((exists a, In a alerts /\ Alert.id a = alert_id /\ Alert.user_id a = u) ->
      fst r = Ok tt
      /\ get_price_alerts (snd r) u
         = List.filter (fun a => negb (bool_decide (Alert.id a = alert_id)))
                       (get_price_alerts alerts u)
      /\ (forall u', u' <> u -> get_price_alerts (snd r) u' = get_price_alerts alerts u')
      /\ fst (delete_price_alert (snd r) alert_id u) = Ok tt)
  /\ (forall info request,
        request_notification_methods request <> [] ->
        create_price_alert alerts info u request = (ServerError, alerts))
  /\ (forall symbol alert_type condition_type target_value request,
        validate_alert symbol alert_type condition_type target_value None = Some request ->
        request_notification_methods request = ["IN_APP"%string]).
Proof.
  cbv zeta. split; [apply delete_price_alert_missing|]. split.
  - intros Hex. rewrite (delete_price_alert_found alerts alert_id u Hex). cbn [fst snd].
    set (matches := fun a : Alert.t =>
           (bool_decide (Alert.id a = alert_id) && bool_decide (Alert.user_id a = u))%bool).
    set (off := fun a : Alert.t =>
           Alert.mk (Alert.id a) (Alert.user_id a) (Alert.symbol a) (Alert.company_name a)
                    (Alert.alert_type a) (Alert.condition_type a) (Alert.target_value a)
                    false).
    split; [reflexivity|]. split; [|split].
    + unfold get_price_alerts. rewrite (filter_map_switch_off alerts matches _ off).
      * rewrite filter_twice. apply List.filter_ext. intros a. unfold matches.
        destruct (bool_decide (Alert.id a = alert_id)),
          (bool_decide_reflect (Alert.user_id a = u)); cbn; try reflexivity;
          destruct (Alert.is_active a); reflexivity.
      * intros a _. cbn. apply andb_false_r.
    + intros u' Hne'. unfold get_price_alerts.
      rewrite (filter_map_switch_off alerts matches _ off).
      * apply List.filter_ext. intros a. unfold matches.
        destruct (bool_decide_reflect (Alert.user_id a = u')) as [E|]; cbn [andb];
          [|rewrite andb_false_r; reflexivity].
        rewrite (bool_decide_eq_false_2 (Alert.user_id a = u)) by congruence.
        rewrite andb_false_r. reflexivity.
      * intros a _. cbn. apply andb_false_r.
    + rewrite delete_price_alert_found; [reflexivity|].
      destruct Hex as (a & Hin & Hid & Hu). exists (off a). split; [|split; assumption].
      apply in_map_iff. exists a. split; [|exact Hin]. unfold matches.
      rewrite !bool_decide_eq_true_2 by assumption. reflexivity.
  - split.
    + intros info request Hm. unfold create_price_alert.
      destruct (request_notification_methods request); [congruence|reflexivity].
    + intros symbol alert_type condition_type target_value request. unfold validate_alert.
      destruct (bool_decide _); [|discriminate].
      destruct (bool_decide _); [|discriminate].
      intros [= <-]. reflexivity.
Qed.

(** ** The staleness flag of the status endpoint *)

(** X26.  The staleness flag looks at the part of the age below one day
    only: a price is flagged exactly when that part exceeds 300 seconds, so
    the flag does not change when the price gets whole days older, and a
    price that is any number of days and at most 300 seconds old is not
    flagged. *)
Theorem needs_update_ignores_whole_days now t days :
  needs_update (now + 86400 * days) (Some t) = needs_update now (Some t)
  /\ ((0 <= now - t <= 300)%Z -> needs_update (now + 86400 * days) (Some t) = false)
  /\ needs_update now None = true.
Proof.
  assert (E : ((now + 86400 * days - t) mod 86400 = (now - t) mod 86400)%Z).
  { replace (now + 86400 * days - t)%Z with (now - t + days * 86400)%Z by ring.
    apply Z_mod_plus_full. }
  unfold needs_update. rewrite E. split; [reflexivity|]. split; [|reflexivity].
  intros Hage. rewrite Z.mod_small by lia. apply Z.ltb_ge. lia.
Qed.

(** ** The best and the worst performer *)

Lemma first_best_max key l x :
  first_best Qgtb key l = Some x -> In x l /\ forall y, In y l -> key y <= key x.
Proof.
  revert x. induction l as [|a rest IH]; intros x; cbn [first_best]; [discriminate|].
  destruct (first_best Qgtb key rest) as [y0|] eqn:E.
  - destruct (IH y0 eq_refl) as [Hin Hmax]. unfold Qgtb.
    destruct (Qlt_le_dec (key a) (key y0)) as [Hlt|Hle]; intros [= <-].
    + split; [right; exact Hin|]. intros y [<-|Hy]; [apply Qlt_le_weak; exact Hlt|auto].
    + split; [left; reflexivity|]. intros y [<-|Hy]; [apply Qle_refl|].
      eapply Qle_trans; [apply Hmax; exact Hy|exact Hle].
  - intros [= <-]. split; [left; reflexivity|].
    intros y [<-|Hy]; [apply Qle_refl|].
    destruct rest; [destruct Hy|]. cbn [first_best] in E.
    destruct (first_best Qgtb key rest); [destruct (Qgtb _ _)|]; discriminate.
Qed.

Lemma first_best_min key l x :
  first_best Qltb key l = Some x -> In x l /\ forall y, In y l -> key x <= key y.
Proof.
  revert x. induction l as [|a rest IH]; intros x; cbn [first_best]; [discriminate|].
  destruct (first_best Qltb key rest) as [y0|] eqn:E.
  - destruct (IH y0 eq_refl) as [Hin Hmin]. unfold Qltb.
    destruct (Qlt_le_dec (key y0) (key a)) as [Hlt|Hle]; intros [= <-].
    + split; [right; exact Hin|]. intros y [<-|Hy]; [apply Qlt_le_weak; exact Hlt|auto].
    + split; [left; reflexivity|]. intros y [<-|Hy]; [apply Qle_refl|].
      eapply Qle_trans; [exact Hle|apply Hmin; exact Hy].
  - intros [= <-]. split; [left; reflexivity|].
    intros y [<-|Hy]; [apply Qle_refl|].
    destruct rest; [destruct Hy|]. cbn [first_best] in E.
    destruct (first_best Qltb key rest); [destruct (Qltb _ _)|]; discriminate.
Qed.

Lemma first_best_none better key l : first_best better key l = None <-> l = [].
Proof.
  destruct l as [|a rest]; cbn [first_best]; [split; reflexivity|].
  split; [|discriminate].
  destruct (first_best better key rest); [destruct (better _ _)|]; discriminate.
Qed.

(** X27.  The best performer of the portfolio is an entry of its list whose
    percentage gain no entry exceeds, the worst performer one below which
    no entry falls; there is none of either exactly when the list is
    empty. *)
Theorem performers_are_extremes (pow : Q -> Q -> Q) (round2 : Q -> Q) db u worlds :
  let v := fst (get_portfolio pow round2 db u worlds) in
  (forall b, Portfolio.best_performer v = Some b ->
     In b (Portfolio.holdings v)
     /\ forall e, In e (Portfolio.holdings v) ->
          View.unrealized_gain_loss_percent e <= View.unrealized_gain_loss_percent b)
  /\ (forall b, Portfolio.worst_performer v = Some b ->
        In b (Portfolio.holdings v)
        /\ forall e, In e (Portfolio.holdings v) ->
             View.unrealized_gain_loss_percent b <= View.unrealized_gain_loss_percent e)
  /\ (Portfolio.best_performer v = None <-> Portfolio.holdings v = [])
  /\ (Portfolio.worst_performer v = None <-> Portfolio.holdings v = []).
Proof.
  cbv zeta. unfold get_portfolio.
  destruct (portfolio_rows db u) as [|row rest].
  { cbn. repeat split; try discriminate; reflexivity. }
  destruct (fold_left _ _ _) as [[[hd tcv] ti] db']. cbn [fst].
  cbn [Portfolio.best_performer Portfolio.worst_performer Portfolio.holdings].
  split; [intros b; apply first_best_max|]. split; [intros b; apply first_best_min|].
  split; apply first_best_none.
Qed.

(** ** No holding is ever updated *)

Lemma call_holdings pow round2 db c :
  holdings_as_inserted db -> holdings_as_inserted (call pow round2 db c).
Proof.
  intros Hin. unfold holdings_as_inserted in *.
  destruct c as [t|u worlds|prices now|prices now symbol]; cbn [call].
  - destruct t as [fetched info now u s q cp|fetched now u s q cp]; cbn [execute].
    + destruct (buy_stock_inserts db fetched info now u s q cp)
        as [[-> _]|(p & c & _ & _ & _ & ->)]; [exact Hin|].
      apply map_Forall_insert_2; [|exact Hin]. repeat split.
    + destruct (sell_stock_deletes db fetched now u s q cp) as [->| ->]; [exact Hin|].
      apply map_Forall_delete. exact Hin.
  - rewrite get_portfolio_db. exact Hin.
  - rewrite async_update_nothing. exact Hin.
  - rewrite force_update_holdings. exact Hin.
Qed.

Lemma numeric_zero scale x : x == 0 -> Column.numeric scale x == 0.
Proof.
  intros Hz. unfold Column.numeric.
  assert (Hs : Qnum x = 0%Z).
  { destruct x as [n d]. unfold Qeq in Hz. cbn in *. lia. }
  rewrite Hs. cbn [Z.sgn Z.mul]. reflexivity.
Qed.

(** X3.  No call ever updates a holding.  The table is written by the
    trades, by the write-back of the valuation and by the two updates of
    the price scheduler; every UPDATE among them touches a row of
    [stock_holdings] and is undone by its trigger, so rows are only inserted
    by first buys and deleted by sales of whole positions.  After any
    sequence of such calls every holding is as its buy inserted it: its
    current price is its average price and its current value its total
    cost, and the holding endpoint reports an unrealized gain of zero, in
    amount and in percent, for it (when its average price, as stored, is
    not zero). *)
Theorem holdings_are_never_updated (pow : Q -> Q -> Q) (round2 : Q -> Q) db cs :
  holdings_as_inserted db ->
  holdings_as_inserted (calls pow round2 db cs)
  /\ (forall u s h,
        stock_holdings (calls pow round2 db cs) !! (u, Py.upper s) = Some h ->
        ~ Holding.average_price (Column.stored h) == 0 ->
        exists d,
          get_stock_holding (calls pow round2 db cs) u s = Ok d
          /\ detail_row d = h
          /\ detail_unrealized_gain_loss d == 0
          /\ detail_unrealized_gain_loss_percent d == 0).
Proof.
  intros Hin.
  assert (H : holdings_as_inserted (calls pow round2 db cs)).
  { unfold calls. revert db Hin. induction cs as [|c rest IH]; intros db Hin; [exact Hin|].
    cbn [fold_left]. apply IH, call_holdings, Hin. }
  split; [exact H|].
  intros u s h Hl Hstored. unfold get_stock_holding. rewrite Hl.
  assert (Hnz : ~ Holding.average_price h == 0).
  { intros Hz. apply Hstored. cbn [Column.stored Holding.average_price].
    apply numeric_zero. exact Hz. }
  destruct (Qeq_bool (Holding.average_price h) 0) eqn:E.
  { apply Qeq_bool_eq in E. contradiction. }
  destruct (H _ _ Hl) as (Hp & Hv).
  eexists. split; [reflexivity|]. cbn [detail_row detail_current_value
    detail_unrealized_gain_loss detail_unrealized_gain_loss_percent].
  split; [reflexivity|]. rewrite Hp.
  split; [ring|]. field. exact Hnz.
Qed.

Lemma holdings_are_never_updated_witness :
  let db0 := initialize_user_wallet 1 10000 0 empty_ledger in
  let cs := [CallTrade (TBuy None None 0 1 "AAPL" 10 (Some 100));
             CallPortfolio 1 (fun _ => world_live);
             CallScheduledUpdate (fun _ => Some 130) 7200;
             CallForceUpdate (fun _ => Some 140) 9000 "AAPL";
             CallTrade (TBuy None None 9500 1 "AAPL" 5 (Some 150))] in
  let db := calls (fun x _ => x) (fun x => x) db0 cs in
  stock_holdings db !! (1%Z, "AAPL"%string)
  = Some (Holding.mk "AAPL" 10 100 100 (100 * inject_Z 10) (100 * inject_Z 10) 0)
  /\ exists d, get_stock_holding db 1 "AAPL" = Ok d /\ detail_unrealized_gain_loss d == 0.
Proof.
  intros db0 cs db.
  assert (Hin : holdings_as_inserted db0) by apply map_Forall_empty.
  destruct (holdings_are_never_updated (fun x _ => x) (fun x => x) db0 cs Hin) as [_ Hd].
  assert (Hl : stock_holdings db !! (1%Z, Py.upper "AAPL")
               = Some (Holding.mk "AAPL" 10 100 100 (100 * inject_Z 10) (100 * inject_Z 10) 0))
    by (vm_compute; reflexivity).
  split; [exact Hl|].
  destruct (Hd 1%Z "AAPL"%string _ Hl ltac:(vm_compute; discriminate))
    as (d & Hg & _ & Hu & _).
  exists d. split; [exact Hg|exact Hu].
Defined.

